(** * Montreal Forced Aligner: corpus classes

    A shallow embedding of [montreal_forced_aligner/corpus/classes.py]
    (speakers, files, utterances, their keyed collections, the annotation
    parser [File.load_text] / [parse_file] and the annotation writer
    [File.save]) together with the properties of the specification that
    concern them.

    Conventions.
    - Python [str] is [string]; the text operations the module relies on
      ([str.replace], [str.startswith], [str.lower], [str.strip],
      [str.split], [str.join]) are written out in [PyStr].  [lower] and
      [strip] are given on the ASCII range.
    - [os.path] is [posixpath]; its functions are written out in [PosixPath].
    - Exceptions are values of [exn]; a computation that may raise returns
      a [result].
    - Python numbers (the boundaries of an utterance, a duration) are kept
      abstract behind the class [PyNumber]: the module only compares them,
      rounds them and prints them.  [Dec] gives one instance, integers and
      finite decimals, on which the examples are evaluated.
    - Collaborators that live outside the module (the file system, the audio
      information reader, the TextGrid reader, the transcription tokenizer)
      are the fields of [Env]. *)

From Stdlib Require Import ZArith List String Ascii Bool Lia DecimalString.
Import ListNotations.

Open Scope list_scope.
Open Scope string_scope.

(** ** Exceptions and results *)

Inductive exn : Type :=
| TypeError (msg : string)
| KeyError (key : string)
| IndexError
| AttributeError
| CorpusError (msg : string)
| TextParseError (path : string)
| TextGridParseError (path : string) (msg : string)
| GenericException (msg : string).

Inductive result (A : Type) : Type :=
| Ok (a : A)
| Err (e : exn).

Arguments Ok {A} a.
Arguments Err {A} e.

Definition is_ok {A} (r : result A) : bool :=
  match r with Ok _ => true | Err _ => false end.

(** ** Python string operations *)

Module PyStr.

Definition chr_eqb (a b : ascii) : bool := Ascii.eqb a b.

(** [s.replace(c, r)] for a pattern [c] of exactly one character. *)
Fixpoint replace_char (c : ascii) (r : string) (s : string) : string :=
  match s with
  | EmptyString => EmptyString
  | String a s' =>
      if chr_eqb a c then r ++ replace_char c r s'
      else String a (replace_char c r s')
  end.

(** [s.replace(old, new)] for an arbitrary pattern: every non-overlapping
    occurrence, scanning from the left.  [skip] counts the characters of a
    match that are still to be dropped. *)
Fixpoint replace_from (old new : string) (skip : nat) (s : string) : string :=
  match s with
  | EmptyString => EmptyString
  | String a s' =>
      match skip with
      | S k => replace_from old new k s'
      | O =>
          if prefix old s
          then new ++ replace_from old new (String.length old - 1) s'
          else String a (replace_from old new 0 s')
      end
  end.

Fixpoint intersperse (new : string) (s : string) : string :=
  match s with
  | EmptyString => new
  | String a s' => new ++ String a (intersperse new s')
  end.

Definition replace (old new s : string) : string :=
  match old with
  | EmptyString => intersperse new s
  | _ => replace_from old new 0 s
  end.

(** [s.startswith(p)] *)
Definition startswith (s p : string) : bool := prefix p s.

(** [s.lower()], ASCII letters. *)
Definition lower_char (a : ascii) : ascii :=
  let n := nat_of_ascii a in
  if (65 <=? n)%nat && (n <=? 90)%nat then ascii_of_nat (n + 32) else a.

Fixpoint lower (s : string) : string :=
  match s with
  | EmptyString => EmptyString
  | String a s' => String (lower_char a) (lower s')
  end.

(** [s.strip()], ASCII white space. *)
Definition is_space (a : ascii) : bool :=
  let n := nat_of_ascii a in
  ((9 <=? n)%nat && (n <=? 13)%nat) || ((28 <=? n)%nat && (n <=? 32)%nat).

Fixpoint lstrip (s : string) : string :=
  match s with
  | EmptyString => EmptyString
  | String a s' => if is_space a then lstrip s' else s
  end.

Fixpoint rstrip (s : string) : string :=
  match s with
  | EmptyString => EmptyString
  | String a s' =>
      match rstrip s' with
      | EmptyString => if is_space a then EmptyString else String a EmptyString
      | r => String a r
      end
  end.

Definition strip (s : string) : string := rstrip (lstrip s).

(** [s.split(sep)] for a separator of one character: the pieces between
    the separators, at least one piece. *)
Fixpoint split_char (sep : ascii) (s : string) : list string :=
  match s with
  | EmptyString => [EmptyString]
  | String a s' =>
      match split_char sep s' with
      | [] => [EmptyString]
      | p :: ps =>
          if chr_eqb a sep then EmptyString :: p :: ps
          else String a p :: ps
      end
  end.

(** [sep.join(ws)] *)
Definition join (sep : string) (ws : list string) : string :=
  String.concat sep ws.

(** [s[:n]] for a Python integer [n]; a negative [n] counts from the end. *)
Fixpoint take (n : nat) (s : string) : string :=
  match n, s with
  | O, _ => EmptyString
  | _, EmptyString => EmptyString
  | S k, String a s' => String a (take k s')
  end.

Definition slice_to (s : string) (n : Z) : string :=
  if (0 <=? n)%Z then take (Z.to_nat n) s
  else take (String.length s - Z.to_nat (- n)) s.

Definition is_digit (a : ascii) : bool :=
  let n := nat_of_ascii a in (48 <=? n)%nat && (n <=? 57)%nat.

Fixpoint all_chars (p : ascii -> bool) (s : string) : bool :=
  match s with
  | EmptyString => true
  | String a s' => p a && all_chars p s'
  end.

(** [c not in s] *)
Definition free_of (c : ascii) (s : string) : bool :=
  all_chars (fun a => negb (chr_eqb a c)) s.

Definition digits (s : string) : bool :=
  negb (String.eqb s EmptyString) && all_chars is_digit s.

(** [s.split()] without a separator: the words between runs of white
    space.  [fields] keeps the word being read at the head of its answer. *)
Fixpoint fields (s : string) : list string :=
  match s with
  | EmptyString => [EmptyString]
  | String a s' =>
      match fields s' with
      | [] => [EmptyString]
      | w :: ws =>
          if is_space a
          then EmptyString :: (if String.eqb w EmptyString then ws else w :: ws)
          else String a w :: ws
      end
  end.

Definition split (s : string) : list string :=
  match fields s with
  | [] => []
  | w :: ws => if String.eqb w EmptyString then ws else w :: ws
  end.

End PyStr.

(** ** [posixpath] *)

Module PosixPath.

Definition sep : ascii := "/"%char.
Definition extsep : ascii := "."%char.

(** Cut [s] after its last [c]: [Some (head, tail)] with [head] ending in
    that [c], or [None] when [c] does not occur. *)
Fixpoint rcut (c : ascii) (s : string) : option (string * string) :=
  match s with
  | EmptyString => None
  | String a s' =>
      match rcut c s' with
      | Some (h, t) => Some (String a h, t)
      | None =>
          if PyStr.chr_eqb a c then Some (String a EmptyString, s') else None
      end
  end.

(** [head.rstrip('/')] *)
Fixpoint rstrip_sep (s : string) : string :=
  match s with
  | EmptyString => EmptyString
  | String a s' =>
      match rstrip_sep s' with
      | EmptyString =>
          if PyStr.chr_eqb a sep then EmptyString else String a EmptyString
      | r => String a r
      end
  end.

(** [os.path.split(p)] *)
Definition split (p : string) : string * string :=
  match rcut sep p with
  | Some (h, t) =>
      (match rstrip_sep h with EmptyString => h | h' => h' end, t)
  | None => (EmptyString, p)
  end.

Definition basename (p : string) : string :=
  match rcut sep p with
  | Some (_, t) => t
  | None => p
  end.

Definition dirname (p : string) : string := fst (split p).

(** [os.path.splitext(p)]: the extension starts at the last dot of the
    last component, leading dots of that component not counting. *)
Definition splitext (p : string) : string * string :=
  let (h, file) := match rcut sep p with
                   | Some (h, t) => (h, t)
                   | None => (EmptyString, p)
                   end in
  match rcut extsep file with
  | Some (stem_dot, ext) =>
      (* [stem_dot] is the part of the component up to and including its
         last dot *)
      let stem := PyStr.take (String.length stem_dot - 1) stem_dot in
      if PyStr.all_chars (fun a => PyStr.chr_eqb a extsep) stem
      then (p, EmptyString)
      else (h ++ stem, String extsep ext)
  | None => (p, EmptyString)
  end.

(** [os.path.join(a, b)] *)
Definition join (a b : string) : string :=
  if PyStr.startswith b "/" then b
  else
    match a with
    | EmptyString => b
    | _ =>
        match rcut sep a with
        | Some (_, EmptyString) => a ++ b
        | _ => a ++ "/" ++ b
        end
    end.

End PosixPath.

(** ** Python numbers *)

(** What the module asks of a boundary or a duration: the integer literal
    [0] that [File.duration] returns when there is no sound file, the
    comparison behind the builtin [min], the builtin [round] and the text an
    f-string prints. *)
Class PyNumber (num : Type) : Type := {
  of_int : Z -> num;
  lt : num -> num -> bool;
  round : num -> nat -> num;
  str : num -> string
}.

(** The builtin [min(a, b)]: the first of the smallest. *)
Definition py_min {num} `{PyNumber num} (a b : num) : num :=
  if lt b a then b else a.

(** Integers and finite decimals, with Python's printing of them in
    positional notation. [Float m e] is the float written [m * 10^-e]. *)
Module Dec.

Inductive t : Type :=
| Int (z : Z)
| Float (m : Z) (e : nat).

Definition pow10 (e : nat) : Z := Z.pow 10 (Z.of_nat e).

Definition mantissa (a : t) : Z :=
  match a with Int z => z | Float m _ => m end.

Definition scale (a : t) : nat :=
  match a with Int _ => O | Float _ e => e end.

Definition ltb (a b : t) : bool :=
  (mantissa a * pow10 (scale b) <? mantissa b * pow10 (scale a))%Z.

(** Round half to even at [n] decimals; an [int] is returned as it is. *)
Definition round_to (a : t) (n : nat) : t :=
  match a with
  | Int z => Int z
  | Float m e =>
      if (e <=? n)%nat then Float m e
      else
        let d := pow10 (e - n) in
        let q := (m / d)%Z in
        let r := (m mod d)%Z in
        let up := if (d <? 2 * r)%Z then true
                  else if (2 * r <? d)%Z then false
                  else Z.odd q in
        Float (if up then q + 1 else q)%Z n
  end.

Definition zstr (z : Z) : string := NilZero.string_of_int (Z.to_int z).

Fixpoint zeros (n : nat) : string :=
  match n with O => EmptyString | S k => String "0" (zeros k) end.

(** Drop the trailing zeros of the fraction. *)
Fixpoint norm (m : Z) (e : nat) : Z * nat :=
  match e with
  | O => (m, O)
  | S e' => if (m mod 10 =? 0)%Z then norm (m / 10)%Z e' else (m, e)
  end.

Definition to_str (a : t) : string :=
  match a with
  | Int z => zstr z
  | Float m e =>
      let (m', e') := norm m e in
      let a := Z.abs m' in
      let ip := zstr (a / pow10 e')%Z in
      let fp := zstr (a mod pow10 e')%Z in
      (if (m' <? 0)%Z then "-" else "") ++ ip ++ "." ++
      match e' with
      | O => "0"
      | _ => zeros (e' - String.length fp) ++ fp
      end
  end.

#[global] Instance number : PyNumber t := {
  of_int := Int;
  lt := ltb;
  round := round_to;
  str := to_str
}.

End Dec.

(** ** Keyed collections *)

(** [Collection] wraps a Python [dict] from names to entities. A [dict]
    iterates in insertion order, and assigning to a key that is present
    keeps the key's place: an association list without repeated keys. *)
Module Collection.

Section Defs.
Variable T : Type.

Definition t : Type := list (string * T).

Definition empty : t := [].

(** [__setitem__] *)
Fixpoint setitem (key : string) (item : T) (c : t) : t :=
  match c with
  | [] => [(key, item)]
  | (k, v) :: c' =>
      if String.eqb k key then (k, item) :: c'
      else (k, v) :: setitem key item c'
  end.

(** [__getitem__] *)
Fixpoint getitem (key : string) (c : t) : result T :=
  match c with
  | [] => Err (KeyError key)
  | (k, v) :: c' => if String.eqb k key then Ok v else getitem key c'
  end.

(** [__contains__] on a name *)
Fixpoint contains (key : string) (c : t) : bool :=
  match c with
  | [] => false
  | (k, _) :: c' => String.eqb k key || contains key c'
  end.

Fixpoint remove (key : string) (c : t) : t :=
  match c with
  | [] => []
  | (k, v) :: c' =>
      if String.eqb k key then c' else (k, v) :: remove key c'
  end.

(** [__delitem__] *)
Definition delitem (key : string) (c : t) : result t :=
  if contains key c then Ok (remove key c) else Err (KeyError key).

(** [__iter__] *)
Definition iter (c : t) : list T := map snd c.

Definition keys (c : t) : list string := map fst c.

(** [__len__] *)
Definition len (c : t) : nat := List.length c.

(** [__bool__] *)
Definition nonempty (c : t) : bool :=
  match c with [] => false | _ => true end.

(** [update] from a list of entities, [name] giving their keys *)
Definition update_items (name : T -> string) (other : list T) (c : t) : t :=
  fold_left (fun acc item => setitem (name item) item acc) other c.

(** [__contains__] on an entity: its name is looked up. *)
Definition contains_item (name : T -> string) (item : T) (c : t) : bool :=
  contains (name item) c.

(** [update] from another collection: [dict.update]. *)
Definition update (other c : t) : t :=
  fold_left (fun acc kv => setitem (fst kv) (snd kv) acc) other c.

End Defs.

Arguments empty {T}.
Arguments setitem {T} key item c.
Arguments getitem {T} key c.
Arguments contains {T} key c.
Arguments remove {T} key c.
Arguments delitem {T} key c.
Arguments iter {T} c.
Arguments keys {T} c.
Arguments len {T} c.
Arguments nonempty {T} c.
Arguments update_items {T} name other c.
Arguments contains_item {T} name item c.
Arguments update {T} other c.

End Collection.

(** ** Speakers *)

Module Speaker.

(** The fields a speaker is pickled with.  The speaker's own collection of
    utterances and its dictionary play no part in what follows. *)
Record t : Type := mk {
  name : string;
  cmvn : option string;
  dictionary_name : option string
}.

(** [Speaker(name)] *)
Definition init (name : string) : t := mk name None None.

Definition getstate (s : t) : t := s.

(** [__setstate__] on an object: the three fields of the record. *)
Definition setstate (state : t) (self : t) : t :=
  mk (name state) (cmvn state) (dictionary_name state).

End Speaker.

(** ** Utterances *)

Module Utterance.

Section Defs.
Context {num : Type} `{PyNumber num}.

Record CtmInterval : Type := mkCtm {
  ctm_begin : num;
  ctm_end : num;
  ctm_label : string
}.

(** The owning file is referred to by [file_name]; [speaker] is the
    attribute of that name, [None] when it holds Python's [None]. *)
Record t : Type := mk {
  speaker : option Speaker.t;
  file_name : string;
  speaker_name : string;
  begin : option num;
  end_ : option num;
  channel : option Z;
  text : option string;
  transcription_text : option string;
  ignored : bool;
  features : option string;
  feature_length : option Z;
  phone_labels : option (list CtmInterval);
  word_labels : option (list CtmInterval);
  oovs : list string
}.

(** [Utterance(speaker, file, begin, end, channel, text)]; [file] enters
    through its name. *)
Definition init (speaker : Speaker.t) (file_name : string)
    (begin end_ : option num) (channel : option Z) (text : option string) : t :=
  {| speaker := Some speaker;
     file_name := file_name;
     speaker_name := Speaker.name speaker;
     begin := begin;
     end_ := end_;
     channel := channel;
     text := text;
     transcription_text := None;
     ignored := false;
     features := None;
     feature_length := None;
     phone_labels := None;
     word_labels := None;
     oovs := [] |}.

Definition is_some {A} (o : option A) : bool :=
  match o with Some _ => true | None => false end.

(** [is_segment] *)
Definition is_segment (u : t) : bool :=
  is_some (begin u) && is_some (end_ u).

(** The three chained [replace] calls of [name]. *)
Definition substitute (s : string) : string :=
  PyStr.replace_char "_" "-"
    (PyStr.replace_char "." "-"
       (PyStr.replace_char " " "-space-" s)).

(** What an f-string prints for an attribute that may be [None]. *)
Definition fmt (o : option num) : string :=
  match o with Some x => str x | None => "None" end.

(** The [name] property. *)
Definition name (u : t) : string :=
  let base := file_name u in
  let base := substitute base in
  let base :=
    if negb (PyStr.startswith base (speaker_name u ++ "-"))
    then (speaker_name u ++ "-") ++ base
    else base in
  let base :=
    if is_segment u
    then base ++ "-" ++ fmt (begin u) ++ "-" ++ fmt (end_ u)
    else base in
  substitute base.

(** The naming algorithm as the specification words it, on the four
    values it names: start from the file name and substitute; prepend
    the speaker and a dash unless the result starts with them; append
    the two boundaries when both are set; substitute again. *)
Definition name_of (file speaker : string) (b e : option num) : string :=
  let step2 := substitute file in
  let step3 :=
    if PyStr.startswith step2 (speaker ++ "-") then step2
    else (speaker ++ "-") ++ step2 in
  let step4 :=
    match b, e with
    | Some x, Some y => step3 ++ "-" ++ str x ++ "-" ++ str y
    | _, _ => step3
    end in
  substitute step4.

(** What steps 1 to 3 of the algorithm leave. *)
Definition stem (file speaker : string) : string :=
  if PyStr.startswith (substitute file) (speaker ++ "-")
  then substitute file
  else (speaker ++ "-") ++ substitute file.

(** A printed number in plain positional form: digits, a dot, digits. *)
Definition plain_decimal (s : string) : bool :=
  match PyStr.split_char "." s with
  | [a; b] => PyStr.digits a && PyStr.digits b
  | _ => false
  end.

(** [not utterance.phone_labels] *)
Definition no_phone_labels (u : t) : bool :=
  match phone_labels u with
  | None => true
  | Some [] => true
  | Some (_ :: _) => false
  end.

(** *** Pickling *)

(** The dictionary [__getstate__] returns. *)
Record State : Type := mkState {
  state_file_name : string;
  state_speaker_name : string;
  state_begin : option num;
  state_end : option num;
  state_channel : option Z;
  state_text : option string;
  state_transcription_text : option string;
  state_oovs : list string;
  state_ignored : bool;
  state_features : option string;
  state_feature_length : option Z;
  state_phone_labels : option (list CtmInterval);
  state_word_labels : option (list CtmInterval)
}.

(** [__getstate__] *)
Definition getstate (u : t) : State :=
  {| state_file_name := file_name u;
     state_speaker_name := speaker_name u;
     state_begin := begin u;
     state_end := end_ u;
     state_channel := channel u;
     state_text := text u;
     state_transcription_text := transcription_text u;
     state_oovs := oovs u;
     state_ignored := ignored u;
     state_features := features u;
     state_feature_length := feature_length u;
     state_phone_labels := phone_labels u;
     state_word_labels := word_labels u |}.

(** [__setstate__]: every attribute of the record is assigned; [speaker]
    is left as the object has it. *)
Definition setstate (state : State) (self : t) : t :=
  {| speaker := speaker self;
     file_name := state_file_name state;
     speaker_name := state_speaker_name state;
     begin := state_begin state;
     end_ := state_end state;
     channel := state_channel state;
     text := state_text state;
     transcription_text := state_transcription_text state;
     ignored := state_ignored state;
     features := state_features state;
     feature_length := state_feature_length state;
     phone_labels := state_phone_labels state;
     word_labels := state_word_labels state;
     oovs := state_oovs state |}.

(** *** Export to Kaldi *)

(** [text_for_scp] *)
Definition text_for_scp (u : t) : result (list string) :=
  match text u with
  | Some t => Ok (PyStr.split t)
  | None => Err AttributeError
  end.

(** What [text_int_for_scp] uses of the dictionary data of the speaker:
    the lookup of a word and the integer of the out-of-vocabulary word. *)
Record DictionaryData : Type := mkDictionaryData {
  to_int : string -> list Z;
  oov_int : Z
}.

(** [set.add] on a set kept as a list without repetition. *)
Definition set_add (x : string) (l : list string) : list string :=
  if existsb (String.eqb x) l then l else (l ++ [x])%list.

(** The inner loop of [text_int_for_scp], for the word [t]. *)
Fixpoint lookup_loop (data : DictionaryData) (t : string) (lookup : list Z)
    (acc : list string * list Z) : list string * list Z :=
  match lookup with
  | [] => acc
  | w :: lookup' =>
      let seen := if Z.eqb w (oov_int data) then set_add t (fst acc) else fst acc in
      lookup_loop data t lookup' (seen, (snd acc ++ [w])%list)
  end.

(** The outer loop: the words of the text in order. *)
Definition words_loop (data : DictionaryData) (words : list string)
    (acc : list string * list Z) : list string * list Z :=
  fold_left (fun acc t => lookup_loop data t (to_int data t) acc) words acc.

Definition set_oovs (l : list string) (u : t) : t :=
  mk (speaker u) (file_name u) (speaker_name u) (begin u) (end_ u) (channel u)
     (text u) (transcription_text u) (ignored u) (features u) (feature_length u)
     (phone_labels u) (word_labels u) l.

(** [text_int_for_scp]; [dictionary_data] reads the attribute of that name
    of a speaker.  The answer is paired with the utterance as the call
    leaves it. *)
Definition text_int_for_scp (dictionary_data : Speaker.t -> option DictionaryData)
    (u : t) : result (option (list Z)) * t :=
  match speaker u with
  | None => (Err AttributeError, u)
  | Some s =>
      match dictionary_data s with
      | None => (Ok None, u)
      | Some data =>
          match text_for_scp u with
          | Err e => (Err e, u)
          | Ok words =>
              let (seen, new_text) := words_loop data words (oovs u, []) in
              (Ok (Some new_text), set_oovs seen u)
          end
      end
  end.

End Defs.

Arguments t num : clear implicits.
Arguments CtmInterval num : clear implicits.
Arguments State num : clear implicits.
Arguments DictionaryData : clear implicits.

End Utterance.

(** ** Audio information and TextGrid documents *)

(** The dictionary [helper.get_wav_info] returns. *)
Module WavInfo.
Record t (num : Type) : Type := mk {
  duration : num;
  sample_rate : Z;
  num_channels : Z;
  format : string;
  sox_string : string
}.
Arguments mk {num}.
Arguments duration {num}.
Arguments sample_rate {num}.
Arguments num_channels {num}.
Arguments format {num}.
Arguments sox_string {num}.
End WavInfo.

(** [praatio] documents.  A document that was read holds interval tiers
    and point tiers in the order of [tierNameList]; an interval tier lists
    [(start, end, label)] entries.  A document that [File.save] builds holds
    interval tiers whose entries repeat the attributes of the utterances,
    [None] included. *)
Module Praat.

Section Defs.
Variable num : Type.

Definition Entry : Type := (num * num * string)%type.

Inductive TierBody : Type :=
| IntervalEntries (entryList : list Entry)
| PointEntries (points : list (num * string)).

Record Tier : Type := mkTier {
  tier_name : string;
  tier_body : TierBody
}.

Definition Textgrid : Type := list Tier.

Record Interval : Type := mkInterval {
  start : option num;
  stop : option num;
  label : option string
}.

Record IntervalTier : Type := mkIntervalTier {
  name : string;
  entryList : list Interval;
  minT : num;
  maxT : num
}.

Record Document : Type := mkDocument {
  tiers : list IntervalTier;
  maxTimestamp : num
}.

Definition is_interval_tier (ti : Tier) : bool :=
  match tier_body ti with IntervalEntries _ => true | PointEntries _ => false end.

Definition entries (ti : Tier) : list Entry :=
  match tier_body ti with IntervalEntries l => l | PointEntries _ => [] end.

Definition append_entry (iv : Interval) (ti : IntervalTier) : IntervalTier :=
  mkIntervalTier (name ti) (entryList ti ++ [iv])%list (minT ti) (maxT ti).

End Defs.

Arguments IntervalEntries {num}.
Arguments PointEntries {num}.
Arguments mkTier {num}.
Arguments tier_name {num}.
Arguments tier_body {num}.
Arguments mkInterval {num}.
Arguments start {num}.
Arguments stop {num}.
Arguments label {num}.
Arguments mkIntervalTier {num}.
Arguments name {num}.
Arguments entryList {num}.
Arguments minT {num}.
Arguments maxT {num}.
Arguments mkDocument {num}.
Arguments tiers {num}.
Arguments maxTimestamp {num}.
Arguments is_interval_tier {num}.
Arguments entries {num}.
Arguments append_entry {num}.

End Praat.

(** ** Files *)

Module File.

Section Defs.
Context {num : Type} `{PyNumber num}.

Record t : Type := mk {
  name : string;
  wav_path : option string;
  text_path : option string;
  relative_path : option string;
  wav_info : option (WavInfo.t num);
  waveform : option (list (list num));
  speaker_ordering : list (option Speaker.t);
  utterances : Collection.t (Utterance.t num);
  aligned : bool
}.

(** What a method does to the world outside the objects: the calls it
    makes, in order, with their arguments.  The methods are followed along
    the path on which [os.makedirs], [open], [write] and [tg.save] return;
    an exception raised inside one of them is not modelled, so an event
    says that the call is made, not that it succeeds. *)
Inductive event : Type :=
| GetWavInfo (path : string)
| MakeDirs (path : string)
| OpenWrite (path : string)
| Write (path : string) (text : string)
| SaveTextgrid (path : string) (tg : Praat.Document num).

(** The collaborators: [os.path.exists], [helper.get_wav_info],
    [helper.load_text] ([None] when decoding fails),
    [textgrid.openTextgrid] (the formatted traceback when it raises) and
    [helper.parse_transcription] with the sanitize function applied. *)
Record Env : Type := mkEnv {
  path_exists : string -> bool;
  get_wav_info : string -> WavInfo.t num;
  helper_load_text : string -> option string;
  openTextgrid : string -> string + Praat.Textgrid num;
  parse_transcription : string -> list string
}.

(** The state a method runs in: the file object, the events so far (in
    order) and how often the stop check has been polled. *)
Record St : Type := mkSt {
  self : t;
  trace : list event;
  polls : nat
}.

Definition start (f : t) : St := mkSt f [] 0.

(** A method may change the file and then raise: the state survives. *)
Definition M (A : Type) : Type := St -> result A * St.

Definition ret {A} (a : A) : M A := fun st => (Ok a, st).

Definition raise {A} (e : exn) : M A := fun st => (Err e, st).

Definition bind {A B} (m : M A) (k : A -> M B) : M B :=
  fun st =>
    match m st with
    | (Ok a, st') => k a st'
    | (Err e, st') => (Err e, st')
    end.

Definition get_self : M t := fun st => (Ok (self st), st).

Definition set_self (f : t) : M unit :=
  fun st => (Ok tt, mkSt f (trace st) (polls st)).

Definition emit (e : event) : M unit :=
  fun st => (Ok tt, mkSt (self st) (trace st ++ [e])%list (polls st)).

Definition lift {A} (r : result A) : M A :=
  match r with Ok a => ret a | Err e => raise e end.

Notation "x <- m ;; k" := (bind m (fun x => k))
  (at level 61, m at next level, right associativity).
Notation "m ;;; k" := (bind m (fun _ => k))
  (at level 61, right associativity).

(** [for x in xs: body], where [body] answers [true] when the method
    returns from inside the loop. *)
Fixpoint for_each {A} (xs : list A) (body : A -> M bool) : M bool :=
  match xs with
  | [] => ret false
  | x :: xs' =>
      stop <- body x ;;
      if stop then ret true else for_each xs' body
  end.

(** [File(wav_path, text_path, relative_path)] *)
Definition init (wav_path text_path relative_path : option string) : result t :=
  match
    match wav_path, text_path with
    | Some w, _ => Ok (fst (PosixPath.splitext (PosixPath.basename w)))
    | None, Some p => Ok (fst (PosixPath.splitext (PosixPath.basename p)))
    | None, None =>
        Err (CorpusError "File objects must have either a wav_path or text_path")
    end
  with
  | Ok n =>
      Ok {| name := n;
            wav_path := wav_path;
            text_path := text_path;
            relative_path := relative_path;
            wav_info := None;
            waveform := None;
            speaker_ordering := [];
            utterances := Collection.empty;
            aligned := false |}
  | Err e => Err e
  end.

Variable env : Env.

(** [has_sound_file] *)
Definition has_sound_file (f : t) : bool :=
  match wav_path f with
  | Some w => path_exists env w
  | None => false
  end.

(** [has_text_file] *)
Definition has_text_file (f : t) : bool :=
  match text_path f with
  | Some p => path_exists env p
  | None => false
  end.

(** [text_type] *)
Definition text_type (f : t) : option string :=
  if has_text_file f then
    match text_path f with
    | Some p =>
        if String.eqb (PyStr.lower (snd (PosixPath.splitext p))) ".textgrid"
        then Some "textgrid" else Some "lab"
    | None => None
    end
  else None.

Definition set_wav_info (i : option (WavInfo.t num)) (f : t) : t :=
  mk (name f) (wav_path f) (text_path f) (relative_path f) i (waveform f)
     (speaker_ordering f) (utterances f) (aligned f).

Definition set_speaker_ordering (l : list (option Speaker.t)) (f : t) : t :=
  mk (name f) (wav_path f) (text_path f) (relative_path f) (wav_info f)
     (waveform f) l (utterances f) (aligned f).

Definition set_utterances (c : Collection.t (Utterance.t num)) (f : t) : t :=
  mk (name f) (wav_path f) (text_path f) (relative_path f) (wav_info f)
     (waveform f) (speaker_ordering f) c (aligned f).

(** [load_info] *)
Definition load_info : M unit :=
  f <- get_self ;;
  match wav_path f with
  | Some w =>
      emit (GetWavInfo w) ;;;
      set_self (set_wav_info (Some (get_wav_info env w)) f)
  | None => ret tt
  end.

(** The body shared by the properties that read [wav_info]:
    [if not self.wav_info: self.load_info()], then the entry read. *)
Definition wav_info_entry {A} (field : WavInfo.t num -> A) : M A :=
  f <- get_self ;;
  (match wav_info f with
   | Some _ => ret tt
   | None => load_info
   end) ;;;
  f <- get_self ;;
  match wav_info f with
  | Some i => ret (field i)
  | None => raise (TypeError "'NoneType' object is not subscriptable")
  end.

(** [duration] *)
Definition duration : M num :=
  f <- get_self ;;
  match wav_path f with
  | None => ret (of_int 0)
  | Some _ => wav_info_entry WavInfo.duration
  end.

(** [num_channels] *)
Definition num_channels : M Z :=
  f <- get_self ;;
  match wav_path f with
  | None => ret 0%Z
  | Some _ => wav_info_entry WavInfo.num_channels
  end.

(** [sample_rate] *)
Definition sample_rate : M Z :=
  f <- get_self ;;
  match wav_path f with
  | None => ret 0%Z
  | Some _ => wav_info_entry WavInfo.sample_rate
  end.

(** [format] *)
Definition format : M string := wav_info_entry WavInfo.format.

(** [speaker in self.speaker_ordering]: the elements are compared with
    [==] from the left; [Speaker.__eq__] raises on [None]. *)
Fixpoint speaker_in (speaker : option Speaker.t)
    (l : list (option Speaker.t)) : result bool :=
  match l with
  | [] => Ok false
  | e :: l' =>
      match speaker, e with
      | None, None => Ok true
      | Some s, Some s' =>
          if String.eqb (Speaker.name s') (Speaker.name s) then Ok true
          else speaker_in speaker l'
      | _, _ =>
          Err (TypeError
                 "Speakers can only be compared to other speakers and strings.")
      end
  end.

(** [add_speaker] *)
Definition add_speaker (speaker : option Speaker.t) : M unit :=
  f <- get_self ;;
  present <- lift (speaker_in speaker (speaker_ordering f)) ;;
  if negb present
  then set_self (set_speaker_ordering (speaker_ordering f ++ [speaker])%list f)
  else ret tt.

(** [add_utterance] *)
Definition add_utterance (utterance : Utterance.t num) : M unit :=
  f <- get_self ;;
  set_self (set_utterances
              (Collection.setitem (Utterance.name utterance) utterance
                 (utterances f)) f) ;;;
  add_speaker (Utterance.speaker utterance).

(** [delete_utterance] *)
Definition delete_utterance (utterance : Utterance.t num) : M unit :=
  f <- get_self ;;
  let identifier := Utterance.name utterance in
  c <- lift (Collection.delitem identifier (utterances f)) ;;
  set_self (set_utterances c f).

(** *** Pickling *)

(** The dictionary [__getstate__] returns. *)
Record State : Type := mkState {
  state_name : string;
  state_wav_path : option string;
  state_text_path : option string;
  state_relative_path : option string;
  state_aligned : bool;
  state_wav_info : option (WavInfo.t num);
  state_waveform : option (list (list num));
  state_speaker_ordering : list Speaker.t;
  state_utterances : Collection.t (Utterance.t num)
}.

(** [[x.__getstate__() for x in self.speaker_ordering]], on an interpreter
    where [None] has no [__getstate__] (before Python 3.11). *)
Fixpoint speaker_states (l : list (option Speaker.t)) : result (list Speaker.t) :=
  match l with
  | [] => Ok []
  | None :: _ => Err AttributeError
  | Some x :: l' =>
      match speaker_states l' with
      | Ok r => Ok (Speaker.getstate x :: r)
      | Err e => Err e
      end
  end.

(** [__getstate__] *)
Definition getstate (f : t) : result State :=
  match speaker_states (speaker_ordering f) with
  | Ok so =>
      Ok {| state_name := name f;
            state_wav_path := wav_path f;
            state_text_path := text_path f;
            state_relative_path := relative_path f;
            state_aligned := aligned f;
            state_wav_info := wav_info f;
            state_waveform := waveform f;
            state_speaker_ordering := so;
            state_utterances := utterances f |}
  | Err e => Err e
  end.

Definition set_speaker (s : Speaker.t) (u : Utterance.t num) : Utterance.t num :=
  Utterance.mk (Some s) (Utterance.file_name u) (Utterance.speaker_name u)
    (Utterance.begin u) (Utterance.end_ u) (Utterance.channel u)
    (Utterance.text u) (Utterance.transcription_text u) (Utterance.ignored u)
    (Utterance.features u) (Utterance.feature_length u)
    (Utterance.phone_labels u) (Utterance.word_labels u) (Utterance.oovs u).

(** The inner loop of [__setstate__]: every speaker of the ordering
    whose name is the utterance's [speaker_name] becomes its speaker. *)
Definition relink (l : list (option Speaker.t)) (u : Utterance.t num) : Utterance.t num :=
  fold_left
    (fun u s =>
       match s with
       | Some sp =>
           if String.eqb (Speaker.name sp) (Utterance.speaker_name u)
           then set_speaker sp u else u
       | None => u
       end) l u.

(** [__setstate__] *)
Definition setstate (state : State) : M unit :=
  set_self {| name := state_name state;
              wav_path := state_wav_path state;
              text_path := state_text_path state;
              relative_path := state_relative_path state;
              wav_info := state_wav_info state;
              waveform := state_waveform state;
              speaker_ordering := map Some (state_speaker_ordering state);
              utterances := Collection.empty;
              aligned := state_aligned state |} ;;;
  stop <- for_each (Collection.iter (state_utterances state))
            (fun u =>
               f <- get_self ;;
               add_utterance (relink (speaker_ordering f) u) ;;;
               ret false) ;;
  ret tt.

(** *** Writing *)

Definition truthy (o : option string) : bool :=
  match o with
  | Some EmptyString => false
  | Some _ => true
  | None => false
  end.

(** [construct_output_path] *)
Definition construct_output_path (output_directory backup_output_directory : option string)
    (enforce_lab : bool) : M string :=
  f <- get_self ;;
  let extension := if enforce_lab then ".lab" else ".TextGrid" in
  match output_directory with
  | None =>
      match text_path f with
      | None =>
          match wav_path f with
          | Some w => ret (fst (PosixPath.splitext w) ++ extension)
          | None => raise (TypeError "expected str, bytes or os.PathLike object, not NoneType")
          end
      | Some p => ret p
      end
  | Some od =>
      let relative :=
        if truthy (relative_path f)
        then match relative_path f with
             | Some r => PosixPath.join od r
             | None => od
             end
        else od in
      let tg_path := PosixPath.join relative (name f ++ extension) in
      let tg_path :=
        match backup_output_directory with
        | Some bod =>
            if path_exists env tg_path then PyStr.replace od bod tg_path
            else tg_path
        | None => tg_path
        end in
      emit (MakeDirs (PosixPath.dirname tg_path)) ;;;
      ret tg_path
  end.

(** The key under which [save] files a tier: speakers are hashed and
    compared by name, and a speaker compares equal to its name. *)
Definition tier_key (speaker : option Speaker.t) : string :=
  match speaker with
  | None => "speech"
  | Some s => Speaker.name s
  end.

(** The first loop of the general case of [save]. *)
Definition build_tiers (max_time : num) (l : list (option Speaker.t))
    : Collection.t (Praat.IntervalTier num) :=
  fold_left
    (fun tiers speaker =>
       Collection.setitem (tier_key speaker)
         (Praat.mkIntervalTier (tier_key speaker) [] (of_int 0) max_time) tiers)
    l Collection.empty.

Definition interval_of (utterance : Utterance.t num) : Praat.Interval num :=
  match Utterance.transcription_text utterance with
  | Some transcription =>
      Praat.mkInterval (Utterance.begin utterance) (Utterance.end_ utterance)
        (Some transcription)
  | None =>
      Praat.mkInterval (Utterance.begin utterance) (Utterance.end_ utterance)
        (Utterance.text utterance)
  end.

(** The second loop of the general case of [save]. *)
Fixpoint fill_tiers (is_aligned : bool) (us : list (Utterance.t num))
    (tiers : Collection.t (Praat.IntervalTier num))
    : result (Collection.t (Praat.IntervalTier num)) :=
  match us with
  | [] => Ok tiers
  | utterance :: us' =>
      let speaker := tier_key (Utterance.speaker utterance) in
      if negb is_aligned then
        match Collection.getitem speaker tiers with
        | Ok ti =>
            fill_tiers is_aligned us'
              (Collection.setitem speaker
                 (Praat.append_entry (interval_of utterance) ti) tiers)
        | Err e => Err e
        end
      else fill_tiers is_aligned us' tiers
  end.

(** The general case of [save]. *)
Definition save_textgrid (output_directory backup_output_directory : option string)
    : M unit :=
  output_path <- construct_output_path output_directory backup_output_directory false ;;
  max_time <- duration ;;
  f <- get_self ;;
  let tiers := build_tiers max_time (speaker_ordering f) in
  tiers <- lift (fill_tiers (aligned f) (Collection.iter (utterances f)) tiers) ;;
  emit (SaveTextgrid output_path
          (Praat.mkDocument (Collection.iter tiers) max_time)).

(** The single-utterance shortcut of [save]. *)
Definition save_lab (utterance : Utterance.t num)
    (output_directory backup_output_directory : option string) : M unit :=
  output_path <- construct_output_path output_directory backup_output_directory true ;;
  emit (OpenWrite output_path) ;;;
  match Utterance.transcription_text utterance with
  | Some transcription => emit (Write output_path transcription)
  | None =>
      match Utterance.text utterance with
      | Some txt => emit (Write output_path txt)
      | None => raise (TypeError "write() argument must be str, not None")
      end
  end.

(** The utterance the shortcut of [save] applies to: the only
    utterance, when [utterance.begin is None and not
    utterance.phone_labels]. *)
Definition lab_utterance (f : t) : option (Utterance.t num) :=
  let utterance_count := Collection.len (utterances f) in
  if Nat.eqb utterance_count 1 then
    match Collection.iter (utterances f) with
    | utterance :: _ =>
        if negb (Utterance.is_some (Utterance.begin utterance))
           && Utterance.no_phone_labels utterance
        then Some utterance else None
    | [] => None
    end
  else None.

(** [save] *)
Definition save (output_directory backup_output_directory : option string) : M unit :=
  f <- get_self ;;
  match lab_utterance f with
  | Some utterance => save_lab utterance output_directory backup_output_directory
  | None => save_textgrid output_directory backup_output_directory
  end.

(** *** Reading *)

(** [stop_check is not None and stop_check()]: the [n]-th poll of the
    callable answers [check n]. *)
Definition poll (stop_check : option (nat -> bool)) : M bool :=
  match stop_check with
  | None => ret false
  | Some check =>
      fun st => (Ok (check (polls st)), mkSt (self st) (trace st) (S (polls st)))
  end.

(** One turn of the loop over the entries of an interval tier. *)
Definition load_entry (stop_check : option (nat -> bool)) (speaker : Speaker.t)
    (entry : Praat.Entry num) : M bool :=
  let '(begin, end_, text) := entry in
  stop <- poll stop_check ;;
  if stop then ret true
  else
    let text := PyStr.strip (PyStr.lower text) in
    let words := parse_transcription env text in
    match words with
    | [] => ret false
    | _ =>
        let begin := round begin 4 in
        let end_ := round end_ 4 in
        d <- duration ;;
        let end_ := py_min end_ d in
        f <- get_self ;;
        let utt := Utterance.init speaker (name f) (Some begin) (Some end_)
                     (Some 0%Z) (Some (PyStr.join " " words)) in
        add_utterance utt ;;;
        ret false
    end.

(** One turn of the loop over the tiers of a TextGrid. *)
Definition load_tier (root_speaker : option Speaker.t)
    (stop_check : option (nat -> bool)) (ti : Praat.Tier num) : M bool :=
  let tier_name := Praat.tier_name ti in
  if String.eqb (PyStr.lower tier_name) "notes" then ret false
  else
    match Praat.tier_body ti with
    | Praat.PointEntries _ => ret false
    | Praat.IntervalEntries entryList =>
        speaker <- match root_speaker with
                   | None =>
                       let speaker_name := PyStr.strip tier_name in
                       let speaker := Speaker.init speaker_name in
                       add_speaker (Some speaker) ;;;
                       ret speaker
                   | Some r => ret r
                   end ;;
        for_each entryList (load_entry stop_check speaker)
    end.

(** [Utterance(speaker=root_speaker, ...)] reads [speaker.name]. *)
Definition need_speaker (root_speaker : option Speaker.t) : M Speaker.t :=
  match root_speaker with
  | Some r => ret r
  | None => raise AttributeError
  end.

(** [self.text_type == ty] *)
Definition text_type_is (f : t) (ty : string) : bool :=
  match text_type f with
  | Some x => String.eqb x ty
  | None => false
  end.

Definition the_text_path (f : t) : M string :=
  match text_path f with
  | Some path => ret path
  | None => raise (TypeError "expected str, bytes or os.PathLike object, not NoneType")
  end.

(** [load_text] *)
Definition load_text (root_speaker : option Speaker.t)
    (stop_check : option (nat -> bool)) : M unit :=
  f <- get_self ;;
  if text_type_is f "lab" then
    path <- the_text_path f ;;
    match helper_load_text env path with
    | None => raise (TextParseError path)
    | Some text =>
        let words := parse_transcription env text in
        speaker <- need_speaker root_speaker ;;
        add_utterance
          (Utterance.init speaker (name f) None None (Some 0%Z)
             (Some (PyStr.join " " words)))
    end
  else if text_type_is f "textgrid" then
    path <- the_text_path f ;;
    match openTextgrid env path with
    | inl diagnostic => raise (TextGridParseError path diagnostic)
    | inr tg =>
        let num_tiers := List.length tg in
        if Nat.eqb num_tiers 0
        then raise (TextGridParseError path "Number of tiers parsed was zero")
        else
          channels <- num_channels ;;
          if (2 <? channels)%Z
          then raise (GenericException "More than two channels")
          else
            stop <- for_each tg (load_tier root_speaker stop_check) ;;
            ret tt
    end
  else
    speaker <- need_speaker root_speaker ;;
    add_utterance (Utterance.init speaker (name f) None None (Some 0%Z) None).

(** *** Values and states the statements refer to *)

(** The state after the audio information has been looked up, if it
    had to be. *)
Definition loaded (st : St) : St :=
  match wav_path (self st), wav_info (self st) with
  | Some w, None =>
      mkSt (set_wav_info (Some (get_wav_info env w)) (self st))
           (trace st ++ [GetWavInfo w])%list (polls st)
  | _, _ => st
  end.

(** What the properties over [wav_info] answer. *)
Definition info_value {A} (field : WavInfo.t num -> A) (none : A) (f : t) : A :=
  match wav_path f with
  | None => none
  | Some w =>
      match wav_info f with
      | Some i => field i
      | None => field (get_wav_info env w)
      end
  end.

Definition duration_value (f : t) : num :=
  info_value WavInfo.duration (of_int 0) f.

(** The stop check does not ask to stop at the next poll. *)
Definition goes_on (stop_check : option (nat -> bool)) (st : St) : bool :=
  match stop_check with
  | None => true
  | Some check => negb (check (polls st))
  end.

(** The utterance [load_text] makes of an entry of an interval tier. *)
Definition utterance_of_entry (speaker : Speaker.t) (f : t) (entry : Praat.Entry num)
    : Utterance.t num :=
  let '(b, e, text) := entry in
  Utterance.init speaker (name f)
    (Some (round b 4)) (Some (py_min (round e 4) (duration_value f)))
    (Some 0%Z)
    (Some (PyStr.join " " (parse_transcription env (PyStr.strip (PyStr.lower text))))).

(** The label of the entry tokenizes to at least one word. *)
Definition has_words (entry : Praat.Entry num) : bool :=
  match parse_transcription env (PyStr.strip (PyStr.lower (snd entry))) with
  | [] => false
  | _ => true
  end.

(** The documents the events hand to [tg.save]. *)
Fixpoint saved_documents (tr : list event) : list (string * Praat.Document num) :=
  match tr with
  | [] => []
  | SaveTextgrid path tg :: tr' => (path, tg) :: saved_documents tr'
  | _ :: tr' => saved_documents tr'
  end.

(** The plain transcripts the events write. *)
Fixpoint written_texts (tr : list event) : list (string * string) :=
  match tr with
  | [] => []
  | Write path text :: tr' => (path, text) :: written_texts tr'
  | _ :: tr' => written_texts tr'
  end.

(** The names in a speaker ordering. *)
Definition ordering_names (l : list (option Speaker.t)) : list string :=
  map tier_key l.

Definition all_speakers (l : list (option Speaker.t)) : bool :=
  forallb (fun s => match s with Some _ => true | None => false end) l.

Definition mem (x : string) (l : list string) : bool :=
  existsb (String.eqb x) l.

Fixpoint distinct (l : list string) : bool :=
  match l with
  | [] => true
  | x :: l' => negb (mem x l') && distinct l'
  end.

(** Every utterance of the file has a speaker, and the speaker's name
    is in the ordering. *)
Definition registered (f : t) : bool :=
  forallb
    (fun u =>
       match Utterance.speaker u with
       | Some s => mem (Speaker.name s) (ordering_names (speaker_ordering f))
       | None => false
       end)
    (Collection.iter (utterances f)).

(** The ordering holds speakers only, no name twice, and every
    utterance's speaker is among them. *)
Definition well_formed (f : t) : bool :=
  all_speakers (speaker_ordering f)
  && distinct (ordering_names (speaker_ordering f))
  && registered f.

(** Names in the order they are first seen. *)
Definition first_seen (seen new : list string) : list string :=
  fold_left (fun acc x => if mem x acc then acc else (acc ++ [x])%list) new seen.

(** The state with the file replaced. *)
Definition put (f : t) (st : St) : St := mkSt f (trace st) (polls st).

(** [add_speaker] and the first half of [add_utterance] as functions
    on the file, for an ordering that holds speakers only. *)
Definition register (s : Speaker.t) (f : t) : t :=
  if mem (Speaker.name s) (ordering_names (speaker_ordering f)) then f
  else set_speaker_ordering (speaker_ordering f ++ [Some s])%list f.

Definition store (u : Utterance.t num) (f : t) : t :=
  set_utterances (Collection.setitem (Utterance.name u) u (utterances f)) f.

(** The number of polls after one more turn of the entry loop. *)
Definition polled (stop_check : option (nat -> bool)) (st : St) : St :=
  match stop_check with
  | None => st
  | Some _ => mkSt (self st) (trace st) (S (polls st))
  end.

(** The part of the state that adding utterances and speakers never
    touches. *)
Definition same_audio (st st' : St) : Prop :=
  wav_path (self st') = wav_path (self st)
  /\ wav_info (self st') = wav_info (self st)
  /\ waveform (self st') = waveform (self st)
  /\ trace st' = trace st.

(** The state with more events. *)
Definition emitting (evs : list event) (st : St) : St :=
  mkSt (self st) (trace st ++ evs)%list (polls st).

(** [construct_output_path] has something to build the path from. *)
Definition can_place (output_directory : option string) (f : t) : bool :=
  Utterance.is_some output_directory
  || Utterance.is_some (text_path f)
  || Utterance.is_some (wav_path f).

(** The tier [save] starts from for a key. *)
Definition empty_tier (max_time : num) (key : string) : Praat.IntervalTier num :=
  Praat.mkIntervalTier key [] (of_int 0) max_time.

(** The file is aligned, or every utterance is filed under a key that
    the speaker ordering has. *)
Definition tiers_cover (f : t) : bool :=
  aligned f
  || forallb
       (fun u => mem (tier_key (Utterance.speaker u))
                   (ordering_names (speaker_ordering f)))
       (Collection.iter (utterances f)).

(** The text the shortcut of [save] writes. *)
Definition lab_text (u : Utterance.t num) : option string :=
  match Utterance.transcription_text u with
  | Some transcription => Some transcription
  | None => Utterance.text u
  end.

(** The intervals [save] files under a key: those of the utterances
    whose speaker has that key, in the order of the collection. *)
Definition entries_for (key : string) (us : list (Utterance.t num))
    : list (Praat.Interval num) :=
  map interval_of
    (filter (fun u => String.eqb (tier_key (Utterance.speaker u)) key) us).

Definition add_entries (l : list (Praat.Interval num)) (ti : Praat.IntervalTier num)
    : Praat.IntervalTier num :=
  Praat.mkIntervalTier (Praat.name ti) (Praat.entryList ti ++ l)%list
    (Praat.minT ti) (Praat.maxT ti).

(** The document the general case of [save] hands to [tg.save]: a tier
    for each entry of the speaker ordering, in that order. *)
Definition document_of (f : t) : Praat.Document num :=
  let max_time := duration_value f in
  Praat.mkDocument
    (map (fun speaker =>
            Praat.mkIntervalTier (tier_key speaker)
              (if aligned f then []
               else entries_for (tier_key speaker) (Collection.iter (utterances f)))
              (of_int 0) max_time)
         (speaker_ordering f))
    max_time.

(** The shape the specification gives the shortcut of [save]: exactly
    one utterance, which has no boundary and no phone alignment. *)
Definition single_plain (f : t) : bool :=
  match Collection.iter (utterances f) with
  | [u] =>
      negb (Utterance.is_some (Utterance.begin u))
      && negb (Utterance.is_some (Utterance.end_ u))
      && Utterance.no_phone_labels u
  | _ => false
  end.

(** No utterance of the file has only one of its two boundaries. *)
Definition boundaries_paired (f : t) : bool :=
  forallb
    (fun u => Bool.eqb (Utterance.is_some (Utterance.begin u))
                (Utterance.is_some (Utterance.end_ u)))
    (Collection.iter (utterances f)).

(** The test of the shortcut of [save]: exactly one utterance, which
    has no [begin] and no phone alignment. *)
Definition single_without_begin (f : t) : bool :=
  match Collection.iter (utterances f) with
  | [u] =>
      negb (Utterance.is_some (Utterance.begin u))
      && Utterance.no_phone_labels u
  | _ => false
  end.

(** *** What reading a TextGrid leaves *)

(** The speaker [load_text] makes of a tier when there is no root
    speaker. *)
Definition tier_speaker (ti : Praat.Tier num) : Speaker.t :=
  Speaker.init (PyStr.strip (Praat.tier_name ti)).

(** The tiers [load_text] reads: interval tiers not named [notes]. *)
Definition is_kept (ti : Praat.Tier num) : bool :=
  negb (String.eqb (PyStr.lower (Praat.tier_name ti)) "notes")
  && Praat.is_interval_tier ti.

Definition kept (tg : Praat.Textgrid num) : Praat.Textgrid num :=
  filter is_kept tg.

(** The names the kept tiers give their speakers. *)
Definition kept_names (tg : Praat.Textgrid num) : list string :=
  map (fun ti => PyStr.strip (Praat.tier_name ti)) (kept tg).

(** The speaker ordering reading leaves. *)
Definition kept_speakers (tg : Praat.Textgrid num) : list (option Speaker.t) :=
  map (fun ti => Some (tier_speaker ti)) (kept tg).

(** The utterances of a tier: one for each entry with words. *)
Definition tier_utterances (f : t) (ti : Praat.Tier num) : list (Utterance.t num) :=
  map (utterance_of_entry (tier_speaker ti) f) (filter has_words (Praat.entries ti)).

Definition read_utterances (f : t) (tg : Praat.Textgrid num)
    : list (Utterance.t num) :=
  flat_map (tier_utterances f) (kept tg).

(** The tier that is written back for a tier that was read. *)
Definition written_tier (f : t) (ti : Praat.Tier num) : Praat.IntervalTier num :=
  Praat.mkIntervalTier (PyStr.strip (Praat.tier_name ti))
    (map interval_of (tier_utterances f ti)) (of_int 0) (duration_value f).

(** A collection of utterances under their names. *)
Definition keyed (us : list (Utterance.t num)) : Collection.t (Utterance.t num) :=
  map (fun u => (Utterance.name u, u)) us.

(** The file with another ordering and other utterances. *)
Definition holding (l : list (option Speaker.t))
    (c : Collection.t (Utterance.t num)) (f : t) : t :=
  set_utterances c (set_speaker_ordering l f).

(** The audio information needs no looking up. *)
Definition info_ready (f : t) : bool :=
  negb (Utterance.is_some (wav_path f)) || Utterance.is_some (wav_info f).

(** The stop check never asks to stop. *)
Definition never_stops (stop_check : option (nat -> bool)) : Prop :=
  match stop_check with
  | None => True
  | Some check => forall n, check n = false
  end.

(** A file as [File(...)] leaves it, but for its audio information. *)
Definition is_new (f : t) : bool :=
  match speaker_ordering f, utterances f with
  | [], [] => negb (aligned f)
  | _, _ => false
  end.

(** *** Further methods *)

(** The loop of [has_fully_aligned_speaker].  [u.speaker != speaker] is
    the negation of [Speaker.__eq__], which raises on [None]. *)
Fixpoint fully_aligned (speaker : Speaker.t) (us : list (Utterance.t num))
    : result bool :=
  match us with
  | [] => Ok true
  | u :: us' =>
      match Utterance.speaker u with
      | None =>
          Err (TypeError "Speakers can only be compared to other speakers and strings.")
      | Some s =>
          if negb (String.eqb (Speaker.name speaker) (Speaker.name s))
          then fully_aligned speaker us'
          else
            match Utterance.word_labels u with
            | None => Ok false
            | Some _ =>
                match Utterance.phone_labels u with
                | None => Ok false
                | Some _ => fully_aligned speaker us'
                end
            end
      end
  end.

(** [has_fully_aligned_speaker] *)
Definition has_fully_aligned_speaker (speaker : Speaker.t) (f : t) : result bool :=
  fully_aligned speaker (Collection.iter (utterances f)).

(** [num_utterances] and [num_speakers] *)
Definition num_utterances (f : t) : nat := Collection.len (utterances f).

Definition num_speakers (f : t) : nat := List.length (speaker_ordering f).

(** [sox_string] *)
Definition sox_string : M string := wav_info_entry WavInfo.sox_string.

(** [for_wav_scp] *)
Definition for_wav_scp : M (option string) :=
  s <- sox_string ;;
  if negb (String.eqb s EmptyString)
  then s' <- sox_string ;; ret (Some s')
  else f <- get_self ;; ret (wav_path f).

End Defs.

Arguments t num : clear implicits.
Arguments event num : clear implicits.
Arguments Env num : clear implicits.
Arguments St num : clear implicits.
Arguments M num A : clear implicits.

End File.

(** ** [parse_file] *)

(** The [speaker_characters] argument: an [int] or a [str]. *)
Inductive speaker_characters : Type :=
| Characters (n : Z)
| Convention (s : string).

(** Python's truth value of the argument. *)
Definition is_set (policy : speaker_characters) : bool :=
  match policy with
  | Characters n => negb (n =? 0)%Z
  | Convention s => negb (String.eqb s EmptyString)
  end.

(** The [if]/[elif] chain of [parse_file] that names the speaker; [root] is
    the directory of the sound file or of the transcription. *)
Definition speaker_name_for (policy : speaker_characters) (file_name root : string)
    : result string :=
  if negb (is_set policy) then Ok (PosixPath.basename root)
  else
    match policy with
    | Characters n => Ok (PyStr.slice_to file_name n)
    | Convention s =>
        if String.eqb s "prosodylab" then
          match PyStr.split_char "_" file_name with
          | _ :: second :: _ => Ok second
          | _ => Err IndexError
          end
        else Ok file_name
    end.

Section ParseFile.
Context {num : Type} `{PyNumber num}.
Variable env : File.Env num.

(** The directory [parse_file] takes the speaker from. *)
Definition root_of (file : File.t num) (wav_path text_path : option string)
    : result string :=
  if File.has_sound_file env file then
    match wav_path with
    | Some w => Ok (PosixPath.dirname w)
    | None => Err (TypeError "expected str, bytes or os.PathLike object, not NoneType")
    end
  else
    match text_path with
    | Some p => Ok (PosixPath.dirname p)
    | None => Err (TypeError "expected str, bytes or os.PathLike object, not NoneType")
    end.

(** What [parse_file] does once the [File] object exists. *)
Definition parse_into (file_name : string) (wav_path text_path : option string)
    (policy : speaker_characters) (stop_check : option (nat -> bool))
    : File.M num unit :=
  File.bind File.get_self (fun file =>
  File.bind (File.lift (root_of file wav_path text_path)) (fun root =>
  File.bind
    (if File.has_sound_file env file then
       match wav_path with
       | Some w =>
           File.bind (File.emit (File.GetWavInfo w)) (fun _ =>
           File.set_self
             (File.set_wav_info (Some (File.get_wav_info env w)) file))
       | None => File.ret tt
       end
     else File.ret tt) (fun _ =>
  File.bind (File.lift (speaker_name_for policy file_name root)) (fun speaker_name =>
  File.bind File.get_self (fun file =>
  let root_speaker :=
    if is_set policy || negb (File.text_type_is env file "textgrid")
    then Some (Speaker.init speaker_name)
    else None in
  File.load_text env root_speaker stop_check))))).

(** [parse_file]: the parsed file, or the exception, and the events. *)
Definition parse_file (file_name : string) (wav_path text_path : option string)
    (relative_path : string) (policy : speaker_characters)
    (stop_check : option (nat -> bool))
    : result (File.t num) * list (File.event num) :=
  match File.init wav_path text_path (Some relative_path) with
  | Err e => (Err e, [])
  | Ok file =>
      match parse_into file_name wav_path text_path policy stop_check
              (File.start file) with
      | (Ok _, st) => (Ok (File.self st), File.trace st)
      | (Err e, st) => (Err e, File.trace st)
      end
  end.

End ParseFile.

(** ** Comparisons *)

(** A Python value an entity may be compared with. *)
Inductive pyobj (num : Type) : Type :=
| PySpeaker (s : Speaker.t)
| PyFile (f : File.t num)
| PyUtterance (u : Utterance.t num)
| PyStr_ (s : string)
| PyNone
| PyInt (z : Z).

Arguments PySpeaker {num}.
Arguments PyFile {num}.
Arguments PyUtterance {num}.
Arguments PyStr_ {num}.
Arguments PyNone {num}.
Arguments PyInt {num}.

Module Compare.

Section Defs.
Context {num : Type} `{PyNumber num}.

Definition speakers_only : exn :=
  TypeError "Speakers can only be compared to other speakers and strings.".
Definition files_only : exn :=
  TypeError "Files can only be compared to other files and strings.".
Definition utterances_only : exn :=
  TypeError "Utterances can only be compared to other utterances and strings.".

(** Python's [a > b] and [a >= b] on [str]. *)
Definition str_gt (a b : string) : bool := String.ltb b a.
Definition str_ge (a b : string) : bool := String.leb b a.

(** [Speaker.__eq__], [__lt__], [__lte__], [__gt__], [__gte__] *)
Definition Speaker_eq (self : Speaker.t) (other : pyobj num) : result bool :=
  match other with
  | PySpeaker o => Ok (String.eqb (Speaker.name o) (Speaker.name self))
  | PyStr_ s => Ok (String.eqb (Speaker.name self) s)
  | _ => Err speakers_only
  end.

Definition Speaker_lt (self : Speaker.t) (other : pyobj num) : result bool :=
  match other with
  | PySpeaker o => Ok (String.ltb (Speaker.name o) (Speaker.name self))
  | PyStr_ s => Ok (String.ltb (Speaker.name self) s)
  | _ => Err speakers_only
  end.

Definition Speaker_lte (self : Speaker.t) (other : pyobj num) : result bool :=
  match other with
  | PySpeaker o => Ok (String.leb (Speaker.name o) (Speaker.name self))
  | PyStr_ s => Ok (String.leb (Speaker.name self) s)
  | _ => Err speakers_only
  end.

Definition Speaker_gt (self : Speaker.t) (other : pyobj num) : result bool :=
  match other with
  | PySpeaker o => Ok (str_gt (Speaker.name o) (Speaker.name self))
  | PyStr_ s => Ok (str_gt (Speaker.name self) s)
  | _ => Err speakers_only
  end.

Definition Speaker_gte (self : Speaker.t) (other : pyobj num) : result bool :=
  match other with
  | PySpeaker o => Ok (str_ge (Speaker.name o) (Speaker.name self))
  | PyStr_ s => Ok (str_ge (Speaker.name self) s)
  | _ => Err speakers_only
  end.

(** [File.__eq__], [__lt__], [__lte__], [__gt__], [__gte__] *)
Definition File_eq (self : File.t num) (other : pyobj num) : result bool :=
  match other with
  | PyFile o => Ok (String.eqb (File.name o) (File.name self))
  | PyStr_ s => Ok (String.eqb (File.name self) s)
  | _ => Err files_only
  end.

Definition File_lt (self : File.t num) (other : pyobj num) : result bool :=
  match other with
  | PyFile o => Ok (String.ltb (File.name o) (File.name self))
  | PyStr_ s => Ok (String.ltb (File.name self) s)
  | _ => Err files_only
  end.

Definition File_lte (self : File.t num) (other : pyobj num) : result bool :=
  match other with
  | PyFile o => Ok (String.leb (File.name o) (File.name self))
  | PyStr_ s => Ok (String.leb (File.name self) s)
  | _ => Err files_only
  end.

Definition File_gt (self : File.t num) (other : pyobj num) : result bool :=
  match other with
  | PyFile o => Ok (str_gt (File.name o) (File.name self))
  | PyStr_ s => Ok (str_gt (File.name self) s)
  | _ => Err files_only
  end.

Definition File_gte (self : File.t num) (other : pyobj num) : result bool :=
  match other with
  | PyFile o => Ok (str_ge (File.name o) (File.name self))
  | PyStr_ s => Ok (str_ge (File.name self) s)
  | _ => Err files_only
  end.

(** [Utterance.__eq__], [__lt__], [__lte__], [__gt__], [__gte__] *)
Definition Utterance_eq (self : Utterance.t num) (other : pyobj num) : result bool :=
  match other with
  | PyUtterance o => Ok (String.eqb (Utterance.name o) (Utterance.name self))
  | PyStr_ s => Ok (String.eqb (Utterance.name self) s)
  | _ => Err utterances_only
  end.

Definition Utterance_lt (self : Utterance.t num) (other : pyobj num) : result bool :=
  match other with
  | PyUtterance o => Ok (String.ltb (Utterance.name o) (Utterance.name self))
  | PyStr_ s => Ok (String.ltb (Utterance.name self) s)
  | _ => Err utterances_only
  end.

Definition Utterance_lte (self : Utterance.t num) (other : pyobj num) : result bool :=
  match other with
  | PyUtterance o => Ok (String.leb (Utterance.name o) (Utterance.name self))
  | PyStr_ s => Ok (String.leb (Utterance.name self) s)
  | _ => Err utterances_only
  end.

Definition Utterance_gt (self : Utterance.t num) (other : pyobj num) : result bool :=
  match other with
  | PyUtterance o => Ok (str_gt (Utterance.name o) (Utterance.name self))
  | PyStr_ s => Ok (str_gt (Utterance.name self) s)
  | _ => Err utterances_only
  end.

Definition Utterance_gte (self : Utterance.t num) (other : pyobj num) : result bool :=
  match other with
  | PyUtterance o => Ok (str_ge (Utterance.name o) (Utterance.name self))
  | PyStr_ s => Ok (str_ge (Utterance.name self) s)
  | _ => Err utterances_only
  end.

End Defs.

End Compare.

(** ** Sequences of [add_utterance] and [delete_utterance] *)

Module Ops.

Section Defs.
Context {num : Type} `{PyNumber num}.

Inductive op : Type :=
| Add (utterance : Utterance.t num)
| Delete (utterance : Utterance.t num).

Definition step (o : op) : File.M num unit :=
  match o with
  | Add u => File.add_utterance u
  | Delete u => File.delete_utterance u
  end.

Fixpoint run (ops : list op) : File.M num unit :=
  match ops with
  | [] => File.ret tt
  | o :: ops' => File.bind (step o) (fun _ => run ops')
  end.

(** The names of the speakers of the utterances a sequence adds. *)
Fixpoint added_speakers (ops : list op) : list string :=
  match ops with
  | [] => []
  | Add u :: ops' => File.tier_key (Utterance.speaker u) :: added_speakers ops'
  | Delete _ :: ops' => added_speakers ops'
  end.

(** Every utterance the sequence adds has a speaker. *)
Definition with_speakers (ops : list op) : bool :=
  forallb
    (fun o =>
       match o with
       | Add u => Utterance.is_some (Utterance.speaker u)
       | Delete _ => true
       end) ops.

End Defs.

End Ops.

(** ** Concrete data for the examples *)

Module Examples.

Definition alice : Speaker.t := Speaker.init "alice".

(** Two utterances of one file and one speaker: [begin=0, end=1.5] and
    [begin=0.1, end=5]. *)
Definition utt_0_15 : Utterance.t Dec.t :=
  Utterance.init alice "rec" (Some (Dec.Int 0)) (Some (Dec.Float 15 1)) (Some 0%Z) None.

Definition utt_01_5 : Utterance.t Dec.t :=
  Utterance.init alice "rec" (Some (Dec.Float 1 1)) (Some (Dec.Int 5)) (Some 0%Z) None.

(** No boundary at all. *)
Definition utt_whole : Utterance.t Dec.t :=
  Utterance.init alice "rec" None None (Some 0%Z) None.

(** [begin=0.5, end=1.5] and [begin=0.5, end=2.5]. *)
Definition utt_05_15 : Utterance.t Dec.t :=
  Utterance.init alice "rec" (Some (Dec.Float 5 1)) (Some (Dec.Float 15 1)) (Some 0%Z) None.

Definition utt_05_25 : Utterance.t Dec.t :=
  Utterance.init alice "rec" (Some (Dec.Float 5 1)) (Some (Dec.Float 25 1)) (Some 0%Z) None.

(** A tokenizer: the pieces between blanks that are not empty. *)
Definition words (s : string) : list string :=
  filter (fun w => negb (String.eqb w "")) (PyStr.split_char " " s).

(** Audio of five seconds, one channel. *)
Definition five_seconds : WavInfo.t Dec.t :=
  WavInfo.mk (Dec.Float 50 1) 16000 1 "wav" "".

(** A world where every path exists, every sound file lasts five seconds
    and every TextGrid reads as [tg]. *)
Definition env_of (tg : Praat.Textgrid Dec.t) : File.Env Dec.t :=
  File.mkEnv (fun _ => true) (fun _ => five_seconds)
    (fun _ => Some "hello world") (fun _ => inr tg) words.

Definition nothing : File.t Dec.t :=
  File.mk "" None None None None None [] [] false.

Definition new_file (wav_path text_path relative_path : option string) : File.t Dec.t :=
  match File.init wav_path text_path relative_path with
  | Ok f => f
  | Err _ => nothing
  end.

(** [File("/corpus/spk7/rec.wav", "/corpus/spk7/rec.TextGrid")] *)
Definition rec_file : File.t Dec.t :=
  new_file (Some "/corpus/spk7/rec.wav") (Some "/corpus/spk7/rec.TextGrid") None.

(** [File(text_path="/corpus/spk7/rec.TextGrid")]: no sound file. *)
Definition silent_file : File.t Dec.t :=
  new_file None (Some "/corpus/spk7/rec.TextGrid") None.

(** The entry [(1.23456, 9.999999, "Hello")]. *)
Definition entry_hello : Praat.Entry Dec.t :=
  (Dec.Float 123456 5, Dec.Float 9999999 6, "Hello").

Definition bob : Speaker.t := Speaker.init "bob".

(** An utterance of [bob] in the same file. *)
Definition utt_bob : Utterance.t Dec.t :=
  Utterance.init bob "rec" (Some (Dec.Float 5 1)) (Some (Dec.Float 15 1)) (Some 0%Z) None.

(** [File("/corpus/JOHN_utt1.wav", "/corpus/JOHN_utt1.lab")] and
    [File("/corpus/annaSession1.wav", "/corpus/annaSession1.lab")] *)
Definition john_file : File.t Dec.t :=
  new_file (Some "/corpus/JOHN_utt1.wav") (Some "/corpus/JOHN_utt1.lab") None.

Definition anna_file : File.t Dec.t :=
  new_file (Some "/corpus/annaSession1.wav") (Some "/corpus/annaSession1.lab") None.

(** The speaker names of the utterances of a parsed file. *)
Definition speakers_of (r : result (File.t Dec.t) * list (File.event Dec.t))
    : list string :=
  match fst r with
  | Ok f => map (fun u => Utterance.speaker_name u) (Collection.iter (File.utterances f))
  | Err _ => []
  end.

(** [rec_file] with its audio information and two samples loaded. *)
Definition samples : list (list Dec.t) := [[Dec.Float 1 1; Dec.Float (-1) 1]].

Definition loaded_file : File.t Dec.t :=
  File.mk (File.name rec_file) (File.wav_path rec_file) (File.text_path rec_file)
    (File.relative_path rec_file) (Some five_seconds) (Some samples)
    (File.speaker_ordering rec_file) (File.utterances rec_file)
    (File.aligned rec_file).

(** A whole-file utterance with a text, alone in its file. *)
Definition utt_text : Utterance.t Dec.t :=
  Utterance.init alice "rec" None None (Some 0%Z) (Some "hello world").

Definition lab_file : File.t Dec.t :=
  File.self (snd (File.add_utterance utt_text (File.start rec_file))).

(** A file with an utterance of [alice] and one of [bob]. *)
Definition two_speaker_file : File.t Dec.t :=
  File.self (snd (Ops.run [Ops.Add utt_05_15; Ops.Add utt_bob] (File.start rec_file))).

(** A TextGrid with a tier for [alice], a tier of notes, a point tier
    and a tier for [bob]. *)
Definition tg_two : Praat.Textgrid Dec.t :=
  [ Praat.mkTier "alice "
      (Praat.IntervalEntries
         [ (Dec.Float 5 1, Dec.Float 15 1, "Hello  World");
           (Dec.Float 15 1, Dec.Float 20 1, " ") ]);
    Praat.mkTier "Notes" (Praat.IntervalEntries [ (Dec.Float 0 1, Dec.Float 10 1, "x") ]);
    Praat.mkTier "points" (Praat.PointEntries [ (Dec.Float 10 1, "x") ]);
    Praat.mkTier "bob" (Praat.IntervalEntries [ (Dec.Float 20 1, Dec.Float 30 1, "bye") ]) ].

(** A TextGrid whose two tiers, [a.b] and [a_b], each hold the entry
    [(0.5, 1.5, "hello")]. *)
Definition tg_collide : Praat.Textgrid Dec.t :=
  [ Praat.mkTier "a.b" (Praat.IntervalEntries [ (Dec.Float 5 1, Dec.Float 15 1, "hello") ]);
    Praat.mkTier "a_b" (Praat.IntervalEntries [ (Dec.Float 5 1, Dec.Float 15 1, "hello") ]) ].

(** The name and the number of entries of each tier of the documents that
    a trace hands to [tg.save]. *)
Definition tiers_saved (tr : list (File.event Dec.t)) : list (list (string * nat)) :=
  map (fun d => map (fun ti => (Praat.name ti, List.length (Praat.entryList ti)))
                  (Praat.tiers (snd d)))
      (File.saved_documents tr).

(** [parse_file] on [/corpus/spk7/rec.wav] and [/corpus/spk7/rec.TextGrid],
    then [save] into [/out]: the tiers that are saved. *)
Definition parse_then_save (tg : Praat.Textgrid Dec.t) (policy : speaker_characters)
    : list (list (string * nat)) :=
  match parse_file (env_of tg) "rec" (Some "/corpus/spk7/rec.wav")
          (Some "/corpus/spk7/rec.TextGrid") "" policy None with
  | (Ok f, _) =>
      tiers_saved (File.trace (snd (File.save (env_of tg) (Some "/out") None (File.start f))))
  | (Err _, _) => []
  end.

(** Two utterances with a text, one of [alice] and one of [bob], and the
    file that holds them. *)
Definition utt_alice_hello : Utterance.t Dec.t :=
  Utterance.init alice "rec" (Some (Dec.Float 5 1)) (Some (Dec.Float 15 1)) (Some 0%Z)
    (Some "hello").

Definition utt_bob_bye : Utterance.t Dec.t :=
  Utterance.init bob "rec" (Some (Dec.Float 20 1)) (Some (Dec.Float 30 1)) (Some 0%Z)
    (Some "bye").

Definition spoken_file : File.t Dec.t :=
  File.self (snd (Ops.run [Ops.Add utt_alice_hello; Ops.Add utt_bob_bye]
                    (File.start rec_file))).

(** [File("/corpus/spk7/rec.wav")], and that file with the utterance that
    [load_text] makes when there is no transcript: no boundary, no text. *)
Definition sound_file : File.t Dec.t :=
  new_file (Some "/corpus/spk7/rec.wav") None None.

Definition textless_file : File.t Dec.t :=
  File.self (snd (File.add_utterance utt_whole (File.start sound_file))).

(** A world whose sound files last 5.00004 seconds, and the entry
    [(1.0, 5.00005, "Hello")]. *)
Definition env_5_00004 : File.Env Dec.t :=
  File.mkEnv (fun _ => true)
    (fun _ => WavInfo.mk (Dec.Float 500004 5) 16000 1 "wav" "")
    (fun _ => Some "hello world") (fun _ => inr []) words.

Definition entry_late : Praat.Entry Dec.t :=
  (Dec.Float 10 1, Dec.Float 500005 5, "Hello").

(** [utt_05_15] after [set_speaker(bob)]: the speaker is assigned, the
    saved [speaker_name] stays. *)
Definition utt_moved : Utterance.t Dec.t := File.set_speaker bob utt_05_15.

End Examples.

(** ** Speakers with their utterances *)

(** The [Speaker] object beyond its pickled fields: the collection of its
    utterances, the [Counter] of its words and its pronunciation dictionary,
    of which [word_set] uses the two token sets and the lookup of a word. *)
Module SpeakerObj.

Section Defs.
Context {num : Type} `{PyNumber num}.

Record Dictionary : Type := mkDictionary {
  dictionary_name : string;
  specials_set : list string;
  clitic_set : list string;
  _lookup : string -> list string
}.

Record t : Type := mk {
  fields : Speaker.t;
  utterances : Collection.t (Utterance.t num);
  word_counts : list (string * nat);
  dictionary : option Dictionary
}.

(** [Speaker(name)] *)
Definition init (name : string) : t :=
  mk (Speaker.init name) Collection.empty [] None.

Definition name (s : t) : string := Speaker.name (fields s).

(** [num_utterances] *)
Definition num_utterances (s : t) : nat := Collection.len (utterances s).

Definition set_utterances (c : Collection.t (Utterance.t num)) (s : t) : t :=
  mk (fields s) c (word_counts s) (dictionary s).

(** [add_utterance] *)
Definition add_utterance (utterance : Utterance.t num) (s : t) : t :=
  set_utterances (Collection.setitem (Utterance.name utterance) utterance (utterances s)) s.

(** [delete_utterance] *)
Definition delete_utterance (utterance : Utterance.t num) (s : t) : result t :=
  let identifier := Utterance.name utterance in
  match Collection.delitem identifier (utterances s) with
  | Ok c => Ok (set_utterances c s)
  | Err e => Err e
  end.

(** [self.merge(speaker)] for two different objects: [self] and [speaker]
    as the call leaves them. *)
Definition merge (speaker self : t) : t * t :=
  (fold_left (fun acc u => add_utterance u acc) (Collection.iter (utterances speaker)) self,
   set_utterances Collection.empty speaker).

(** [Counter.update] with the words of a text. *)
Fixpoint count (w : string) (counts : list (string * nat)) : list (string * nat) :=
  match counts with
  | [] => [(w, 1)]
  | (k, n) :: counts' =>
      if String.eqb k w then (k, S n) :: counts' else (k, n) :: count w counts'
  end.

Definition count_all (ws : list string) (counts : list (string * nat))
    : list (string * nat) :=
  fold_left (fun acc w => count w acc) ws counts.

(** [Counter.__getitem__]: 0 for a word that was never counted. *)
Fixpoint counted (w : string) (counts : list (string * nat)) : nat :=
  match counts with
  | [] => 0
  | (k, n) :: counts' => if String.eqb k w then n else counted w counts'
  end.

(** [set.update] *)
Definition set_update (xs : list string) (l : list string) : list string :=
  fold_left (fun acc x => Utterance.set_add x acc) xs l.

(** The first loop of [word_set]: the texts are split and counted; a text
    that is [None] has no [split]. *)
Fixpoint count_texts (us : list (Utterance.t num)) (counts : list (string * nat))
    : result (list (string * nat)) * list (string * nat) :=
  match us with
  | [] => (Ok counts, counts)
  | u :: us' =>
      match Utterance.text u with
      | None => (Err AttributeError, counts)
      | Some text => count_texts us' (count_all (PyStr.split text) counts)
      end
  end.

Definition set_word_counts (counts : list (string * nat)) (s : t) : t :=
  mk (fields s) (utterances s) counts (dictionary s).

(** [word_set]: the set, and the speaker as the call leaves it. *)
Definition word_set (s : t) : result (list string) * t :=
  let words :=
    match dictionary s with
    | Some d => set_update (clitic_set d) (set_update (specials_set d) [])
    | None => []
    end in
  match count_texts (Collection.iter (utterances s)) [] with
  | (Err e, counts) => (Err e, set_word_counts counts s)
  | (Ok _, counts) =>
      (Ok (fold_left
             (fun words word =>
                match dictionary s with
                | Some d => set_update (_lookup d word) words
                | None => Utterance.set_add word words
                end)
             (map fst counts) words),
       set_word_counts counts s)
  end.

(** [utterance.set_speaker(speaker)]: the utterance, the speaker and the
    file it belongs to, as the call leaves them. *)
Definition set_speaker (speaker : t) (utterance : Utterance.t num)
    : File.M num (Utterance.t num * t) :=
  let utterance := File.set_speaker (fields speaker) utterance in
  let speaker := add_utterance utterance speaker in
  File.bind (File.add_utterance utterance) (fun _ => File.ret (utterance, speaker)).

(** All the words of the texts of the utterances. *)
Definition tokens (s : t) : list string :=
  flat_map
    (fun u => match Utterance.text u with Some text => PyStr.split text | None => [] end)
    (Collection.iter (utterances s)).

Definition has_texts (s : t) : bool :=
  forallb (fun u => Utterance.is_some (Utterance.text u)) (Collection.iter (utterances s)).

End Defs.

Arguments t num : clear implicits.

End SpeakerObj.

(** * Properties *)

(** ** Strings *)

Module StrFacts.

Lemma append_nil_r (s : string) : s ++ "" = s.
Proof. induction s as [|a s IH]; simpl; [reflexivity | now rewrite IH]. Qed.

Lemma append_assoc (a b c : string) : (a ++ b) ++ c = a ++ (b ++ c).
Proof. induction a as [|x a IH]; simpl; [reflexivity | now rewrite IH]. Qed.

Lemma length_append (a b : string) :
  String.length (a ++ b) = (String.length a + String.length b)%nat.
Proof. induction a as [|x a IH]; simpl; [reflexivity | now rewrite IH]. Qed.

Lemma append_inv_head (p a b : string) : p ++ a = p ++ b -> a = b.
Proof.
  induction p as [|x p IH]; simpl; intros E; [exact E|].
  injection E as E. now apply IH.
Qed.

Lemma append_eq_self (p a : string) : p ++ a = p -> a = "".
Proof.
  intros E. apply (append_inv_head p). now rewrite append_nil_r.
Qed.

Lemma replace_char_app (c : ascii) (r a b : string) :
  PyStr.replace_char c r (a ++ b)
  = PyStr.replace_char c r a ++ PyStr.replace_char c r b.
Proof.
  induction a as [|x a IH]; simpl; [reflexivity|].
  destruct (PyStr.chr_eqb x c); rewrite IH; [now rewrite append_assoc | reflexivity].
Qed.

(** A character that falls under [p] is left alone by [replace_char c]
    when [c] does not fall under [p]. *)
Lemma replace_char_id (p : ascii -> bool) (c : ascii) (r s : string) :
  p c = false -> PyStr.all_chars p s = true -> PyStr.replace_char c r s = s.
Proof.
  intros Hc. induction s as [|x s IH]; simpl; [reflexivity|].
  intros Hs. apply andb_true_iff in Hs as [Hx Hs].
  unfold PyStr.chr_eqb. destruct (Ascii.eqb_spec x c) as [->|_].
  - congruence.
  - now rewrite IH.
Qed.

Lemma all_chars_app (p : ascii -> bool) (a b : string) :
  PyStr.all_chars p (a ++ b) = PyStr.all_chars p a && PyStr.all_chars p b.
Proof.
  induction a as [|x a IH]; simpl; [reflexivity|].
  now rewrite IH, andb_assoc.
Qed.

Lemma all_chars_impl (p q : ascii -> bool) (s : string) :
  (forall a, p a = true -> q a = true) ->
  PyStr.all_chars p s = true -> PyStr.all_chars q s = true.
Proof.
  intros Hpq. induction s as [|x s IH]; simpl; [reflexivity|].
  intros Hs. apply andb_true_iff in Hs as [Hx Hs].
  now rewrite (Hpq _ Hx), IH.
Qed.

(** [split_char] never answers the empty list, and joining its pieces
    with the separator gives the string back. *)
Lemma split_char_cons (c : ascii) (s : string) :
  exists p ps, PyStr.split_char c s = p :: ps.
Proof.
  destruct s as [|a s]; simpl; [now eexists; eexists|].
  destruct (PyStr.split_char c s) as [|p ps]; [now eexists; eexists|].
  destruct (PyStr.chr_eqb a c); now eexists; eexists.
Qed.

Lemma join_split_char (c : ascii) (s : string) :
  String.concat (String c "") (PyStr.split_char c s) = s.
Proof.
  induction s as [|a s IH]; [reflexivity|].
  simpl PyStr.split_char.
  destruct (split_char_cons c s) as (p & ps & E). rewrite E in *.
  unfold PyStr.chr_eqb. destruct (Ascii.eqb_spec a c) as [->|_].
  - change (String.concat (String c "") ("" :: p :: ps))
      with ("" ++ String c "" ++ String.concat (String c "") (p :: ps)).
    now rewrite IH.
  - destruct ps as [|q ps]; simpl in *; now rewrite IH.
Qed.

(** Cutting at the first occurrence of a character is unambiguous. *)
Lemma cut_unique (c : ascii) (x x' r r' : string) :
  PyStr.all_chars (fun a => negb (PyStr.chr_eqb a c)) x = true ->
  PyStr.all_chars (fun a => negb (PyStr.chr_eqb a c)) x' = true ->
  x ++ String c r = x' ++ String c r' -> x = x' /\ r = r'.
Proof.
  revert x'. induction x as [|a x IH]; intros [|a' x']; simpl; intros Hx Hx' E.
  - injection E as E. now split.
  - injection E as E1 E2. apply andb_true_iff in Hx' as [Ha _].
    subst a'. unfold PyStr.chr_eqb in Ha. now rewrite Ascii.eqb_refl in Ha.
  - injection E as E1 E2. apply andb_true_iff in Hx as [Ha _].
    subst a. unfold PyStr.chr_eqb in Ha. now rewrite Ascii.eqb_refl in Ha.
  - injection E as E1 E2. subst a'.
    apply andb_true_iff in Hx as [_ Hx]. apply andb_true_iff in Hx' as [_ Hx'].
    destruct (IH x' Hx Hx' E2) as [-> ->]. now split.
Qed.

Lemma digit_not (c : ascii) :
  PyStr.is_digit c = false ->
  forall a, PyStr.is_digit a = true -> negb (PyStr.chr_eqb a c) = true.
Proof.
  intros Hc a Ha. unfold PyStr.chr_eqb.
  destruct (Ascii.eqb_spec a c) as [->|_]; [congruence | reflexivity].
Qed.

End StrFacts.

(** ** Utterance names *)

Module NameFacts.

Import StrFacts.

Section Facts.
Context {num : Type} `{PyNumber num}.

Lemma substitute_app (a b : string) :
  Utterance.substitute (a ++ b)
  = Utterance.substitute a ++ Utterance.substitute b.
Proof.
  unfold Utterance.substitute. now rewrite !replace_char_app.
Qed.

Lemma substitute_digits (s : string) :
  PyStr.all_chars PyStr.is_digit s = true -> Utterance.substitute s = s.
Proof.
  intros Hs. unfold Utterance.substitute.
  rewrite (replace_char_id PyStr.is_digit " "%char) by (reflexivity || exact Hs).
  rewrite (replace_char_id PyStr.is_digit "."%char) by (reflexivity || exact Hs).
  now rewrite (replace_char_id PyStr.is_digit "_"%char).
Qed.

Lemma digits_all (s : string) :
  PyStr.digits s = true -> PyStr.all_chars PyStr.is_digit s = true.
Proof.
  unfold PyStr.digits. intros Hs. now apply andb_true_iff in Hs as [_ Hs].
Qed.

Lemma digits_no_dash (s : string) :
  PyStr.digits s = true ->
  PyStr.all_chars (fun a => negb (PyStr.chr_eqb a "-")) s = true.
Proof.
  intros Hs. apply (all_chars_impl PyStr.is_digit); [|now apply digits_all].
  now apply digit_not.
Qed.

(** A plain decimal [a.b] is substituted to [a-b]. *)
Lemma plain_decimal_inv (s : string) :
  Utterance.plain_decimal s = true ->
  exists a b,
    s = a ++ "." ++ b /\ PyStr.digits a = true /\ PyStr.digits b = true /\
    Utterance.substitute s = a ++ "-" ++ b.
Proof.
  unfold Utterance.plain_decimal. intros Hs.
  pose proof (join_split_char "." s) as J.
  destruct (PyStr.split_char "." s) as [|a [|b [|c l]]]; try discriminate.
  apply andb_true_iff in Hs as [Ha Hb].
  exists a, b. simpl in J. subst s. repeat split; try assumption.
  rewrite substitute_app.
  change (Utterance.substitute (String "." b)) with ("-" ++ Utterance.substitute b).
  now rewrite (substitute_digits a), (substitute_digits b) by now apply digits_all.
Qed.

Lemma name_of_whole (file speaker : string) (b e : option num) :
  Utterance.is_some b && Utterance.is_some e = false ->
  Utterance.name_of file speaker b e = Utterance.substitute (Utterance.stem file speaker).
Proof.
  unfold Utterance.name_of, Utterance.stem. destruct b, e; simpl; intros E;
    try discriminate; reflexivity.
Qed.

Lemma name_of_segment (file speaker : string) (x y : num) :
  Utterance.name_of file speaker (Some x) (Some y)
  = Utterance.substitute (Utterance.stem file speaker)
    ++ "-" ++ Utterance.substitute (str x)
    ++ "-" ++ Utterance.substitute (str y).
Proof.
  unfold Utterance.name_of. fold (Utterance.stem file speaker).
  rewrite substitute_app, (substitute_app "-"), (substitute_app (str x)),
    (substitute_app "-" (str y)).
  reflexivity.
Qed.

Lemma name_is_name_of (u : Utterance.t num) :
  Utterance.name u
  = Utterance.name_of (Utterance.file_name u) (Utterance.speaker_name u)
      (Utterance.begin u) (Utterance.end_ u).
Proof.
  unfold Utterance.name, Utterance.name_of, Utterance.is_segment.
  destruct (PyStr.startswith _ _); simpl;
    destruct (Utterance.begin u), (Utterance.end_ u); reflexivity.
Qed.

Lemma segment_names_differ (file speaker : string) (b1 e1 b2 e2 : num) :
  Utterance.plain_decimal (str b1) = true ->
  Utterance.plain_decimal (str e1) = true ->
  Utterance.plain_decimal (str b2) = true ->
  Utterance.plain_decimal (str e2) = true ->
  Utterance.name_of file speaker (Some b1) (Some e1)
  = Utterance.name_of file speaker (Some b2) (Some e2) ->
  str b1 = str b2 /\ str e1 = str e2.
Proof.
  intros Hb1 He1 Hb2 He2. rewrite !name_of_segment. intros E.
  apply append_inv_head in E.
  destruct (plain_decimal_inv _ Hb1) as (a1 & c1 & S1 & Da1 & Dc1 & T1).
  destruct (plain_decimal_inv _ He1) as (a2 & c2 & S2 & Da2 & Dc2 & T2).
  destruct (plain_decimal_inv _ Hb2) as (a3 & c3 & S3 & Da3 & Dc3 & T3).
  destruct (plain_decimal_inv _ He2) as (a4 & c4 & S4 & Da4 & Dc4 & T4).
  rewrite T1, T2, T3, T4 in E. rewrite S1, S2, S3, S4. clear T1 T2 T3 T4.
  simpl in E. injection E as E.
  rewrite !append_assoc in E. simpl in E.
  apply cut_unique in E as [-> E]; try now apply digits_no_dash.
  apply cut_unique in E as [-> E]; try now apply digits_no_dash.
  apply cut_unique in E as [-> ->]; try now apply digits_no_dash.
  now split.
Qed.

Lemma segment_and_whole_differ (file speaker : string) (x y : num)
    (b e : option num) :
  Utterance.is_some b && Utterance.is_some e = false ->
  Utterance.name_of file speaker (Some x) (Some y)
  <> Utterance.name_of file speaker b e.
Proof.
  intros Hbe. rewrite name_of_segment, (name_of_whole _ _ _ _ Hbe).
  intros E. apply append_eq_self in E. discriminate E.
Qed.

End Facts.

End NameFacts.

(** C1 (as amended).  The identifier of an utterance is the value of the
    naming algorithm on the file name and the speaker name that the
    utterance saved when it was constructed and on its two boundaries:
    substitute in the file name, prepend the speaker and a dash unless
    already there, append the two boundaries when both are set, substitute
    again.  For an utterance as [Utterance(speaker, file, ...)] makes it,
    the saved names are the names of its file and of its speaker, so two
    utterances made for the same file and speaker with the same boundaries
    have the same identifier; [set_speaker] gives the utterance another
    speaker and leaves the identifier as it is.  Of two utterances made
    for the same file and speaker, one with both boundaries and one without
    both never share an identifier, and two with both boundaries differ in
    their identifiers as soon as the printed boundaries differ, provided
    the four boundaries print in plain decimal form (digits, dot, digits). *)
Theorem utterance_name_by_four_values :
  forall {num : Type} `{PyNumber num} (speaker : Speaker.t) (file : File.t num)
         (b1 e1 b2 e2 : option num) (c1 c2 : option Z) (t1 t2 : option string),
    let u1 := Utterance.init speaker (File.name file) b1 e1 c1 t1 in
    let u2 := Utterance.init speaker (File.name file) b2 e2 c2 t2 in
    (Utterance.speaker u1 = Some speaker
     /\ Utterance.speaker_name u1 = Speaker.name speaker
     /\ Utterance.file_name u1 = File.name file)
    /\ Utterance.name u1
       = Utterance.name_of (File.name file) (Speaker.name speaker) b1 e1
    /\ (b1 = b2 -> e1 = e2 -> Utterance.name u1 = Utterance.name u2)
    /\ (Utterance.is_segment u1 = true -> Utterance.is_segment u2 = false ->
        Utterance.name u1 <> Utterance.name u2)
    /\ (forall x1 y1 x2 y2,
          b1 = Some x1 -> e1 = Some y1 -> b2 = Some x2 -> e2 = Some y2 ->
          Utterance.plain_decimal (str x1) = true ->
          Utterance.plain_decimal (str y1) = true ->
          Utterance.plain_decimal (str x2) = true ->
          Utterance.plain_decimal (str y2) = true ->
          str x1 <> str x2 \/ str y1 <> str y2 ->
          Utterance.name u1 <> Utterance.name u2)
    /\ (forall u : Utterance.t num,
          Utterance.name u
          = Utterance.name_of (Utterance.file_name u) (Utterance.speaker_name u)
              (Utterance.begin u) (Utterance.end_ u))
    /\ (forall (other : Speaker.t) (u : Utterance.t num),
          Utterance.speaker (File.set_speaker other u) = Some other
          /\ Utterance.speaker_name (File.set_speaker other u)
             = Utterance.speaker_name u
          /\ Utterance.name (File.set_speaker other u) = Utterance.name u).
Proof.
  intros num HN speaker file b1 e1 b2 e2 c1 c2 t1 t2 u1 u2.
  split; [now repeat split|].
  rewrite !NameFacts.name_is_name_of. subst u1 u2.
  cbn [Utterance.init Utterance.file_name Utterance.speaker_name Utterance.begin
       Utterance.end_].
  split; [reflexivity|]. split; [|split; [|split; [|split]]].
  - now intros -> ->.
  - unfold Utterance.is_segment.
    cbn [Utterance.init Utterance.begin Utterance.end_]. intros S1 S2.
    destruct b1 as [x|], e1 as [y|]; try discriminate S1.
    now apply NameFacts.segment_and_whole_differ.
  - intros x1 y1 x2 y2 -> -> -> -> P1 P2 P3 P4 D E.
    destruct (NameFacts.segment_names_differ _ _ _ _ _ _ P1 P2 P3 P4 E) as [Eb Ee].
    destruct D as [D|D]; contradiction.
  - intros u. apply NameFacts.name_is_name_of.
  - intros other u. now destruct u.
Qed.

Lemma utterance_name_by_four_values_witness :
  Utterance.name Examples.utt_05_15 <> Utterance.name Examples.utt_05_25
  /\ Utterance.speaker Examples.utt_05_15 = Some Examples.alice.
Proof.
  destruct (utterance_name_by_four_values Examples.alice Examples.rec_file
              (Some (Dec.Float 5 1)) (Some (Dec.Float 15 1))
              (Some (Dec.Float 5 1)) (Some (Dec.Float 25 1))
              (Some 0%Z) (Some 0%Z) None None) as ((S & _) & _ & _ & _ & D & _).
  split; [|exact S].
  apply (D (Dec.Float 5 1) (Dec.Float 15 1) (Dec.Float 5 1) (Dec.Float 25 1));
    try reflexivity.
  right. vm_compute. discriminate.
Defined.

(** C1, the claim as stated fails, in both directions.  [begin=0,
    end=1.5] and [begin=0.1, end=5] on one file and one speaker: both
    utterances have both boundaries, the boundaries differ, the identifier
    is [alice-rec-0-1-5] for both.  And an utterance of [alice] that
    [set_speaker] gave to [bob] has the file, the speaker and the boundaries
    of an utterance made for [bob], and another identifier. *)
Lemma utterance_name_collision :
  (Utterance.file_name Examples.utt_0_15 = Utterance.file_name Examples.utt_01_5
   /\ Utterance.speaker Examples.utt_0_15 = Utterance.speaker Examples.utt_01_5
   /\ Utterance.is_segment Examples.utt_0_15 = true
   /\ Utterance.is_segment Examples.utt_01_5 = true
   /\ Utterance.begin Examples.utt_0_15 <> Utterance.begin Examples.utt_01_5
   /\ Utterance.end_ Examples.utt_0_15 <> Utterance.end_ Examples.utt_01_5
   /\ Utterance.name Examples.utt_0_15 = "alice-rec-0-1-5"
   /\ Utterance.name Examples.utt_01_5 = "alice-rec-0-1-5")
  /\
  (Utterance.file_name Examples.utt_moved = Utterance.file_name Examples.utt_bob
   /\ Utterance.speaker Examples.utt_moved = Some Examples.bob
   /\ Utterance.speaker Examples.utt_bob = Some Examples.bob
   /\ Utterance.begin Examples.utt_moved = Utterance.begin Examples.utt_bob
   /\ Utterance.end_ Examples.utt_moved = Utterance.end_ Examples.utt_bob
   /\ Utterance.name Examples.utt_moved = "alice-rec-0-5-1-5"
   /\ Utterance.name Examples.utt_bob = "bob-rec-0-5-1-5").
Proof.
  repeat split; try reflexivity; simpl; discriminate.
Qed.

(** ** Comparisons *)

(** C6, at the failing input.  [Speaker("a") < Speaker("b")] answers what
    ["b" < "a"] answers, [False], although ["a" < "b"] holds and
    [Speaker("a") < "b"] answers [True]; the same for files and for
    utterances, and for [>].  In general the comparison of two entities
    compares the second name with the first. *)
Theorem entity_lt_compares_backwards :
  Compare.Speaker_lt (Speaker.init "a") (PySpeaker (num := Dec.t) (Speaker.init "b"))
  = Ok false
  /\ String.ltb "a" "b" = true
  /\ Compare.Speaker_lt (Speaker.init "a") (PyStr_ (num := Dec.t) "b") = Ok true
  /\ Compare.Speaker_gt (Speaker.init "b") (PySpeaker (num := Dec.t) (Speaker.init "a"))
     = Ok false
  /\ (forall (a b : Speaker.t),
        Compare.Speaker_lt a (PySpeaker (num := Dec.t) b)
        = Ok (String.ltb (Speaker.name b) (Speaker.name a)))
  /\ (forall (a b : File.t Dec.t),
        Compare.File_lt a (PyFile b) = Ok (String.ltb (File.name b) (File.name a)))
  /\ (forall (a b : Utterance.t Dec.t),
        Compare.Utterance_lt a (PyUtterance b)
        = Ok (String.ltb (Utterance.name b) (Utterance.name a))).
Proof.
  repeat split.
Qed.

(** ** Files: how the methods run *)

Module FileFacts.

Section Facts.
Context {num : Type} `{PyNumber num}.
Variable env : File.Env num.

Lemma wav_info_entry_run {A} (field : WavInfo.t num -> A) (none : A)
    (st : File.St num) (w : string) :
  File.wav_path (File.self st) = Some w ->
  File.wav_info_entry env field st
  = (Ok (File.info_value env field none (File.self st)), File.loaded env st).
Proof.
  destruct st as [f tr p]. destruct f; simpl. intros ->.
  unfold File.wav_info_entry, File.info_value, File.loaded, File.bind,
    File.get_self, File.load_info; simpl.
  destruct wav_info; reflexivity.
Qed.

Lemma loaded_without_sound (st : File.St num) :
  File.wav_path (File.self st) = None -> File.loaded env st = st.
Proof. unfold File.loaded. now intros ->. Qed.

Lemma duration_run (st : File.St num) :
  File.duration env st
  = (Ok (File.duration_value env (File.self st)), File.loaded env st).
Proof.
  unfold File.duration, File.bind, File.get_self, File.duration_value.
  destruct (File.wav_path (File.self st)) as [w|] eqn:W.
  - exact (wav_info_entry_run _ _ st w W).
  - unfold File.info_value. rewrite W, loaded_without_sound by exact W.
    reflexivity.
Qed.

Lemma num_channels_run (st : File.St num) :
  File.num_channels env st
  = (Ok (File.info_value env WavInfo.num_channels 0%Z (File.self st)),
     File.loaded env st).
Proof.
  unfold File.num_channels, File.bind, File.get_self.
  destruct (File.wav_path (File.self st)) as [w|] eqn:W.
  - exact (wav_info_entry_run _ _ st w W).
  - unfold File.info_value. rewrite W, loaded_without_sound by exact W.
    reflexivity.
Qed.

Lemma sample_rate_run (st : File.St num) :
  File.sample_rate env st
  = (Ok (File.info_value env WavInfo.sample_rate 0%Z (File.self st)),
     File.loaded env st).
Proof.
  unfold File.sample_rate, File.bind, File.get_self.
  destruct (File.wav_path (File.self st)) as [w|] eqn:W.
  - exact (wav_info_entry_run _ _ st w W).
  - unfold File.info_value. rewrite W, loaded_without_sound by exact W.
    reflexivity.
Qed.

(** Looking the audio information up leaves everything else alone. *)
Lemma loaded_self (st : File.St num) :
  File.name (File.self (File.loaded env st)) = File.name (File.self st)
  /\ File.wav_path (File.self (File.loaded env st)) = File.wav_path (File.self st)
  /\ File.text_path (File.self (File.loaded env st)) = File.text_path (File.self st)
  /\ File.speaker_ordering (File.self (File.loaded env st))
     = File.speaker_ordering (File.self st)
  /\ File.utterances (File.self (File.loaded env st))
     = File.utterances (File.self st)
  /\ File.aligned (File.self (File.loaded env st)) = File.aligned (File.self st)
  /\ File.polls (File.loaded env st) = File.polls st.
Proof.
  unfold File.loaded.
  destruct (File.wav_path (File.self st)) eqn:W,
           (File.wav_info (File.self st)) eqn:I; simpl; rewrite ?W; tauto.
Qed.

Lemma info_value_loaded {A} (field : WavInfo.t num -> A) (none : A)
    (st : File.St num) :
  File.info_value env field none (File.self (File.loaded env st))
  = File.info_value env field none (File.self st).
Proof.
  unfold File.loaded, File.info_value.
  destruct (File.wav_path (File.self st)) eqn:W,
           (File.wav_info (File.self st)) eqn:I; simpl; rewrite ?W, ?I;
    reflexivity.
Qed.

Lemma loaded_idempotent (st : File.St num) :
  File.loaded env (File.loaded env st) = File.loaded env st.
Proof.
  unfold File.loaded at 2.
  destruct (File.wav_path (File.self st)) eqn:W,
           (File.wav_info (File.self st)) eqn:I;
    unfold File.loaded; simpl; rewrite ?W, ?I; reflexivity.
Qed.

(** *** Speakers and utterances *)

Lemma mem_eqb (x : string) (l : list string) :
  File.mem x l = true <-> In x l.
Proof.
  unfold File.mem. rewrite existsb_exists. split.
  - intros (y & Hy & E). apply String.eqb_eq in E. now subst.
  - intros Hx. exists x. split; [exact Hx | apply String.eqb_refl].
Qed.

Lemma distinct_NoDup (l : list string) :
  File.distinct l = true <-> NoDup l.
Proof.
  induction l as [|x l IH]; simpl.
  - split; [constructor | reflexivity].
  - rewrite andb_true_iff, negb_true_iff, IH. split.
    + intros [Hx Hl]. constructor; [|exact Hl].
      intros Hin. apply mem_eqb in Hin. congruence.
    + intros Hn. inversion Hn as [|? ? Hx Hl]; subst. split; [|exact Hl].
      destruct (File.mem x l) eqn:E; [|reflexivity].
      apply mem_eqb in E. contradiction.
Qed.

Lemma speaker_in_some (s : Speaker.t) (l : list (option Speaker.t)) :
  File.all_speakers l = true ->
  File.speaker_in (Some s) l
  = Ok (File.mem (Speaker.name s) (File.ordering_names l)).
Proof.
  induction l as [|[s'|] l IH]; simpl; intros Hl; try discriminate.
  - reflexivity.
  - rewrite (String.eqb_sym (Speaker.name s)).
    destruct (String.eqb (Speaker.name s') (Speaker.name s)); [reflexivity|].
    now apply IH.
Qed.

Lemma add_speaker_run (s : Speaker.t) (st : File.St num) :
  File.all_speakers (File.speaker_ordering (File.self st)) = true ->
  File.add_speaker (Some s) st
  = (Ok tt, File.put (File.register s (File.self st)) st).
Proof.
  intros Hl. unfold File.add_speaker, File.bind, File.get_self, File.lift.
  rewrite (speaker_in_some s _ Hl). unfold File.register, File.ret.
  destruct (File.mem _ _); simpl; [|reflexivity].
  now destruct st.
Qed.

Lemma add_utterance_run (u : Utterance.t num) (s : Speaker.t)
    (st : File.St num) :
  Utterance.speaker u = Some s ->
  File.all_speakers (File.speaker_ordering (File.self st)) = true ->
  File.add_utterance u st
  = (Ok tt, File.put (File.register s (File.store u (File.self st))) st).
Proof.
  intros Hs Hl. unfold File.add_utterance, File.bind, File.get_self, File.set_self.
  rewrite Hs. fold (File.put (File.store u (File.self st)) st).
  rewrite add_speaker_run by exact Hl. reflexivity.
Qed.

(** Whatever becomes of registering the speaker, the utterance is in
    the collection under its name. *)
Lemma add_utterance_stores (u : Utterance.t num) (st : File.St num) :
  exists r f',
    File.add_utterance u st = (r, File.put f' st)
    /\ File.utterances f'
       = Collection.setitem (Utterance.name u) u (File.utterances (File.self st)).
Proof.
  destruct st as [f tr p].
  cbv [File.add_utterance File.bind File.get_self File.set_self
       File.add_speaker File.lift File.self File.trace File.polls File.put].
  match goal with
  | |- context [File.speaker_in ?a ?b] =>
      destruct (File.speaker_in a b) as [[|]|e]
  end; cbv [File.ret File.raise negb File.self File.trace File.polls];
    eexists; eexists; (split; [reflexivity|]); reflexivity.
Qed.

End Facts.

End FileFacts.

(** ** Reading the entries of a tier *)

Module EntryFacts.

Import FileFacts.

Section Facts.
Context {num : Type} `{PyNumber num}.
Variable env : File.Env num.

Lemma getitem_setitem {T} (k : string) (v : T) (c : Collection.t T) :
  Collection.getitem k (Collection.setitem k v c) = Ok v.
Proof.
  induction c as [|[k' v'] c IH]; simpl.
  - now rewrite String.eqb_refl.
  - destruct (String.eqb k' k) eqn:E; simpl; rewrite E; [reflexivity | exact IH].
Qed.

Lemma poll_goes_on (stop_check : option (nat -> bool)) (st : File.St num) :
  File.goes_on stop_check st = true ->
  File.poll stop_check st = (Ok false, File.polled stop_check st).
Proof.
  unfold File.goes_on, File.poll, File.polled.
  destruct stop_check as [check|]; [|reflexivity].
  intros G. apply negb_true_iff in G. now rewrite G.
Qed.

Lemma polled_self (stop_check : option (nat -> bool)) (st : File.St num) :
  File.self (File.polled stop_check st) = File.self st
  /\ File.trace (File.polled stop_check st) = File.trace st.
Proof. unfold File.polled. now destruct stop_check. Qed.

(** A turn of the entry loop that is not stopped and finds words looks
    the duration up, makes the utterance of the entry and adds it. *)
Lemma load_entry_run (stop_check : option (nat -> bool)) (speaker : Speaker.t)
    (entry : Praat.Entry num) (st : File.St num) :
  File.goes_on stop_check st = true ->
  File.has_words env entry = true ->
  File.load_entry env stop_check speaker entry st
  = match File.add_utterance
            (File.utterance_of_entry env speaker (File.self st) entry)
            (File.loaded env (File.polled stop_check st)) with
    | (Ok _, st') => (Ok false, st')
    | (Err e, st') => (Err e, st')
    end.
Proof.
  intros G W. destruct entry as [[b e] text].
  unfold File.load_entry, File.bind. rewrite (poll_goes_on _ _ G).
  unfold File.has_words in W. cbn [snd] in W.
  unfold File.utterance_of_entry.
  destruct (File.parse_transcription env (PyStr.strip (PyStr.lower text)))
    as [|w ws] eqn:E; [discriminate|].
  rewrite duration_run. unfold File.get_self.
  destruct (loaded_self env (File.polled stop_check st)) as (N & _).
  destruct (polled_self stop_check st) as (S & _).
  rewrite N, S.
  destruct (File.add_utterance _ _) as [[[]|e'] st']; reflexivity.
Qed.

Lemma load_entry_skips (stop_check : option (nat -> bool)) (speaker : Speaker.t)
    (entry : Praat.Entry num) (st : File.St num) :
  File.goes_on stop_check st = true ->
  File.has_words env entry = false ->
  File.load_entry env stop_check speaker entry st
  = (Ok false, File.polled stop_check st).
Proof.
  intros G W. destruct entry as [[b e] text].
  unfold File.load_entry, File.bind. rewrite (poll_goes_on _ _ G).
  unfold File.has_words in W. cbn [snd] in W.
  destruct (File.parse_transcription env (PyStr.strip (PyStr.lower text)));
    [reflexivity | discriminate].
Qed.

(** Whatever the turn answers, the utterance of the entry is in the
    collection afterwards, under its name. *)
Lemma load_entry_stores (stop_check : option (nat -> bool)) (speaker : Speaker.t)
    (entry : Praat.Entry num) (st : File.St num) :
  File.goes_on stop_check st = true ->
  File.has_words env entry = true ->
  let utt := File.utterance_of_entry env speaker (File.self st) entry in
  exists r st',
    File.load_entry env stop_check speaker entry st = (r, st')
    /\ Collection.getitem (Utterance.name utt) (File.utterances (File.self st'))
       = Ok utt
    /\ File.trace st' = File.trace (File.loaded env st)
    /\ (File.all_speakers (File.speaker_ordering (File.self st)) = true ->
        r = Ok false).
Proof.
  intros G W utt. rewrite (load_entry_run _ _ _ _ G W). fold utt.
  destruct (add_utterance_stores utt (File.loaded env (File.polled stop_check st)))
    as (r & f' & E & U).
  assert (T : File.trace (File.loaded env (File.polled stop_check st))
              = File.trace (File.loaded env st)).
  { unfold File.loaded, File.polled. destruct stop_check; simpl;
      destruct (File.wav_path (File.self st)), (File.wav_info (File.self st));
      reflexivity. }
  assert (A : File.all_speakers (File.speaker_ordering (File.self st)) = true ->
              exists x, r = Ok x).
  { intros Hl. destruct (loaded_self env (File.polled stop_check st))
      as (_ & _ & _ & O & _).
    destruct (polled_self stop_check st) as (S & _).
    rewrite (add_utterance_run utt speaker) in E.
    - injection E as <- _. now exists tt.
    - unfold utt. now destruct entry as [[b e] text].
    - now rewrite O, S. }
  rewrite E. destruct r as [[]|e'].
  - eexists; eexists. split; [reflexivity|]. cbn [File.self File.put File.trace].
    rewrite U. split; [apply getitem_setitem|]. split; [exact T | reflexivity].
  - eexists; eexists. split; [reflexivity|]. cbn [File.self File.put File.trace].
    rewrite U. split; [apply getitem_setitem|]. split; [exact T|].
    intros Hl. destruct (A Hl) as [x Hx]. discriminate Hx.
Qed.

End Facts.

End EntryFacts.

(** C8 (as amended).  For an entry of an interval tier whose label tokenizes
    to at least one word (the loop not being stopped before it), the utterance that
    [load_text] constructs has [begin] rounded to 4 places and [end] rounded
    to 4 places and then cut to the duration of the file by [min]: [end] is
    the duration when the rounded end exceeds it and the rounded end
    otherwise.  That utterance is what the collection of the file holds under
    its name after the turn, and the turn answers without an exception when
    the speaker ordering holds speakers only. *)
Theorem load_text_rounds_then_clamps :
  forall {num : Type} `{PyNumber num} (env : File.Env num)
         (stop_check : option (nat -> bool)) (speaker : Speaker.t)
         (b e : num) (text : string) (st : File.St num),
    File.goes_on stop_check st = true ->
    File.has_words env (b, e, text) = true ->
    let d := File.duration_value env (File.self st) in
    let utt := File.utterance_of_entry env speaker (File.self st) (b, e, text) in
    Utterance.begin utt = Some (round b 4)
    /\ Utterance.end_ utt = Some (py_min (round e 4) d)
    /\ (lt d (round e 4) = true -> Utterance.end_ utt = Some d)
    /\ (lt d (round e 4) = false -> Utterance.end_ utt = Some (round e 4))
    /\ exists r st',
         File.load_entry env stop_check speaker (b, e, text) st = (r, st')
         /\ Collection.getitem (Utterance.name utt) (File.utterances (File.self st'))
            = Ok utt
         /\ (File.all_speakers (File.speaker_ordering (File.self st)) = true ->
             r = Ok false).
Proof.
  intros num HN env stop_check speaker b e text st G W d utt.
  split; [reflexivity|]. split; [reflexivity|].
  split; [|split].
  - intros L. unfold utt, File.utterance_of_entry, py_min; cbn. fold d. now rewrite L.
  - intros L. unfold utt, File.utterance_of_entry, py_min; cbn. fold d. now rewrite L.
  - destruct (EntryFacts.load_entry_stores env stop_check speaker (b, e, text) st G W)
      as (r & st' & E & U & _ & A).
    exists r, st'. repeat split; assumption.
Qed.

Lemma load_text_rounds_then_clamps_witness :
  let utt := File.utterance_of_entry (Examples.env_of []) Examples.alice
               Examples.rec_file Examples.entry_hello in
  Utterance.begin utt = Some (Dec.Float 12346 4)
  /\ Utterance.end_ utt = Some (Dec.Float 50 1).
Proof.
  destruct (load_text_rounds_then_clamps (Examples.env_of []) None Examples.alice
              (Dec.Float 123456 5) (Dec.Float 9999999 6) "Hello"
              (File.start Examples.rec_file) eq_refl eq_refl)
    as (B & _ & C & _).
  split; [exact B | apply C; reflexivity].
Defined.

(** C8, the claim as stated fails.  A sound file of 5.00004 seconds and
    the entry [(1.0, 5.00005, "Hello")]: the raw end exceeds the duration,
    and the end that is stored is the rounded end 5.0, which is below the
    duration and is not the duration: the rounded end is compared, not the
    raw one. *)
Lemma load_text_clamps_the_rounded_end :
  File.duration_value Examples.env_5_00004 Examples.rec_file = Dec.Float 500004 5
  /\ snd (fst Examples.entry_late) = Dec.Float 500005 5
  /\ lt (Dec.Float 500004 5) (Dec.Float 500005 5) = true
  /\ round (Dec.Float 500005 5) 4 = Dec.Float 50000 4
  /\ lt (Dec.Float 50000 4) (Dec.Float 500004 5) = true
  /\ exists utt st',
       File.load_entry Examples.env_5_00004 None Examples.alice Examples.entry_late
         (File.start Examples.rec_file) = (Ok false, st')
       /\ Collection.iter (File.utterances (File.self st')) = [utt]
       /\ Utterance.begin utt = Some (Dec.Float 10 1)
       /\ Utterance.end_ utt = Some (Dec.Float 50000 4).
Proof.
  split; [vm_compute; reflexivity|]. split; [reflexivity|].
  split; [vm_compute; reflexivity|]. split; [vm_compute; reflexivity|].
  split; [vm_compute; reflexivity|].
  eexists. eexists. split; [vm_compute; reflexivity|].
  split; [reflexivity|]. split; reflexivity.
Qed.

(** C10.  A file without a sound path answers 0 for [duration],
    [num_channels] and [sample_rate] and leaves the state as it was: no
    audio information is asked for.  So when a TextGrid is read for such a
    file, the end of every utterance made of an entry is the [min] of the
    rounded end and 0: it is 0 when the rounded end is above 0, and the turn
    of the loop still asks for no audio information. *)
Theorem no_sound_file_clamps_to_zero :
  forall {num : Type} `{PyNumber num} (env : File.Env num) (st : File.St num),
    File.wav_path (File.self st) = None ->
    File.duration env st = (Ok (of_int 0), st)
    /\ File.num_channels env st = (Ok 0%Z, st)
    /\ File.sample_rate env st = (Ok 0%Z, st)
    /\ forall (stop_check : option (nat -> bool)) (speaker : Speaker.t)
              (b e : num) (text : string),
         File.goes_on stop_check st = true ->
         File.has_words env (b, e, text) = true ->
         let utt := File.utterance_of_entry env speaker (File.self st) (b, e, text) in
         Utterance.end_ utt = Some (py_min (round e 4) (of_int 0))
         /\ (lt (of_int 0) (round e 4) = true -> Utterance.end_ utt = Some (of_int 0))
         /\ exists r st',
              File.load_entry env stop_check speaker (b, e, text) st = (r, st')
              /\ Collection.getitem (Utterance.name utt)
                   (File.utterances (File.self st')) = Ok utt
              /\ File.trace st' = File.trace st.
Proof.
  intros num HN env st W.
  assert (D : File.duration_value env (File.self st) = of_int 0).
  { unfold File.duration_value, File.info_value. now rewrite W. }
  split; [|split; [|split]].
  - rewrite FileFacts.duration_run, D, FileFacts.loaded_without_sound by exact W.
    reflexivity.
  - rewrite FileFacts.num_channels_run, FileFacts.loaded_without_sound by exact W.
    unfold File.info_value. now rewrite W.
  - rewrite FileFacts.sample_rate_run, FileFacts.loaded_without_sound by exact W.
    unfold File.info_value. now rewrite W.
  - intros stop_check speaker b e text G Hw utt.
    assert (E : Utterance.end_ utt = Some (py_min (round e 4) (of_int 0))).
    { unfold utt, File.utterance_of_entry; cbn. now rewrite D. }
    split; [exact E|]. split.
    + intros L. rewrite E. unfold py_min. now rewrite L.
    + destruct (EntryFacts.load_entry_stores env stop_check speaker (b, e, text) st G Hw)
        as (r & st' & R & U & T & _).
      exists r, st'. rewrite FileFacts.loaded_without_sound in T by exact W.
      repeat split; assumption.
Qed.

Lemma no_sound_file_clamps_to_zero_witness :
  File.duration (Examples.env_of []) (File.start Examples.silent_file)
  = (Ok (Dec.Int 0), File.start Examples.silent_file)
  /\ Utterance.end_
       (File.utterance_of_entry (Examples.env_of []) Examples.alice
          Examples.silent_file Examples.entry_hello)
     = Some (Dec.Int 0).
Proof.
  destruct (no_sound_file_clamps_to_zero (Examples.env_of [])
              (File.start Examples.silent_file) eq_refl)
    as (D & _ & _ & L).
  split; [exact D|].
  destruct (L None Examples.alice (Dec.Float 123456 5) (Dec.Float 9999999 6) "Hello"
              eq_refl eq_refl) as (_ & Z & _).
  apply Z. reflexivity.
Defined.

(** ** Paths and the speaker attribution of [parse_file] *)

Module PathFacts.

Import StrFacts.

Lemma rcut_none (c : ascii) (s : string) :
  PyStr.free_of c s = true -> PosixPath.rcut c s = None.
Proof.
  induction s as [|a s IH]; simpl; [reflexivity|].
  intros Hs. apply andb_true_iff in Hs as [Ha Hs].
  rewrite (IH Hs). apply negb_true_iff in Ha. now rewrite Ha.
Qed.

Lemma rcut_last (c : ascii) (x t : string) :
  PyStr.free_of c t = true ->
  PosixPath.rcut c (x ++ String c t) = Some (x ++ String c "", t).
Proof.
  intros Ht. induction x as [|a x IH]; simpl.
  - rewrite (rcut_none c t Ht). unfold PyStr.chr_eqb. now rewrite Ascii.eqb_refl.
  - now rewrite IH.
Qed.

Lemma rstrip_sep_free (n : string) :
  PyStr.free_of PosixPath.sep n = true -> PosixPath.rstrip_sep n = n.
Proof.
  induction n as [|a n IH]; simpl; [reflexivity|].
  intros Hn. apply andb_true_iff in Hn as [Ha Hn].
  rewrite (IH Hn). apply negb_true_iff in Ha. rewrite Ha. now destruct n.
Qed.

Lemma rstrip_sep_keeps (x n : string) :
  n <> "" -> PyStr.free_of PosixPath.sep n = true ->
  PosixPath.rstrip_sep (x ++ n) = x ++ n.
Proof.
  intros Hne Hn. induction x as [|a x IH]; simpl.
  - now apply rstrip_sep_free.
  - rewrite IH. destruct (x ++ n) eqn:E; [|reflexivity].
    destruct x; simpl in E; [contradiction | discriminate].
Qed.

Lemma rstrip_sep_drops (s : string) :
  PosixPath.rstrip_sep (s ++ "/") = PosixPath.rstrip_sep s.
Proof.
  induction s as [|a s IH]; simpl; [reflexivity|]. now rewrite IH.
Qed.

(** The directory of [dir/name/file] is [dir/name], whose last component
    is [name]. *)
Lemma parent_directory (dir name file : string) :
  name <> "" ->
  PyStr.free_of PosixPath.sep name = true ->
  PyStr.free_of PosixPath.sep file = true ->
  PosixPath.dirname (dir ++ "/" ++ name ++ "/" ++ file) = dir ++ "/" ++ name
  /\ PosixPath.basename (dir ++ "/" ++ name) = name.
Proof.
  intros Hne Hn Hf. split.
  - unfold PosixPath.dirname, PosixPath.split.
    replace (dir ++ "/" ++ name ++ "/" ++ file)
      with ((dir ++ "/" ++ name) ++ String PosixPath.sep file)
      by (now rewrite !append_assoc).
    rewrite (rcut_last _ _ _ Hf). cbn [fst].
    change (String PosixPath.sep "") with "/".
    rewrite rstrip_sep_drops.
    replace (dir ++ "/" ++ name) with ((dir ++ "/") ++ name)
      by (now rewrite append_assoc).
    rewrite (rstrip_sep_keeps _ _ Hne Hn).
    destruct ((dir ++ "/") ++ name) eqn:E; [|reflexivity].
    destruct dir; discriminate E.
  - unfold PosixPath.basename.
    change (dir ++ "/" ++ name) with (dir ++ String PosixPath.sep name).
    now rewrite (rcut_last _ _ _ Hn).
Qed.

Lemma split_char_free (c : ascii) (s : string) :
  PyStr.free_of c s = true -> PyStr.split_char c s = [s].
Proof.
  induction s as [|a s IH]; simpl; [reflexivity|].
  intros Hs. apply andb_true_iff in Hs as [Ha Hs].
  rewrite (IH Hs). apply negb_true_iff in Ha. now rewrite Ha.
Qed.

Lemma split_char_first (c : ascii) (a r : string) :
  PyStr.free_of c a = true ->
  PyStr.split_char c (a ++ String c r) = a :: PyStr.split_char c r.
Proof.
  intros Ha. induction a as [|x a IH]; simpl.
  - destruct (split_char_cons c r) as (p & ps & E). rewrite E.
    unfold PyStr.chr_eqb. now rewrite Ascii.eqb_refl.
  - apply andb_true_iff in Ha as [Hx Ha]. rewrite (IH Ha).
    apply negb_true_iff in Hx. now rewrite Hx.
Qed.

End PathFacts.

(** C9.  The name [parse_file] derives for the speaker.  With an empty or
    zero policy it is the last component of the directory of the sound file
    when that file exists, and of the transcription otherwise: for a path
    [dir/name/file] that is [name].  With an integer [n > 0] it is the first
    [n] characters of the file identifier; with the policy [prosodylab] the
    second of its pieces between underscores; with any other string that is
    not empty the identifier unchanged.  [parse_file] hands [load_text] the
    speaker of that name as the root speaker whenever the policy is set or
    the transcription is not a TextGrid. *)
Theorem speaker_attribution :
  forall {num : Type} `{PyNumber num} (env : File.Env num)
         (file_name : string) (file : File.t num),
    (forall policy,
        is_set policy = false ->
        (forall w text_path,
            File.has_sound_file env file = true ->
            root_of env file (Some w) text_path = Ok (PosixPath.dirname w))
        /\ (forall wav_path p,
              File.has_sound_file env file = false ->
              root_of env file wav_path (Some p) = Ok (PosixPath.dirname p))
        /\ (forall root,
              speaker_name_for policy file_name root = Ok (PosixPath.basename root)))
    /\ (forall dir name leaf,
          name <> "" ->
          PyStr.free_of PosixPath.sep name = true ->
          PyStr.free_of PosixPath.sep leaf = true ->
          PosixPath.basename (PosixPath.dirname (dir ++ "/" ++ name ++ "/" ++ leaf))
          = name)
    /\ (forall n root,
          (0 < n)%Z ->
          speaker_name_for (Characters n) file_name root
          = Ok (PyStr.take (Z.to_nat n) file_name))
    /\ (forall a b root,
          PyStr.free_of "_" a = true ->
          PyStr.free_of "_" b = true ->
          speaker_name_for (Convention "prosodylab") (a ++ "_" ++ b) root = Ok b
          /\ forall rest,
               speaker_name_for (Convention "prosodylab")
                 (a ++ "_" ++ b ++ "_" ++ rest) root = Ok b)
    /\ (forall s root,
          s <> "" -> s <> "prosodylab" ->
          speaker_name_for (Convention s) file_name root = Ok file_name)
    /\ (forall policy wav_path text_path stop_check root speaker_name st,
          File.self st = file ->
          root_of env file wav_path text_path = Ok root ->
          speaker_name_for policy file_name root = Ok speaker_name ->
          is_set policy || negb (File.text_type_is env file "textgrid") = true ->
          exists st',
            File.text_type_is env (File.self st') "textgrid"
            = File.text_type_is env file "textgrid"
            /\ parse_into env file_name wav_path text_path policy stop_check st
               = File.load_text env (Some (Speaker.init speaker_name)) stop_check st').
Proof.
  intros num HN env file_name file.
  split; [|split; [|split; [|split; [|split]]]].
  - intros policy Hp. split; [|split].
    + intros w text_path. unfold root_of. now intros ->.
    + intros wav_path p. unfold root_of. now intros ->.
    + intros root. unfold speaker_name_for. now rewrite Hp.
  - intros dir name leaf Hne Hn Hl.
    destruct (PathFacts.parent_directory dir name leaf Hne Hn Hl) as [-> ->].
    reflexivity.
  - intros n root Hn. unfold speaker_name_for, is_set, PyStr.slice_to.
    destruct (Z.eqb_spec n 0) as [->|_]; [lia|]. simpl.
    destruct (Z.leb_spec 0 n); [reflexivity | lia].
  - intros a b root Ha Hb. split.
    + unfold speaker_name_for. cbn [is_set negb String.eqb].
      change (a ++ "_" ++ b) with (a ++ String "_" b).
      rewrite (PathFacts.split_char_first _ _ _ Ha), (PathFacts.split_char_free _ _ Hb).
      reflexivity.
    + intros rest. unfold speaker_name_for.
      change (a ++ "_" ++ b ++ "_" ++ rest) with (a ++ String "_" (b ++ String "_" rest)).
      rewrite (PathFacts.split_char_first _ _ _ Ha), (PathFacts.split_char_first _ _ _ Hb).
      reflexivity.
  - intros s root Hs Hp. unfold speaker_name_for, is_set.
    destruct (String.eqb_spec s "") as [->|_]; [contradiction|].
    destruct (String.eqb_spec s "prosodylab") as [->|_]; [contradiction|].
    reflexivity.
  - intros policy wav_path text_path stop_check root speaker_name st <- R N P.
    unfold parse_into, File.bind, File.get_self.
    rewrite R. cbn [File.lift File.ret].
    unfold root_of in R.
    destruct (File.has_sound_file env (File.self st)) eqn:S.
    + destruct wav_path as [w|]; [|discriminate R].
      cbn [File.emit File.set_self File.self File.trace File.polls].
      rewrite N. cbn [File.lift File.ret File.self].
      assert (T : File.text_type_is env
                    (File.set_wav_info (Some (File.get_wav_info env w)) (File.self st))
                    "textgrid"
                  = File.text_type_is env (File.self st) "textgrid") by reflexivity.
      rewrite T, P. eexists. split; [|reflexivity]. exact T.
    + rewrite N. cbn [File.lift File.ret File.self]. rewrite P.
      exists st. split; reflexivity.
Qed.

Lemma speaker_attribution_witness :
  speaker_name_for (Characters 0) (File.name Examples.rec_file)
    (PosixPath.dirname "/corpus/spk7/rec.wav") = Ok "spk7"
  /\ PosixPath.basename (PosixPath.dirname "/corpus/spk7/rec.wav") = "spk7"
  /\ speaker_name_for (Characters 4) (File.name Examples.anna_file) "/corpus"
     = Ok "anna"
  /\ speaker_name_for (Convention "prosodylab") (File.name Examples.john_file) "/corpus"
     = Ok "utt1"
  /\ speaker_name_for (Convention "name") (File.name Examples.john_file) "/corpus"
     = Ok "JOHN_utt1"
  /\ exists st',
       parse_into (Examples.env_of []) "annaSession1" (Some "/corpus/annaSession1.wav")
         (Some "/corpus/annaSession1.lab") (Characters 4) None
         (File.start Examples.anna_file)
       = File.load_text (Examples.env_of []) (Some (Speaker.init "anna")) None st'.
Proof.
  destruct (speaker_attribution (Examples.env_of []) "rec" Examples.rec_file)
    as (A & B & _).
  destruct (A (Characters 0) eq_refl) as (_ & _ & A3).
  destruct (speaker_attribution (Examples.env_of []) "annaSession1" Examples.anna_file)
    as (_ & _ & C & _ & _ & F).
  destruct (speaker_attribution (Examples.env_of []) "JOHN_utt1" Examples.john_file)
    as (_ & _ & _ & D & E & _).
  split; [exact (A3 "/corpus/spk7")|].
  split; [apply (B "/corpus" "spk7" "rec.wav"); [discriminate | reflexivity | reflexivity]|].
  split; [exact (C 4%Z "/corpus" eq_refl)|].
  split; [exact (proj1 (D "JOHN" "utt1" "/corpus" eq_refl eq_refl))|].
  split; [apply (E "name" "/corpus"); discriminate|].
  destruct (F (Characters 4) (Some "/corpus/annaSession1.wav")
              (Some "/corpus/annaSession1.lab") None "/corpus" "anna"
              (File.start Examples.anna_file) eq_refl eq_refl eq_refl eq_refl)
    as (st' & _ & P).
  exists st'. exact P.
Defined.

(** The three examples of the specification, run through [parse_file] on a
    plain transcript: the utterance that is read belongs to the attributed
    speaker. *)
Example parse_file_directory_speaker :
  Examples.speakers_of
    (parse_file (Examples.env_of []) "rec" (Some "/corpus/spk7/rec.wav")
       (Some "/corpus/spk7/rec.lab") "" (Characters 0) None)
  = ["spk7"].
Proof. vm_compute. reflexivity. Qed.

Example parse_file_prosodylab_speaker :
  Examples.speakers_of
    (parse_file (Examples.env_of []) (File.name Examples.john_file)
       (Some "/corpus/JOHN_utt1.wav") (Some "/corpus/JOHN_utt1.lab") ""
       (Convention "prosodylab") None)
  = ["utt1"].
Proof. vm_compute. reflexivity. Qed.

Example parse_file_characters_speaker :
  Examples.speakers_of
    (parse_file (Examples.env_of []) (File.name Examples.anna_file)
       (Some "/corpus/annaSession1.wav") (Some "/corpus/annaSession1.lab") ""
       (Characters 4) None)
  = ["anna"].
Proof. vm_compute. reflexivity. Qed.

(** A negative count is a slice from the end, and a file identifier with
    no underscore has no second piece. *)
Example speaker_name_edge_cases :
  speaker_name_for (Characters (-2)) "annaSession1" "/corpus" = Ok "annaSessio"
  /\ speaker_name_for (Convention "prosodylab") "john" "/corpus" = Err IndexError.
Proof. split; reflexivity. Qed.

(** ** The speaker ordering under additions and deletions *)

Module OrderingFacts.

Import FileFacts.
Local Open Scope list_scope.

Section Facts.
Context {num : Type} `{PyNumber num}.

Lemma in_iter_setitem {T} (k : string) (x v : T) (c : Collection.t T) :
  In v (Collection.iter (Collection.setitem k x c)) ->
  v = x \/ In v (Collection.iter c).
Proof.
  unfold Collection.iter.
  induction c as [|[k' v'] c IH]; simpl.
  - intros [E|[]]. now left.
  - destruct (String.eqb k' k); simpl.
    + intros [E|I]; [now left | now right; right].
    + intros [E|I]; [now right; left|].
      destruct (IH I) as [E|I']; [now left | now right; right].
Qed.

Lemma in_iter_remove {T} (k : string) (v : T) (c : Collection.t T) :
  In v (Collection.iter (Collection.remove k c)) -> In v (Collection.iter c).
Proof.
  unfold Collection.iter.
  induction c as [|[k' v'] c IH]; simpl; [tauto|].
  destruct (String.eqb k' k); simpl.
  - now right.
  - intros [E|I]; [now left | right; now apply IH].
Qed.

Lemma mem_app (x : string) (l l' : list string) :
  File.mem x (l ++ l') = File.mem x l || File.mem x l'.
Proof. unfold File.mem. apply existsb_app. Qed.

Lemma distinct_snoc (l : list string) (x : string) :
  File.distinct l = true -> File.mem x l = false ->
  File.distinct (l ++ [x]) = true.
Proof.
  intros D M. apply distinct_NoDup. apply distinct_NoDup in D.
  apply NoDup_app; auto.
  - repeat constructor. intros [].
  - intros a Ha [<-|[]]. apply mem_eqb in Ha. congruence.
Qed.

Lemma all_speakers_snoc (l : list (option Speaker.t)) (s : Speaker.t) :
  File.all_speakers l = true -> File.all_speakers (l ++ [Some s]) = true.
Proof.
  unfold File.all_speakers. intros A. rewrite forallb_app, A. reflexivity.
Qed.

(** The names of the ordering once [s] is registered. *)
Lemma register_names (s : Speaker.t) (f : File.t num) :
  File.ordering_names (File.speaker_ordering (File.register s f))
  = File.first_seen (File.ordering_names (File.speaker_ordering f))
      [Speaker.name s].
Proof.
  unfold File.register, File.first_seen. cbn [fold_left].
  destruct (File.mem _ _); [reflexivity|].
  unfold File.ordering_names. cbn [File.speaker_ordering File.set_speaker_ordering].
  now rewrite map_app.
Qed.

Lemma register_utterances (s : Speaker.t) (f : File.t num) :
  File.utterances (File.register s f) = File.utterances f.
Proof. unfold File.register. now destruct (File.mem _ _). Qed.

Lemma first_seen_extends (new seen : list string) :
  exists l, File.first_seen seen new = seen ++ l.
Proof.
  revert seen. induction new as [|x new IH]; intros seen.
  - exists []. now rewrite app_nil_r.
  - unfold File.first_seen. cbn [fold_left]. fold (File.first_seen).
    destruct (File.mem x seen).
    + apply IH.
    + destruct (IH (seen ++ [x])) as [l E]. exists (x :: l).
      unfold File.first_seen in E. rewrite E. now rewrite <- app_assoc.
Qed.

Lemma first_seen_app (seen a b : list string) :
  File.first_seen seen (a ++ b) = File.first_seen (File.first_seen seen a) b.
Proof. unfold File.first_seen. apply fold_left_app. Qed.

Lemma register_ordering (s : Speaker.t) (f : File.t num) :
  File.speaker_ordering (File.register s f)
  = if File.mem (Speaker.name s) (File.ordering_names (File.speaker_ordering f))
    then File.speaker_ordering f
    else File.speaker_ordering f ++ [Some s].
Proof. unfold File.register. now destruct (File.mem _ _). Qed.

(** Adding an utterance that has a speaker to a well-formed file. *)
Lemma add_keeps_well_formed (u : Utterance.t num) (s : Speaker.t)
    (f : File.t num) :
  Utterance.speaker u = Some s ->
  File.well_formed f = true ->
  File.well_formed (File.register s (File.store u f)) = true.
Proof.
  intros Hs W. unfold File.well_formed in *.
  apply andb_true_iff in W as [W R]. apply andb_true_iff in W as [A D].
  unfold File.registered.
  rewrite register_utterances, register_ordering.
  cbn [File.store File.speaker_ordering File.utterances File.set_utterances].
  set (names := File.ordering_names (File.speaker_ordering f)) in *.
  assert (N : File.ordering_names (File.speaker_ordering f ++ [Some s])
              = names ++ [Speaker.name s]).
  { unfold names, File.ordering_names. now rewrite map_app. }
  assert (M : File.mem (Speaker.name s)
                (File.ordering_names
                   (if File.mem (Speaker.name s) names
                    then File.speaker_ordering f
                    else File.speaker_ordering f ++ [Some s])) = true).
  { destruct (File.mem (Speaker.name s) names) eqn:E; [exact E|].
    rewrite N, mem_app. cbn. now rewrite String.eqb_refl, orb_true_r. }
  assert (I : forall x,
             File.mem x names = true ->
             File.mem x
               (File.ordering_names
                  (if File.mem (Speaker.name s) names
                   then File.speaker_ordering f
                   else File.speaker_ordering f ++ [Some s])) = true).
  { intros x Hx. destruct (File.mem (Speaker.name s) names); [exact Hx|].
    now rewrite N, mem_app, Hx. }
  repeat (apply andb_true_iff; split).
  - destruct (File.mem (Speaker.name s) names); [exact A|].
    now apply all_speakers_snoc.
  - destruct (File.mem (Speaker.name s) names) eqn:E; [exact D|].
    rewrite N. now apply distinct_snoc.
  - apply forallb_forall. intros v Hv.
    apply in_iter_setitem in Hv as [->|Hv].
    + rewrite Hs. exact M.
    + unfold File.registered in R. rewrite forallb_forall in R.
      specialize (R v Hv). destruct (Utterance.speaker v); [|discriminate].
      now apply I.
Qed.

Lemma delete_keeps_well_formed (k : string) (f : File.t num) :
  File.well_formed f = true ->
  File.well_formed
    (File.set_utterances (Collection.remove k (File.utterances f)) f) = true.
Proof.
  unfold File.well_formed. intros W.
  apply andb_true_iff in W as [W R].
  cbn [File.speaker_ordering File.set_utterances]. rewrite W. cbn [andb].
  unfold File.registered in *. rewrite forallb_forall in *.
  cbn [File.speaker_ordering File.utterances File.set_utterances].
  intros v Hv.
  apply in_iter_remove in Hv. exact (R v Hv).
Qed.

(** What a sequence of additions and deletions leaves. *)
Lemma run_keeps_well_formed (ops : list (Ops.op (num := num)))
    (st st' : File.St num) (r : result unit) :
  File.well_formed (File.self st) = true ->
  Ops.with_speakers ops = true ->
  Ops.run ops st = (r, st') ->
  File.well_formed (File.self st') = true
  /\ (exists l,
        File.ordering_names (File.speaker_ordering (File.self st'))
        = File.ordering_names (File.speaker_ordering (File.self st)) ++ l)
  /\ (r = Ok tt ->
      File.ordering_names (File.speaker_ordering (File.self st'))
      = File.first_seen (File.ordering_names (File.speaker_ordering (File.self st)))
          (Ops.added_speakers ops))
  /\ (r = Ok tt \/ exists k, r = Err (KeyError k)).
Proof.
  revert st. induction ops as [|o ops IH]; intros st W S R.
  - injection R as <- <-. repeat split; auto.
    exists []. now rewrite app_nil_r.
  - cbn [Ops.run] in R. unfold File.bind in R.
    cbn [Ops.with_speakers forallb] in S. apply andb_true_iff in S as [So S].
    destruct o as [u|u]; cbn [Ops.step] in R.
    + destruct (Utterance.speaker u) as [s|] eqn:Hs; [|discriminate So].
      assert (A : File.all_speakers (File.speaker_ordering (File.self st)) = true).
      { unfold File.well_formed in W. apply andb_true_iff in W as [W _].
        now apply andb_true_iff in W as [W _]. }
      rewrite (add_utterance_run u s st Hs A) in R.
      pose proof (add_keeps_well_formed u s (File.self st) Hs W) as W'.
      destruct (IH (File.put (File.register s (File.store u (File.self st))) st)
                  W' S R) as (W2 & (l & P) & O & K).
      cbn [File.self File.put] in P, O.
      rewrite register_names in P, O.
      cbn [File.store File.speaker_ordering File.set_utterances] in P, O.
      split; [exact W2|]. split; [|split; [|exact K]].
      * destruct (first_seen_extends [Speaker.name s]
                    (File.ordering_names (File.speaker_ordering (File.self st))))
          as [l0 E0].
        exists (l0 ++ l). rewrite P, E0. now rewrite app_assoc.
      * intros ->. cbn [Ops.added_speakers]. rewrite Hs. cbn [File.tier_key].
        change (Speaker.name s :: Ops.added_speakers ops)
          with ([Speaker.name s] ++ Ops.added_speakers ops).
        rewrite first_seen_app. now apply O.
    + unfold File.delete_utterance, File.bind, File.get_self, File.lift in R.
      unfold Collection.delitem in R.
      destruct (Collection.contains _ _).
      * cbn [File.ret File.set_self] in R.
        pose proof (delete_keeps_well_formed (Utterance.name u) (File.self st) W) as W'.
        destruct (IH (File.mkSt
                        (File.set_utterances
                           (Collection.remove (Utterance.name u)
                              (File.utterances (File.self st))) (File.self st))
                        (File.trace st) (File.polls st)) W' S R)
          as (W2 & P & O & K).
        repeat split; assumption.
      * cbn [File.raise] in R. injection R as <- <-.
        split; [exact W|]. split; [exists []; now rewrite app_nil_r|].
        split; [discriminate|]. right. now eexists.
Qed.

End Facts.

End OrderingFacts.

(** C4 (as amended).  Start from a file whose speaker ordering holds
    speakers only, no name twice, and the speaker of every utterance; apply
    any sequence of [add_utterance] and [delete_utterance] whose added
    utterances have a speaker.  Afterwards the ordering still names no
    speaker twice and names the speaker of every utterance the file holds;
    it is the old ordering with names appended, and when the sequence ran to
    its end, the names are those of the old ordering followed by the speakers
    of the added utterances in the order they were first seen.
    [delete_utterance] never removes a speaker.  The only exception a
    sequence can raise is the [KeyError] of deleting an utterance that is
    not there. *)
Theorem speaker_ordering_after_operations :
  forall {num : Type} `{PyNumber num} (ops : list (Ops.op (num := num)))
         (st st' : File.St num) (r : result unit),
    File.well_formed (File.self st) = true ->
    Ops.with_speakers ops = true ->
    Ops.run ops st = (r, st') ->
    NoDup (File.ordering_names (File.speaker_ordering (File.self st')))
    /\ (forall k u s,
          In (k, u) (File.utterances (File.self st')) ->
          Utterance.speaker u = Some s ->
          In (Speaker.name s)
             (File.ordering_names (File.speaker_ordering (File.self st'))))
    /\ (exists l,
          File.ordering_names (File.speaker_ordering (File.self st'))
          = (File.ordering_names (File.speaker_ordering (File.self st)) ++ l)%list)
    /\ (r = Ok tt ->
        File.ordering_names (File.speaker_ordering (File.self st'))
        = File.first_seen (File.ordering_names (File.speaker_ordering (File.self st)))
            (Ops.added_speakers ops))
    /\ (r = Ok tt \/ exists k, r = Err (KeyError k)).
Proof.
  intros num HN ops st st' r W S R.
  destruct (OrderingFacts.run_keeps_well_formed ops st st' r W S R)
    as (W' & P & O & K).
  unfold File.well_formed in W'.
  apply andb_true_iff in W' as [W' G]. apply andb_true_iff in W' as [_ D].
  split; [now apply FileFacts.distinct_NoDup|].
  split; [|repeat split; assumption].
  intros k u s Hin Hs. apply FileFacts.mem_eqb.
  unfold File.registered in G. rewrite forallb_forall in G.
  assert (I : In u (Collection.iter (File.utterances (File.self st')))).
  { unfold Collection.iter. apply in_map_iff. now exists (k, u). }
  specialize (G u I). now rewrite Hs in G.
Qed.

Lemma speaker_ordering_after_operations_witness :
  File.ordering_names
    (File.speaker_ordering
       (File.self
          (snd (Ops.run [Ops.Add Examples.utt_05_15; Ops.Add Examples.utt_bob;
                         Ops.Add Examples.utt_05_25; Ops.Delete Examples.utt_05_15]
                  (File.start Examples.rec_file)))))
  = ["alice"; "bob"].
Proof.
  destruct (speaker_ordering_after_operations
              [Ops.Add Examples.utt_05_15; Ops.Add Examples.utt_bob;
               Ops.Add Examples.utt_05_25; Ops.Delete Examples.utt_05_15]
              (File.start Examples.rec_file) _ _ eq_refl eq_refl
              (surjective_pairing _))
    as (_ & _ & _ & O & _).
  exact (O eq_refl).
Defined.

(** C4, the claim as stated fails.  Add one utterance of [alice] to a new
    file and delete it again: the file holds no utterance, and [alice] is
    still in the speaker ordering. *)
Lemma speaker_ordering_keeps_deleted_speaker :
  Ops.run [Ops.Add Examples.utt_05_15; Ops.Delete Examples.utt_05_15]
    (File.start Examples.rec_file)
  = (Ok tt,
     File.start
       (File.set_speaker_ordering [Some Examples.alice] Examples.rec_file))
  /\ File.utterances
       (File.set_speaker_ordering [Some Examples.alice] Examples.rec_file) = []
  /\ File.speaker_ordering
       (File.set_speaker_ordering [Some Examples.alice] Examples.rec_file)
     = [Some Examples.alice].
Proof.
  repeat split.
Qed.

(** ** Pickling a file *)

Module PickleFacts.

Section Facts.
Context {num : Type} `{PyNumber num}.

Lemma same_audio_refl (st : File.St num) : File.same_audio st st.
Proof. repeat split. Qed.

Lemma same_audio_trans (a b c : File.St num) :
  File.same_audio a b -> File.same_audio b c -> File.same_audio a c.
Proof.
  intros (A1 & A2 & A3 & A4) (B1 & B2 & B3 & B4).
  repeat split; congruence.
Qed.

Lemma add_utterance_same_audio (u : Utterance.t num) (st st' : File.St num)
    (r : result unit) :
  File.add_utterance u st = (r, st') -> File.same_audio st st'.
Proof.
  destruct st as [f tr p].
  cbv [File.add_utterance File.bind File.get_self File.set_self
       File.add_speaker File.lift File.self File.trace File.polls].
  match goal with
  | |- context [File.speaker_in ?a ?b] =>
      destruct (File.speaker_in a b) as [[|]|e]
  end; cbv [File.ret File.raise negb File.self File.trace File.polls];
    intros E; injection E as <- <-; repeat split.
Qed.

Lemma for_each_same_audio {A} (xs : list A) (body : A -> File.M num bool) :
  (forall x st r st', body x st = (r, st') -> File.same_audio st st') ->
  forall st r st', File.for_each xs body st = (r, st') -> File.same_audio st st'.
Proof.
  intros B. induction xs as [|x xs IH]; intros st r st' E.
  - injection E as <- <-. apply same_audio_refl.
  - cbn [File.for_each] in E. unfold File.bind in E.
    destruct (body x st) as [[stop|e] st1] eqn:Bx.
    + apply B in Bx. destruct stop.
      * injection E as <- <-. exact Bx.
      * apply IH in E. now apply (same_audio_trans _ st1).
    + injection E as <- <-. now apply B in Bx.
Qed.

(** After [__setstate__] the audio fields are those of the record, and
    restoring has no effect outside the object. *)
Lemma setstate_audio (state : File.State) (st st' : File.St num)
    (r : result unit) :
  File.setstate state st = (r, st') ->
  File.wav_path (File.self st') = File.state_wav_path state
  /\ File.wav_info (File.self st') = File.state_wav_info state
  /\ File.waveform (File.self st') = File.state_waveform state
  /\ File.trace st' = File.trace st.
Proof.
  unfold File.setstate, File.bind. cbn [File.set_self].
  match goal with
  | |- context [File.for_each ?xs ?body ?s] =>
      destruct (File.for_each xs body s) as [[stop|e] st1] eqn:E
  end; intros R; injection R as <- <-;
    apply for_each_same_audio in E; try exact E.
  all: intros x s r0 s' Bx; unfold File.bind, File.get_self in Bx;
    destruct (File.add_utterance _ s) as [[[]|e0] s1] eqn:Ax;
    injection Bx as <- <-; exact (add_utterance_same_audio _ _ _ _ Ax).
Qed.

End Facts.

End PickleFacts.

(** C3 (as amended).  The record [__getstate__] returns carries the audio
    information and the decoded waveform of the file as they are at that
    moment, and [__setstate__] puts them back, touching nothing outside
    the object.  So after a restore, if the audio information had been loaded
    when the record was taken, [duration] answers from it and asks for
    nothing; only if it had not been loaded is it looked up on first access,
    for a file that has a sound path. *)
Theorem file_state_carries_audio_info :
  forall {num : Type} `{PyNumber num} (env : File.Env num)
         (f : File.t num) (state : File.State),
    File.getstate f = Ok state ->
    File.state_wav_info state = File.wav_info f
    /\ File.state_waveform state = File.waveform f
    /\ forall (st st' : File.St num) (r : result unit),
         File.setstate state st = (r, st') ->
         File.wav_info (File.self st') = File.wav_info f
         /\ File.waveform (File.self st') = File.waveform f
         /\ File.trace st' = File.trace st
         /\ (forall w i,
               File.wav_path f = Some w -> File.wav_info f = Some i ->
               File.duration env st' = (Ok (WavInfo.duration i), st'))
         /\ (forall w,
               File.wav_path f = Some w -> File.wav_info f = None ->
               File.duration env st'
               = (Ok (WavInfo.duration (File.get_wav_info env w)),
                  File.mkSt
                    (File.set_wav_info (Some (File.get_wav_info env w)) (File.self st'))
                    (File.trace st' ++ [File.GetWavInfo w])%list (File.polls st'))).
Proof.
  intros num HN env f state G.
  unfold File.getstate in G.
  destruct (File.speaker_states (File.speaker_ordering f)) as [so|e]; [|discriminate].
  injection G as <-. cbn [File.state_wav_info File.state_waveform].
  split; [reflexivity|]. split; [reflexivity|].
  intros st st' r R.
  destruct (PickleFacts.setstate_audio _ _ _ _ R) as (P & I & V & T).
  cbn [File.state_wav_path File.state_wav_info File.state_waveform] in P, I, V.
  split; [exact I|]. split; [exact V|]. split; [exact T|]. split.
  - intros w i Hw Hi. rewrite FileFacts.duration_run.
    unfold File.duration_value, File.info_value, File.loaded.
    now rewrite P, I, Hw, Hi.
  - intros w Hw Hi. rewrite FileFacts.duration_run.
    unfold File.duration_value, File.info_value, File.loaded.
    now rewrite P, I, Hw, Hi.
Qed.

Lemma file_state_carries_audio_info_witness :
  exists state,
    File.getstate Examples.loaded_file = Ok state
    /\ File.state_wav_info state = Some Examples.five_seconds
    /\ File.state_waveform state = Some Examples.samples.
Proof.
  destruct (File.getstate Examples.loaded_file) as [state|e] eqn:G;
    [|discriminate G].
  destruct (file_state_carries_audio_info (Examples.env_of [])
              Examples.loaded_file state G) as (I & V & _).
  exists state. split; [reflexivity|]. split; [exact I | exact V].
Defined.

(** C3, the claim as stated fails.  The record of a file whose audio
    information and waveform are loaded holds both, and after the restore
    [duration] answers 5.0 from the restored information: the trace of
    events stays empty. *)
Lemma file_state_includes_audio_info :
  exists state,
    File.getstate Examples.loaded_file = Ok state
    /\ File.state_wav_info state = Some Examples.five_seconds
    /\ File.state_waveform state = Some Examples.samples
    /\ File.setstate state (File.start Examples.nothing)
       = (Ok tt, File.start Examples.loaded_file)
    /\ File.duration (Examples.env_of []) (File.start Examples.loaded_file)
       = (Ok (Dec.Float 50 1), File.start Examples.loaded_file)
    /\ File.trace (File.start Examples.loaded_file) = [].
Proof.
  eexists. repeat split.
Qed.

(** ** Writing a file *)

Module SaveFacts.

Import FileFacts.
Local Open Scope list_scope.

Section Facts.
Context {num : Type} `{PyNumber num}.
Variable env : File.Env num.

Lemma emitting_nil (st : File.St num) : File.emitting [] st = st.
Proof. destruct st. unfold File.emitting. simpl. now rewrite app_nil_r. Qed.

Lemma emitting_emitting (a b : list (File.event num)) (st : File.St num) :
  File.emitting b (File.emitting a st) = File.emitting (a ++ b) st.
Proof. unfold File.emitting. simpl. now rewrite app_assoc. Qed.

Lemma saved_documents_app (a b : list (File.event num)) :
  File.saved_documents (a ++ b) = File.saved_documents a ++ File.saved_documents b.
Proof.
  induction a as [|e a IH]; [reflexivity|].
  destruct e; simpl; now rewrite IH.
Qed.

Lemma written_texts_app (a b : list (File.event num)) :
  File.written_texts (a ++ b) = File.written_texts a ++ File.written_texts b.
Proof.
  induction a as [|e a IH]; [reflexivity|].
  destruct e; simpl; now rewrite IH.
Qed.

(** Looking the audio information up adds at most one event, which is
    neither a document nor a text. *)
Lemma loaded_emits (st : File.St num) :
  exists evs,
    File.trace (File.loaded env st) = File.trace st ++ evs
    /\ File.saved_documents evs = []
    /\ File.written_texts evs = [].
Proof.
  unfold File.loaded.
  destruct (File.wav_path (File.self st)) as [w|];
    [destruct (File.wav_info (File.self st))|].
  - exists []. now rewrite app_nil_r.
  - exists [File.GetWavInfo w]. now split.
  - exists []. now rewrite app_nil_r.
Qed.

(** [construct_output_path] answers a path whenever it has something to
    build it from; it may make directories and does nothing else. *)
Lemma construct_output_path_run (od bod : option string) (lab : bool)
    (st : File.St num) :
  File.can_place od (File.self st) = true ->
  exists path evs,
    File.construct_output_path env od bod lab st = (Ok path, File.emitting evs st)
    /\ File.saved_documents evs = []
    /\ File.written_texts evs = [].
Proof.
  unfold File.can_place, File.construct_output_path, File.bind, File.get_self.
  intros C. destruct od as [d|].
  - eexists. eexists. split; [unfold File.emitting; reflexivity | now split].
  - destruct (File.text_path (File.self st)) as [p|].
    + exists p, []. now rewrite emitting_nil.
    + destruct (File.wav_path (File.self st)) as [w|]; [|discriminate C].
      eexists. exists []. now rewrite emitting_nil.
Qed.

(** *** Collections without repeated keys *)

Lemma contains_keys {T} (k : string) (c : Collection.t T) :
  Collection.contains k c = File.mem k (Collection.keys c).
Proof.
  induction c as [|[k' v] c IH]; [reflexivity|].
  simpl. rewrite IH. now rewrite (String.eqb_sym k').
Qed.

Lemma setitem_fresh {T} (k : string) (v : T) (c : Collection.t T) :
  File.mem k (Collection.keys c) = false ->
  Collection.setitem k v c = c ++ [(k, v)].
Proof.
  induction c as [|[k' v'] c IH]; [reflexivity|].
  simpl. intros M. apply orb_false_iff in M as [E M].
  rewrite String.eqb_sym in E. rewrite E. now rewrite IH.
Qed.

Lemma build_tiers_from (d : num) (l : list (option Speaker.t))
    (acc : Collection.t (Praat.IntervalTier num)) :
  File.distinct (Collection.keys acc ++ File.ordering_names l) = true ->
  fold_left
    (fun tiers speaker =>
       Collection.setitem (File.tier_key speaker)
         (Praat.mkIntervalTier (File.tier_key speaker) [] (of_int 0) d) tiers)
    l acc
  = acc ++ map (fun s => (File.tier_key s, File.empty_tier d (File.tier_key s))) l.
Proof.
  revert acc. induction l as [|s l IH]; intros acc D; simpl.
  - now rewrite app_nil_r.
  - assert (F : File.mem (File.tier_key s) (Collection.keys acc) = false).
    { apply distinct_NoDup in D. apply NoDup_remove_2 in D.
      destruct (File.mem _ _) eqn:E; [|reflexivity].
      apply mem_eqb in E. exfalso. apply D. apply in_or_app. now left. }
    rewrite (setitem_fresh _ _ _ F). rewrite IH.
    + now rewrite <- app_assoc.
    + unfold Collection.keys in *. rewrite map_app. simpl.
      now rewrite <- app_assoc.
Qed.

Lemma build_tiers_distinct (d : num) (l : list (option Speaker.t)) :
  File.distinct (File.ordering_names l) = true ->
  File.build_tiers d l
  = map (fun s => (File.tier_key s, File.empty_tier d (File.tier_key s))) l.
Proof.
  intros D. unfold File.build_tiers.
  now rewrite (build_tiers_from d l Collection.empty D).
Qed.

(** Replacing the value of a key that is present, in a collection
    without repeated keys. *)
Lemma setitem_present {T} (k : string) (g : T -> T) (c : Collection.t T)
    (v : T) :
  NoDup (Collection.keys c) ->
  Collection.getitem k c = Ok v ->
  Collection.setitem k (g v) c
  = map (fun p => if String.eqb (fst p) k then (fst p, g (snd p)) else p) c.
Proof.
  induction c as [|[k' v'] c IH]; simpl; [discriminate|].
  intros N G. inversion N as [|? ? Hk Hc]; subst.
  destruct (String.eqb_spec k' k) as [->|Ne].
  - injection G as ->. f_equal.
    clear IH N Hc. induction c as [|[k2 v2] c IH2]; [reflexivity|].
    simpl in *. destruct (String.eqb_spec k2 k) as [->|_].
    + exfalso. apply Hk. now left.
    + f_equal. apply IH2. intros I. apply Hk. now right.
  - f_equal. now apply IH.
Qed.

Lemma getitem_present {T} (k : string) (c : Collection.t T) :
  File.mem k (Collection.keys c) = true ->
  exists v, Collection.getitem k c = Ok v.
Proof.
  induction c as [|[k' v'] c IH]; simpl; [discriminate|].
  rewrite (String.eqb_sym k). destruct (String.eqb k' k).
  - intros _. now eexists.
  - exact IH.
Qed.

(** The second loop of [save], on tiers without repeated keys that
    cover the keys of the utterances. *)
Lemma fill_tiers_run (us : list (Utterance.t num))
    (tiers : Collection.t (Praat.IntervalTier num)) :
  NoDup (Collection.keys tiers) ->
  forallb (fun u => File.mem (File.tier_key (Utterance.speaker u))
                      (Collection.keys tiers)) us = true ->
  File.fill_tiers false us tiers
  = Ok (map (fun p => (fst p, File.add_entries (File.entries_for (fst p) us) (snd p)))
          tiers).
Proof.
  revert tiers. induction us as [|u us IH]; intros tiers N C.
  - simpl. f_equal. rewrite <- (map_id tiers) at 1. apply map_ext.
    intros [k [n l a b]]. unfold File.add_entries, File.entries_for. simpl.
    now rewrite app_nil_r.
  - cbn [forallb] in C. apply andb_true_iff in C as [Cu C].
    cbn [File.fill_tiers negb].
    destruct (getitem_present _ _ Cu) as [ti G]. rewrite G.
    rewrite (setitem_present _ (Praat.append_entry (File.interval_of u)) _ _ N G).
    rewrite IH.
    + f_equal. rewrite map_map. apply map_ext. intros [k [n l a b]].
      unfold File.add_entries, File.entries_for, Praat.append_entry.
      cbn [fst snd filter]. rewrite (String.eqb_sym _ k).
      destruct (String.eqb k (File.tier_key (Utterance.speaker u))); simpl.
      * now rewrite <- app_assoc.
      * reflexivity.
    + unfold Collection.keys in *. rewrite map_map.
      erewrite map_ext; [exact N|].
      intros [k v]. simpl. now destruct (String.eqb k _).
    + unfold Collection.keys in *. rewrite map_map.
      erewrite (map_ext _ fst); [exact C|].
      intros [k v]. simpl. now destruct (String.eqb k _).
Qed.

Lemma fill_tiers_aligned (us : list (Utterance.t num))
    (tiers : Collection.t (Praat.IntervalTier num)) :
  File.fill_tiers true us tiers = Ok tiers.
Proof. induction us as [|u us IH]; simpl; [reflexivity | exact IH]. Qed.

(** The tiers [save] ends with, for an ordering without repeated names
    that covers the utterances. *)
Lemma tiers_of_file (f : File.t num) :
  File.distinct (File.ordering_names (File.speaker_ordering f)) = true ->
  File.tiers_cover f = true ->
  exists tiers,
    File.fill_tiers (File.aligned f) (Collection.iter (File.utterances f))
      (File.build_tiers (File.duration_value env f) (File.speaker_ordering f))
    = Ok tiers
    /\ Collection.iter tiers = Praat.tiers (File.document_of env f).
Proof.
  intros D C. rewrite (build_tiers_distinct _ _ D).
  unfold File.document_of. cbn [Praat.tiers].
  unfold File.tiers_cover in C. destruct (File.aligned f).
  - rewrite fill_tiers_aligned. eexists. split; [reflexivity|].
    unfold Collection.iter. rewrite map_map. reflexivity.
  - cbn [orb] in C. rewrite fill_tiers_run.
    + eexists. split; [reflexivity|].
      unfold Collection.iter. rewrite !map_map. reflexivity.
    + unfold Collection.keys. rewrite map_map. cbn [fst].
      now apply distinct_NoDup.
    + unfold Collection.keys. rewrite map_map. exact C.
Qed.

(** The general case of [save]. *)
Lemma save_textgrid_run (od bod : option string) (st : File.St num) :
  File.can_place od (File.self st) = true ->
  File.distinct (File.ordering_names (File.speaker_ordering (File.self st))) = true ->
  File.tiers_cover (File.self st) = true ->
  exists path evs st1,
    File.construct_output_path env od bod false st = (Ok path, st1)
    /\ File.save_textgrid env od bod st
       = (Ok tt,
          File.emitting
            [File.SaveTextgrid path (File.document_of env (File.self st))]
            (File.loaded env st1))
    /\ File.trace (File.loaded env st1) = File.trace st ++ evs
    /\ File.saved_documents evs = []
    /\ File.written_texts evs = [].
Proof.
  intros P D C.
  destruct (construct_output_path_run od bod false st P) as (path & evs & E & S & Wt).
  destruct (loaded_emits (File.emitting evs st)) as (evs' & T & S' & W').
  exists path, (evs ++ evs'), (File.emitting evs st).
  split; [exact E|]. split.
  - unfold File.save_textgrid, File.bind. rewrite E, duration_run.
    unfold File.get_self.
    destruct (loaded_self env (File.emitting evs st)) as (_ & _ & _ & O & U & A & _).
    rewrite O, U, A. cbn [File.emitting File.self].
    destruct (tiers_of_file (File.self st) D C) as (tiers & F & I).
    rewrite F. cbn [File.lift File.ret]. rewrite I.
    unfold File.document_of. cbn [Praat.maxTimestamp]. reflexivity.
  - rewrite T. cbn [File.emitting File.trace]. rewrite <- app_assoc.
    split; [reflexivity|].
    now rewrite saved_documents_app, written_texts_app, S, S', Wt, W'.
Qed.

End Facts.

End SaveFacts.




(** ** The two shapes of [save] *)

Module ShapeFacts.

Import FileFacts SaveFacts.
Local Open Scope list_scope.

Section Facts.
Context {num : Type} `{PyNumber num}.
Variable env : File.Env num.

(** The test of [save], on the list of the utterances. *)
Lemma lab_utterance_begin (f : File.t num) :
  File.lab_utterance f
  = if File.single_without_begin f
    then match Collection.iter (File.utterances f) with
         | u :: _ => Some u
         | [] => None
         end
    else None.
Proof.
  unfold File.lab_utterance, File.single_without_begin,
    Collection.len, Collection.iter.
  destruct (File.utterances f) as [|[k u] [|p c]]; cbn; reflexivity.
Qed.

Lemma single_without_begin_paired (f : File.t num) :
  File.boundaries_paired f = true ->
  File.single_without_begin f = File.single_plain f.
Proof.
  unfold File.boundaries_paired, File.single_without_begin, File.single_plain.
  destruct (Collection.iter (File.utterances f)) as [|u [|v l]]; cbn;
    try reflexivity.
  intros B. rewrite andb_true_r in B. apply Bool.eqb_prop in B.
  rewrite <- B. now destruct (Utterance.is_some (Utterance.begin u)).
Qed.

Lemma save_lab_run (u : Utterance.t num) (text : string)
    (od bod : option string) (st : File.St num) :
  File.can_place od (File.self st) = true ->
  File.lab_text u = Some text ->
  exists path evs st1,
    File.construct_output_path env od bod true st = (Ok path, st1)
    /\ File.save_lab env u od bod st
       = (Ok tt, File.emitting [File.OpenWrite path; File.Write path text] st1)
    /\ File.trace st1 = File.trace st ++ evs
    /\ File.saved_documents evs = []
    /\ File.written_texts evs = [].
Proof.
  intros P T.
  destruct (construct_output_path_run env od bod true st P) as (path & evs & E & S & W).
  exists path, evs, (File.emitting evs st).
  split; [exact E|]. split; [|split; [reflexivity | split; assumption]].
  unfold File.save_lab, File.bind. rewrite E.
  unfold File.lab_text in T. cbn [File.emit].
  destruct (Utterance.transcription_text u) as [t|].
  - injection T as ->. unfold File.emitting, File.emit. cbn.
    now rewrite <- (app_assoc _ [File.OpenWrite path] [File.Write path text]).
  - rewrite T. unfold File.emitting, File.emit. cbn.
    now rewrite <- (app_assoc _ [File.OpenWrite path] [File.Write path text]).
Qed.

Lemma construct_output_path_trace (od bod : option string) (lab : bool)
    (st st1 : File.St num) (r : result string) :
  File.construct_output_path env od bod lab st = (r, st1) ->
  exists evs, File.trace st1 = File.trace st ++ evs /\ File.written_texts evs = [].
Proof.
  unfold File.construct_output_path, File.bind, File.get_self.
  destruct od as [d|].
  - unfold File.emit, File.ret. intros E. injection E as _ <-.
    cbn [File.trace]. eexists. split; reflexivity.
  - destruct (File.text_path (File.self st));
      [|destruct (File.wav_path (File.self st))];
      unfold File.ret, File.raise; intros E; injection E as _ <-;
      exists []; now rewrite app_nil_r.
Qed.

(** The general case writes no plain text, however it ends. *)
Lemma save_textgrid_writes_no_text (od bod : option string)
    (st st' : File.St num) (r : result unit) :
  File.save_textgrid env od bod st = (r, st') ->
  exists evs, File.trace st' = File.trace st ++ evs /\ File.written_texts evs = [].
Proof.
  unfold File.save_textgrid, File.bind.
  destruct (File.construct_output_path env od bod false st) as [[path|e] st1] eqn:E;
    destruct (construct_output_path_trace _ _ _ _ _ _ E) as (evs1 & T1 & W1).
  - rewrite duration_run. unfold File.get_self.
    destruct (loaded_emits env st1) as (evs2 & T2 & _ & W2).
    destruct (File.fill_tiers _ _ _) as [tiers|e];
      unfold File.lift, File.ret, File.raise, File.emit; intros R;
      injection R as <- <-; cbn [File.trace].
    + eexists (evs1 ++ evs2 ++ [_]).
      rewrite T2, T1, <- !app_assoc. split; [reflexivity|].
      now rewrite !written_texts_app, W1, W2.
    + exists (evs1 ++ evs2). rewrite T2, T1, <- !app_assoc. split; [reflexivity|].
      now rewrite !written_texts_app, W1, W2.
  - intros R. injection R as <- <-. now exists evs1.
Qed.

End Facts.

End ShapeFacts.



(** ** Reading a TextGrid and writing it back *)

Module RoundTripFacts.

Import FileFacts SaveFacts EntryFacts OrderingFacts.
Local Open Scope list_scope.

Section Facts.
Context {num : Type} `{PyNumber num}.
Variable env : File.Env num.

Lemma loaded_ready (st : File.St num) :
  File.info_ready (File.self st) = true -> File.loaded env st = st.
Proof.
  unfold File.info_ready, File.loaded.
  destruct (File.wav_path (File.self st)), (File.wav_info (File.self st));
    simpl; intros R; try reflexivity; discriminate.
Qed.

Lemma ready_loaded (st : File.St num) :
  File.info_ready (File.self (File.loaded env st)) = true.
Proof.
  unfold File.info_ready, File.loaded.
  destruct (File.wav_path (File.self st)) eqn:W,
           (File.wav_info (File.self st)) eqn:I; simpl; rewrite ?W, ?I; reflexivity.
Qed.

Lemma goes_on_never (sc : option (nat -> bool)) (st : File.St num) :
  File.never_stops sc -> File.goes_on sc st = true.
Proof.
  unfold File.never_stops, File.goes_on. destruct sc as [c|]; [|reflexivity].
  intros N. now rewrite N.
Qed.

Lemma keyed_app (a b : list (Utterance.t num)) :
  File.keyed (a ++ b) = File.keyed a ++ File.keyed b.
Proof. unfold File.keyed. apply map_app. Qed.

Lemma keys_keyed (us : list (Utterance.t num)) :
  Collection.keys (File.keyed us) = map Utterance.name us.
Proof. unfold Collection.keys, File.keyed. rewrite map_map. reflexivity. Qed.

Lemma iter_keyed (us : list (Utterance.t num)) :
  Collection.iter (File.keyed us) = us.
Proof.
  unfold Collection.iter, File.keyed. rewrite map_map. cbn. apply map_id.
Qed.

Lemma distinct_app_l (a b : list string) :
  File.distinct (a ++ b) = true -> File.distinct a = true.
Proof.
  rewrite !distinct_NoDup. intros N. now apply NoDup_app_remove_r in N.
Qed.

Lemma distinct_fresh (a : list string) (x : string) (b : list string) :
  File.distinct (a ++ x :: b) = true -> File.mem x a = false.
Proof.
  rewrite distinct_NoDup. intros N. apply NoDup_remove_2 in N.
  destruct (File.mem x a) eqn:E; [|reflexivity].
  apply mem_eqb in E. exfalso. apply N. apply in_or_app. now left.
Qed.

(** The loop over the entries of one tier, for a speaker that is
    registered already. *)
Lemma entries_loop (sc : option (nat -> bool)) (speaker : Speaker.t)
    (l : list (option Speaker.t)) (f0 : File.t num) (tr : list (File.event num))
    (entries : list (Praat.Entry num)) :
  File.never_stops sc ->
  File.info_ready f0 = true ->
  File.all_speakers l = true ->
  File.mem (Speaker.name speaker) (File.ordering_names l) = true ->
  forall (us : list (Utterance.t num)) (p : nat),
    File.distinct
      (map Utterance.name
         (us ++ map (File.utterance_of_entry env speaker f0)
                  (filter (File.has_words env) entries))) = true ->
    exists p',
      File.for_each entries (File.load_entry env sc speaker)
        (File.mkSt (File.holding l (File.keyed us) f0) tr p)
      = (Ok false,
         File.mkSt
           (File.holding l
              (File.keyed
                 (us ++ map (File.utterance_of_entry env speaker f0)
                          (filter (File.has_words env) entries))) f0)
           tr p').
Proof.
  intros N R A M. induction entries as [|e es IH]; intros us p D.
  - exists p. cbn. now rewrite app_nil_r.
  - cbn [File.for_each filter] in *. unfold File.bind.
    destruct (File.has_words env e) eqn:W.
    + rewrite (load_entry_run env sc speaker e _ (goes_on_never sc _ N) W).
      rewrite loaded_ready
        by (unfold File.polled; destruct sc; exact R).
      set (u := File.utterance_of_entry env speaker f0 e).
      assert (Eu : File.utterance_of_entry env speaker
                     (File.self (File.mkSt (File.holding l (File.keyed us) f0) tr p)) e
                   = u) by now destruct e as [[b e'] text].
      rewrite Eu.
      rewrite (add_utterance_run u speaker)
        by (try (unfold File.polled; destruct sc; exact A);
            unfold u; now destruct e as [[b e'] text]).
      cbn [map] in D. fold u in D.
      assert (F : File.mem (Utterance.name u) (Collection.keys (File.keyed us)) = false).
      { rewrite keys_keyed. rewrite map_app in D. cbn [map] in D.
        exact (distinct_fresh _ _ _ D). }
      rewrite map_app in D. cbn [map] in D.
      assert (S : File.register speaker
                    (File.store u
                       (File.self
                          (File.polled sc
                             (File.mkSt (File.holding l (File.keyed us) f0) tr p))))
                  = File.holding l (File.keyed (us ++ [u])) f0).
      { unfold File.register. destruct sc; cbn [File.polled File.self];
          cbn [File.store File.holding File.speaker_ordering File.utterances
               File.set_utterances File.set_speaker_ordering];
          rewrite M; unfold File.store, File.holding, File.set_utterances,
            File.set_speaker_ordering;
          cbn [File.name File.wav_path File.text_path File.relative_path
               File.wav_info File.waveform File.speaker_ordering File.utterances
               File.aligned];
          rewrite (setitem_fresh _ _ _ F), keyed_app; reflexivity. }
      rewrite S.
      destruct (IH (us ++ [u])
                  (File.polls (File.polled sc
                     (File.mkSt (File.holding l (File.keyed us) f0) tr p))))
        as [p' E].
      { rewrite <- app_assoc, map_app. cbn [app map]. exact D. }
      exists p'. cbn [map]. fold u.
      assert (X : us ++ u :: map (File.utterance_of_entry env speaker f0)
                               (filter (File.has_words env) es)
                  = (us ++ [u]) ++ map (File.utterance_of_entry env speaker f0)
                                     (filter (File.has_words env) es))
        by now rewrite <- app_assoc.
      rewrite X, <- E. destruct sc; reflexivity.
    + rewrite (load_entry_skips env sc speaker e _ (goes_on_never sc _ N) W).
      destruct (IH us (File.polls (File.polled sc
                         (File.mkSt (File.holding l (File.keyed us) f0) tr p))) D)
        as [p' E].
      exists p'. rewrite <- E. destruct sc; reflexivity.
Qed.

Lemma kept_app (a b : Praat.Textgrid num) :
  File.kept (a ++ b) = File.kept a ++ File.kept b.
Proof. unfold File.kept. apply filter_app. Qed.

Lemma kept_names_app (a b : Praat.Textgrid num) :
  File.kept_names (a ++ b) = File.kept_names a ++ File.kept_names b.
Proof. unfold File.kept_names. now rewrite kept_app, map_app. Qed.

Lemma kept_speakers_app (a b : Praat.Textgrid num) :
  File.kept_speakers (a ++ b) = File.kept_speakers a ++ File.kept_speakers b.
Proof. unfold File.kept_speakers. now rewrite kept_app, map_app. Qed.

Lemma read_utterances_app (f : File.t num) (a b : Praat.Textgrid num) :
  File.read_utterances env f (a ++ b)
  = File.read_utterances env f a ++ File.read_utterances env f b.
Proof. unfold File.read_utterances. now rewrite kept_app, flat_map_app. Qed.

Lemma kept_speakers_names (tg : Praat.Textgrid num) :
  File.ordering_names (File.kept_speakers tg) = File.kept_names tg.
Proof.
  unfold File.ordering_names, File.kept_speakers, File.kept_names.
  now rewrite map_map.
Qed.

Lemma kept_speakers_all (tg : Praat.Textgrid num) :
  File.all_speakers (File.kept_speakers tg) = true.
Proof.
  unfold File.all_speakers, File.kept_speakers.
  induction (File.kept tg) as [|ti l IH]; [reflexivity | exact IH].
Qed.

Lemma load_tier_skips (sc : option (nat -> bool)) (ti : Praat.Tier num)
    (st : File.St num) :
  File.is_kept ti = false ->
  File.load_tier env None sc ti st = (Ok false, st).
Proof.
  unfold File.is_kept, File.load_tier, Praat.is_interval_tier.
  destruct (String.eqb _ "notes"); [reflexivity|].
  now destruct (Praat.tier_body ti).
Qed.

Lemma load_tier_reads (sc : option (nat -> bool)) (ti : Praat.Tier num)
    (st : File.St num) :
  File.is_kept ti = true ->
  File.load_tier env None sc ti st
  = File.bind
      (File.bind (File.add_speaker (Some (File.tier_speaker ti)))
         (fun _ => File.ret (File.tier_speaker ti)))
      (fun speaker =>
         File.for_each (Praat.entries ti) (File.load_entry env sc speaker))
      st.
Proof.
  unfold File.is_kept, File.load_tier, Praat.is_interval_tier, Praat.entries.
  destruct (String.eqb _ "notes"); [discriminate|].
  destruct (Praat.tier_body ti); [reflexivity | discriminate].
Qed.

(** The loop over the tiers, without a root speaker. *)
Lemma tiers_loop (sc : option (nat -> bool)) (f0 : File.t num)
    (tr : list (File.event num)) :
  File.never_stops sc ->
  File.info_ready f0 = true ->
  forall (rest done : Praat.Textgrid num) (p : nat),
    File.distinct (File.kept_names (done ++ rest)) = true ->
    File.distinct (map Utterance.name (File.read_utterances env f0 (done ++ rest)))
    = true ->
    exists p',
      File.for_each rest (File.load_tier env None sc)
        (File.mkSt
           (File.holding (File.kept_speakers done)
              (File.keyed (File.read_utterances env f0 done)) f0) tr p)
      = (Ok false,
         File.mkSt
           (File.holding (File.kept_speakers (done ++ rest))
              (File.keyed (File.read_utterances env f0 (done ++ rest))) f0) tr p').
Proof.
  intros N R. induction rest as [|ti rest IH]; intros done p D1 D2.
  - exists p. now rewrite app_nil_r.
  - replace (done ++ ti :: rest) with ((done ++ [ti]) ++ rest) in *
      by (now rewrite <- app_assoc).
    cbn [File.for_each]. unfold File.bind at 1.
    destruct (File.is_kept ti) eqn:K.
    + rewrite (load_tier_reads sc ti _ K). unfold File.bind at 1 2.
      rewrite add_speaker_run by apply kept_speakers_all.
      cbn [File.ret File.self File.put File.trace File.polls].
      assert (Kd : File.kept (done ++ [ti]) = File.kept done ++ [ti]).
      { rewrite kept_app. unfold File.kept at 2. cbn [filter]. now rewrite K. }
      assert (Fr : File.mem (Speaker.name (File.tier_speaker ti))
                     (File.ordering_names (File.kept_speakers done)) = false).
      { rewrite kept_speakers_names.
        rewrite kept_names_app in D1. apply distinct_app_l in D1.
        unfold File.kept_names in D1. rewrite Kd, map_app in D1. cbn [map] in D1.
        exact (distinct_fresh _ _ _ D1). }
      assert (Rg : File.register (File.tier_speaker ti)
                     (File.holding (File.kept_speakers done)
                        (File.keyed (File.read_utterances env f0 done)) f0)
                   = File.holding (File.kept_speakers (done ++ [ti]))
                       (File.keyed (File.read_utterances env f0 done)) f0).
      { assert (Ks : File.kept_speakers (done ++ [ti])
                     = File.kept_speakers done ++ [Some (File.tier_speaker ti)]).
        { unfold File.kept_speakers. now rewrite Kd, map_app. }
        rewrite Ks. unfold File.register.
        cbn [File.holding File.speaker_ordering File.set_utterances
             File.set_speaker_ordering].
        now rewrite Fr. }
      rewrite Rg.
      assert (Ru : File.read_utterances env f0 (done ++ [ti])
                   = File.read_utterances env f0 done
                     ++ map (File.utterance_of_entry env (File.tier_speaker ti) f0)
                          (filter (File.has_words env) (Praat.entries ti))).
      { unfold File.read_utterances. rewrite Kd, flat_map_app. cbn [flat_map].
        now rewrite app_nil_r. }
      destruct (entries_loop sc (File.tier_speaker ti)
                  (File.kept_speakers (done ++ [ti])) f0 tr (Praat.entries ti) N R
                  (kept_speakers_all _)) with (us := File.read_utterances env f0 done)
                                              (p := p) as [p1 E1].
      { rewrite kept_speakers_names. unfold File.kept_names. rewrite Kd, map_app.
        rewrite mem_app. cbn. now rewrite String.eqb_refl, orb_true_r. }
      { rewrite <- Ru. rewrite read_utterances_app, map_app in D2.
        exact (distinct_app_l _ _ D2). }
      unfold File.put. cbn [File.trace File.polls]. rewrite E1, <- Ru.
      destruct (IH (done ++ [ti]) p1 D1 D2) as [p' E]. exists p'. exact E.
    + rewrite (load_tier_skips sc ti _ K).
      assert (Kd : File.kept (done ++ [ti]) = File.kept done).
      { rewrite kept_app. unfold File.kept at 2. cbn [filter]. rewrite K.
        apply app_nil_r. }
      destruct (IH (done ++ [ti]) p D1 D2) as [p' E]. exists p'.
      rewrite <- E. unfold File.kept_speakers, File.read_utterances.
      now rewrite Kd.
Qed.

(** The utterance of an entry depends on the file through its name
    and its duration. *)
Lemma utterance_of_entry_same (speaker : Speaker.t) (f f' : File.t num)
    (e : Praat.Entry num) :
  File.name f' = File.name f ->
  File.duration_value env f' = File.duration_value env f ->
  File.utterance_of_entry env speaker f' e = File.utterance_of_entry env speaker f e.
Proof.
  intros Hn Hd. destruct e as [[b e'] text]. unfold File.utterance_of_entry.
  now rewrite Hn, Hd.
Qed.

Lemma read_utterances_same (f f' : File.t num) (tg : Praat.Textgrid num) :
  File.name f' = File.name f ->
  File.duration_value env f' = File.duration_value env f ->
  File.read_utterances env f' tg = File.read_utterances env f tg.
Proof.
  intros Hn Hd. unfold File.read_utterances, File.tier_utterances.
  induction (File.kept tg) as [|ti l IH]; [reflexivity|].
  cbn [flat_map]. rewrite IH. f_equal. apply map_ext.
  intros e. now apply utterance_of_entry_same.
Qed.

Lemma holding_nothing (f : File.t num) :
  File.speaker_ordering f = [] -> File.utterances f = [] ->
  File.holding [] [] f = f.
Proof. destruct f; simpl. now intros -> ->. Qed.

(** [load_text] on a new file with a TextGrid and no root speaker. *)
Lemma load_text_textgrid_run (sc : option (nat -> bool)) (f : File.t num)
    (p : string) (tg : Praat.Textgrid num) :
  File.is_new f = true ->
  File.text_type_is env f "textgrid" = true ->
  File.text_path f = Some p ->
  File.openTextgrid env p = inr tg ->
  tg <> [] ->
  (File.info_value env WavInfo.num_channels 0 f <= 2)%Z ->
  File.never_stops sc ->
  File.distinct (File.kept_names tg) = true ->
  File.distinct (map Utterance.name (File.read_utterances env f tg)) = true ->
  exists p',
    File.load_text env None sc (File.start f)
    = (Ok tt,
       File.mkSt
         (File.holding (File.kept_speakers tg)
            (File.keyed (File.read_utterances env f tg))
            (File.self (File.loaded env (File.start f))))
         (File.trace (File.loaded env (File.start f))) p').
Proof.
  intros New Ty Tp Op Ne Ch N D1 D2.
  unfold File.load_text, File.bind, File.get_self.
  change (File.self (File.start f)) with f.
  assert (Lab : File.text_type_is env f "lab" = false).
  { unfold File.text_type_is in *. destruct (File.text_type env f) as [x|];
      [|discriminate Ty].
    apply String.eqb_eq in Ty. now subst x. }
  rewrite Lab, Ty. unfold File.the_text_path. rewrite Tp.
  cbn [File.ret]. rewrite Op.
  assert (Len : Nat.eqb (List.length tg) 0 = false)
    by (destruct tg; [contradiction | reflexivity]).
  rewrite Len.
  rewrite num_channels_run.
  change (File.self (File.start f)) with f.
  replace (2 <? File.info_value env WavInfo.num_channels 0 f)%Z with false
    by (symmetry; apply Z.ltb_ge; exact Ch).
  set (st0 := File.loaded env (File.start f)).
  destruct (loaded_self env (File.start f)) as (Hn & _ & _ & Ho & Hu & _ & Hp).
  fold st0 in Hn, Ho, Hu, Hp.
  cbn [File.start File.self File.polls] in Hn, Ho, Hu, Hp.
  unfold File.is_new in New.
  destruct (File.speaker_ordering f) eqn:So; [|discriminate New].
  destruct (File.utterances f) eqn:Ut; [|discriminate New].
  assert (Hd : File.duration_value env (File.self st0) = File.duration_value env f).
  { unfold st0, File.duration_value. now rewrite info_value_loaded. }
  pose proof (read_utterances_same f (File.self st0) tg Hn Hd) as Rs.
  destruct (tiers_loop sc (File.self st0) (File.trace st0) N
              (ready_loaded _) tg [] (File.polls st0)) as [p' E].
  { exact D1. }
  { cbn [app]. now rewrite Rs. }
  cbn [app] in E. unfold File.kept_speakers at 1, File.read_utterances at 1 in E.
  cbn [File.kept filter map flat_map File.keyed] in E.
  rewrite (holding_nothing _ Ho Hu) in E.
  replace {| File.self := File.self st0; File.trace := File.trace st0;
             File.polls := File.polls st0 |} with st0 in E by now destruct st0.
  rewrite E. rewrite Rs. exists p'. reflexivity.
Qed.

(** *** The document that is written back *)

Lemma filter_flat_map {A B} (q : B -> bool) (g : A -> list B) (l : list A) :
  filter q (flat_map g l) = flat_map (fun a => filter q (g a)) l.
Proof.
  induction l as [|a l IH]; [reflexivity|].
  cbn [flat_map]. now rewrite filter_app, IH.
Qed.

Lemma tier_utterances_key (f : File.t num) (ti : Praat.Tier num)
    (u : Utterance.t num) :
  In u (File.tier_utterances env f ti) ->
  Utterance.speaker u = Some (File.tier_speaker ti)
  /\ Utterance.is_some (Utterance.begin u) = true.
Proof.
  unfold File.tier_utterances. intros I. apply in_map_iff in I as (e & <- & _).
  now destruct e as [[b e'] text].
Qed.

Lemma filter_tier_utterances (f : File.t num) (ti : Praat.Tier num) (k : string) :
  filter (fun u => String.eqb (File.tier_key (Utterance.speaker u)) k)
    (File.tier_utterances env f ti)
  = if String.eqb (PyStr.strip (Praat.tier_name ti)) k
    then File.tier_utterances env f ti else [].
Proof.
  assert (G : forall l : list (Utterance.t num),
             (forall u, In u l -> Utterance.speaker u = Some (File.tier_speaker ti)) ->
             filter (fun u => String.eqb (File.tier_key (Utterance.speaker u)) k) l
             = if String.eqb (PyStr.strip (Praat.tier_name ti)) k then l else []).
  { induction l as [|u l IH]; intros Hl.
    - now destruct (String.eqb _ k).
    - cbn [filter]. rewrite (Hl u (or_introl eq_refl)).
      cbn [File.tier_key File.tier_speaker Speaker.init Speaker.name].
      rewrite IH by (intros v Hv; apply Hl; now right).
      now destruct (String.eqb _ k). }
  apply G. intros u Hu. now apply (tier_utterances_key f ti).
Qed.

(** Among tiers with distinct names, the utterances filed under the
    name of a tier are those of that tier. *)
Lemma entries_of_tier (f : File.t num) (l : list (Praat.Tier num))
    (ti : Praat.Tier num) :
  NoDup (map (fun t => PyStr.strip (Praat.tier_name t)) l) ->
  In ti l ->
  File.entries_for (PyStr.strip (Praat.tier_name ti))
    (flat_map (File.tier_utterances env f) l)
  = map File.interval_of (File.tier_utterances env f ti).
Proof.
  unfold File.entries_for. intros Nd Hin. f_equal.
  rewrite filter_flat_map.
  induction l as [|t l IH]; [contradiction|].
  cbn [flat_map map] in *. inversion Nd as [|? ? Hfresh Nd']; subst.
  rewrite filter_tier_utterances.
  assert (Z : forall k,
             ~ In k (map (fun t => PyStr.strip (Praat.tier_name t)) l) ->
             flat_map
               (fun a =>
                  filter
                    (fun u => String.eqb (File.tier_key (Utterance.speaker u)) k)
                    (File.tier_utterances env f a)) l = []).
  { intros k. clear. induction l as [|a l IH]; intros Hk; [reflexivity|].
    cbn [flat_map map] in *. rewrite filter_tier_utterances.
    destruct (String.eqb_spec (PyStr.strip (Praat.tier_name a)) k) as [E|_].
    - exfalso. apply Hk. now left.
    - cbn [app]. apply IH. intros I. apply Hk. now right. }
  destruct Hin as [->|Hin].
  - rewrite String.eqb_refl, (Z _ Hfresh). apply app_nil_r.
  - destruct (String.eqb_spec (PyStr.strip (Praat.tier_name t))
                (PyStr.strip (Praat.tier_name ti))) as [E|_].
    + exfalso. apply Hfresh. rewrite E. apply in_map_iff. now exists ti.
    + cbn [app]. now apply IH.
Qed.

(** The document of a file that holds what reading a TextGrid leaves. *)
Lemma document_of_read (f f0 : File.t num) (tg : Praat.Textgrid num) :
  File.aligned f0 = false ->
  File.distinct (File.kept_names tg) = true ->
  File.name f0 = File.name f ->
  File.duration_value env f0 = File.duration_value env f ->
  File.document_of env
    (File.holding (File.kept_speakers tg)
       (File.keyed (File.read_utterances env f tg)) f0)
  = Praat.mkDocument (map (File.written_tier env f) (File.kept tg))
      (File.duration_value env f).
Proof.
  intros Al D Hn Hd. unfold File.document_of.
  assert (Dv : File.duration_value env
                 (File.holding (File.kept_speakers tg)
                    (File.keyed (File.read_utterances env f tg)) f0)
               = File.duration_value env f) by (rewrite <- Hd; reflexivity).
  rewrite Dv.
  cbn [File.holding File.aligned File.speaker_ordering File.utterances
       File.set_utterances File.set_speaker_ordering].
  rewrite Al, iter_keyed. f_equal.
  unfold File.kept_speakers. rewrite map_map.
  apply map_ext_in. intros ti Hti. unfold File.written_tier.
  cbn [File.tier_key File.tier_speaker Speaker.init Speaker.name].
  f_equal. unfold File.read_utterances.
  apply entries_of_tier; [|exact Hti].
  apply distinct_NoDup. exact D.
Qed.

(** What reading leaves is well placed for [save]. *)
Lemma read_covers (f f0 : File.t num) (tg : Praat.Textgrid num) :
  File.tiers_cover
    (File.holding (File.kept_speakers tg)
       (File.keyed (File.read_utterances env f tg)) f0) = true.
Proof.
  unfold File.tiers_cover.
  cbn [File.holding File.aligned File.speaker_ordering File.utterances
       File.set_utterances File.set_speaker_ordering].
  apply orb_true_iff. right. rewrite iter_keyed, kept_speakers_names.
  apply forallb_forall. intros u Hu.
  unfold File.read_utterances in Hu. apply in_flat_map in Hu as (ti & Hti & Hu).
  destruct (tier_utterances_key f ti u Hu) as [-> _].
  apply mem_eqb. unfold File.kept_names. apply in_map_iff. now exists ti.
Qed.

Lemma read_takes_general_case (f f0 : File.t num) (tg : Praat.Textgrid num) :
  File.lab_utterance
    (File.holding (File.kept_speakers tg)
       (File.keyed (File.read_utterances env f tg)) f0) = None.
Proof.
  rewrite ShapeFacts.lab_utterance_begin. unfold File.single_without_begin.
  cbn [File.holding File.utterances File.set_utterances File.set_speaker_ordering].
  rewrite iter_keyed.
  destruct (File.read_utterances env f tg) as [|u [|v l]] eqn:E; try reflexivity.
  assert (Hu : In u (File.read_utterances env f tg)) by (rewrite E; now left).
  unfold File.read_utterances in Hu. apply in_flat_map in Hu as (ti & _ & Hu).
  destruct (tier_utterances_key f ti u Hu) as [_ ->]. reflexivity.
Qed.

End Facts.

End RoundTripFacts.




(** ** Keyed collections *)

Module CollectionFacts.

Import FileFacts SaveFacts.
Local Open Scope list_scope.

Section Facts.
Context {T : Type}.

Lemma contains_setitem (k : string) (v : T) (c : Collection.t T) :
  Collection.contains k (Collection.setitem k v c) = true.
Proof.
  induction c as [|[k' v'] c IH]; simpl.
  - now rewrite String.eqb_refl.
  - destruct (String.eqb_spec k' k) as [->|Ne]; simpl.
    + now rewrite String.eqb_refl.
    + rewrite IH. apply orb_true_r.
Qed.

Lemma getitem_setitem_other (k k' : string) (v : T) (c : Collection.t T) :
  k' <> k ->
  Collection.getitem k' (Collection.setitem k v c) = Collection.getitem k' c.
Proof.
  intros Ne. induction c as [|[k0 v0] c IH]; simpl.
  - destruct (String.eqb_spec k k'); [congruence | reflexivity].
  - destruct (String.eqb_spec k0 k) as [->|Ne0]; simpl.
    + destruct (String.eqb_spec k k'); [congruence | reflexivity].
    + now rewrite IH.
Qed.

Lemma contains_setitem_other (k k' : string) (v : T) (c : Collection.t T) :
  k' <> k ->
  Collection.contains k' (Collection.setitem k v c) = Collection.contains k' c.
Proof.
  intros Ne. induction c as [|[k0 v0] c IH]; simpl.
  - destruct (String.eqb_spec k k'); [congruence | reflexivity].
  - destruct (String.eqb_spec k0 k) as [->|Ne0]; simpl.
    + reflexivity.
    + now rewrite IH.
Qed.

Lemma keys_setitem (k : string) (v : T) (c : Collection.t T) :
  Collection.keys (Collection.setitem k v c)
  = if Collection.contains k c then Collection.keys c else Collection.keys c ++ [k].
Proof.
  induction c as [|[k0 v0] c IH]; simpl; [reflexivity|].
  destruct (String.eqb_spec k0 k) as [->|Ne0]; simpl; [reflexivity|].
  rewrite IH. now destruct (Collection.contains k c).
Qed.

Lemma distinct_setitem (k : string) (v : T) (c : Collection.t T) :
  File.distinct (Collection.keys c) = true ->
  File.distinct (Collection.keys (Collection.setitem k v c)) = true.
Proof.
  intros D. rewrite keys_setitem. rewrite contains_keys.
  destruct (File.mem k (Collection.keys c)) eqn:M; [exact D|].
  now apply OrderingFacts.distinct_snoc.
Qed.

Lemma getitem_contains (k : string) (c : Collection.t T) :
  Collection.contains k c = false -> Collection.getitem k c = Err (KeyError k).
Proof.
  induction c as [|[k0 v0] c IH]; simpl; [reflexivity|].
  intros C. apply orb_false_iff in C as [E C]. rewrite E. now apply IH.
Qed.

Lemma contains_remove_other (k k' : string) (c : Collection.t T) :
  k' <> k ->
  Collection.contains k' (Collection.remove k c) = Collection.contains k' c.
Proof.
  intros Ne. induction c as [|[k0 v0] c IH]; simpl; [reflexivity|].
  destruct (String.eqb_spec k0 k) as [->|Ne0]; simpl.
  - destruct (String.eqb_spec k k'); [congruence | reflexivity].
  - now rewrite IH.
Qed.

Lemma getitem_remove_other (k k' : string) (c : Collection.t T) :
  k' <> k ->
  Collection.getitem k' (Collection.remove k c) = Collection.getitem k' c.
Proof.
  intros Ne. induction c as [|[k0 v0] c IH]; simpl; [reflexivity|].
  destruct (String.eqb_spec k0 k) as [->|Ne0]; simpl.
  - destruct (String.eqb_spec k k'); [congruence | reflexivity].
  - now rewrite IH.
Qed.

Lemma contains_remove (k : string) (c : Collection.t T) :
  File.distinct (Collection.keys c) = true ->
  Collection.contains k (Collection.remove k c) = false.
Proof.
  induction c as [|[k0 v0] c IH]; simpl; [reflexivity|].
  intros D. apply andb_true_iff in D as [F D].
  destruct (String.eqb_spec k0 k) as [->|Ne0]; simpl.
  - rewrite contains_keys. now apply negb_true_iff in F.
  - rewrite (IH D). destruct (String.eqb_spec k0 k); [congruence | reflexivity].
Qed.

Lemma mem_keys_remove (k x : string) (c : Collection.t T) :
  File.mem x (Collection.keys (Collection.remove k c)) = true ->
  File.mem x (Collection.keys c) = true.
Proof.
  induction c as [|[k0 v0] c IH]; simpl; [trivial|].
  destruct (String.eqb_spec k0 k) as [->|Ne0]; simpl.
  - intros M. rewrite M. apply orb_true_r.
  - intros M. apply orb_true_iff in M as [M|M].
    + now rewrite M.
    + rewrite (IH M). apply orb_true_r.
Qed.

Lemma distinct_remove (k : string) (c : Collection.t T) :
  File.distinct (Collection.keys c) = true ->
  File.distinct (Collection.keys (Collection.remove k c)) = true.
Proof.
  induction c as [|[k0 v0] c IH]; simpl; [trivial|].
  intros D. apply andb_true_iff in D as [F D].
  destruct (String.eqb_spec k0 k) as [->|Ne0]; simpl; [exact D|].
  rewrite (IH D), andb_true_r. apply negb_true_iff.
  destruct (File.mem k0 (Collection.keys (Collection.remove k c))) eqn:M; [|reflexivity].
  apply mem_keys_remove in M. rewrite M in F. discriminate F.
Qed.

Lemma len_remove (k : string) (c : Collection.t T) :
  Collection.contains k c = true ->
  S (Collection.len (Collection.remove k c)) = Collection.len c.
Proof.
  unfold Collection.len.
  induction c as [|[k0 v0] c IH]; simpl; [discriminate|].
  destruct (String.eqb_spec k0 k) as [->|Ne0]; simpl; [reflexivity|].
  intros C. now rewrite (IH C).
Qed.

Lemma contains_update (other c : Collection.t T) (k : string) :
  Collection.contains k (Collection.update other c)
  = Collection.contains k other || Collection.contains k c.
Proof.
  revert c. induction other as [|[k0 v0] o IH]; intros c; [reflexivity|].
  unfold Collection.update in *. simpl. rewrite IH.
  destruct (String.eqb_spec k0 k) as [->|Ne0]; simpl.
  - rewrite contains_setitem. apply orb_true_r.
  - rewrite contains_setitem_other; [reflexivity | congruence].
Qed.

Lemma getitem_update (other c : Collection.t T) (k : string) :
  File.distinct (Collection.keys other) = true ->
  Collection.getitem k (Collection.update other c)
  = if Collection.contains k other then Collection.getitem k other
    else Collection.getitem k c.
Proof.
  revert c. induction other as [|[k0 v0] o IH]; intros c D; [reflexivity|].
  simpl in D. apply andb_true_iff in D as [F D]. apply negb_true_iff in F.
  unfold Collection.update in *. simpl. rewrite (IH _ D).
  destruct (String.eqb_spec k0 k) as [->|Ne0]; simpl.
  - rewrite contains_keys, F. apply EntryFacts.getitem_setitem.
  - destruct (Collection.contains k o); [reflexivity|].
    apply getitem_setitem_other. congruence.
Qed.

Lemma distinct_update (other c : Collection.t T) :
  File.distinct (Collection.keys c) = true ->
  File.distinct (Collection.keys (Collection.update other c)) = true.
Proof.
  revert c. induction other as [|[k0 v0] o IH]; intros c D; [exact D|].
  unfold Collection.update in *. simpl. apply IH. now apply distinct_setitem.
Qed.

Lemma contains_update_items (name : T -> string) (other : list T)
    (c : Collection.t T) (k : string) :
  Collection.contains k (Collection.update_items name other c)
  = File.mem k (map name other) || Collection.contains k c.
Proof.
  revert c. induction other as [|x o IH]; intros c; [reflexivity|].
  unfold Collection.update_items in *. simpl. rewrite IH.
  destruct (String.eqb_spec k (name x)) as [->|Ne0]; simpl.
  - rewrite contains_setitem. apply orb_true_r.
  - rewrite contains_setitem_other; [reflexivity | congruence].
Qed.

Lemma find_snoc {A} (f : A -> bool) (l : list A) (x : A) :
  find f (l ++ [x])
  = match find f l with
    | Some y => Some y
    | None => if f x then Some x else None
    end.
Proof.
  induction l as [|y l IH]; cbn; [reflexivity|].
  now destruct (f y).
Qed.

(** After [update] from a list of entities, a name is looked up as the
    last entity of the list with that name, and as before when the list
    has none. *)
Lemma getitem_update_items (name : T -> string) (other : list T)
    (c : Collection.t T) (k : string) :
  Collection.getitem k (Collection.update_items name other c)
  = match find (fun x => String.eqb (name x) k) (rev other) with
    | Some x => Ok x
    | None => Collection.getitem k c
    end.
Proof.
  revert c. induction other as [|x o IH]; intros c; [reflexivity|].
  unfold Collection.update_items in *. cbn [fold_left rev]. rewrite IH.
  rewrite find_snoc.
  destruct (find (fun y => String.eqb (name y) k) (rev o)); [reflexivity|].
  destruct (String.eqb_spec (name x) k) as [<-|Ne].
  - apply EntryFacts.getitem_setitem.
  - apply getitem_setitem_other. congruence.
Qed.

End Facts.

End CollectionFacts.

(** X1.  Looking a key up after [__setitem__] answers the item that was
    set, and the collection then contains the key; every other key is
    looked up and contained as before. *)
Theorem collection_lookup_after_insert :
  forall {T : Type} (k : string) (v : T) (c : Collection.t T),
    Collection.getitem k (Collection.setitem k v c) = Ok v
    /\ Collection.contains k (Collection.setitem k v c) = true
    /\ forall k',
         k' <> k ->
         Collection.getitem k' (Collection.setitem k v c) = Collection.getitem k' c
         /\ Collection.contains k' (Collection.setitem k v c)
            = Collection.contains k' c.
Proof.
  intros T k v c. split; [apply EntryFacts.getitem_setitem|].
  split; [apply CollectionFacts.contains_setitem|].
  intros k' Ne. split.
  - now apply CollectionFacts.getitem_setitem_other.
  - now apply CollectionFacts.contains_setitem_other.
Qed.

(** X2.  [__setitem__] keeps the order of insertion: a key that is present
    keeps its place and the number of items stays, a new key goes last and
    the number of items grows by one; no key comes to be held twice. *)
Theorem collection_insert_keeps_order :
  forall {T : Type} (k : string) (v : T) (c : Collection.t T),
    Collection.keys (Collection.setitem k v c)
    = (if Collection.contains k c then Collection.keys c
       else Collection.keys c ++ [k])%list
    /\ Collection.len (Collection.setitem k v c)
       = (if Collection.contains k c then Collection.len c
          else S (Collection.len c))
    /\ (File.distinct (Collection.keys c) = true ->
        File.distinct (Collection.keys (Collection.setitem k v c)) = true).
Proof.
  intros T k v c. split; [apply CollectionFacts.keys_setitem|]. split.
  - unfold Collection.len.
    rewrite <- (length_map fst (Collection.setitem k v c)).
    change (map fst (Collection.setitem k v c))
      with (Collection.keys (Collection.setitem k v c)).
    rewrite CollectionFacts.keys_setitem.
    destruct (Collection.contains k c); unfold Collection.keys.
    + now rewrite length_map.
    + rewrite length_app, length_map. simpl. lia.
  - apply CollectionFacts.distinct_setitem.
Qed.

(** X3.  [__delitem__] on a collection that holds no key twice: a key that
    is missing raises [KeyError] with that key; a key that is present is
    deleted, so that it is no longer contained and looking it up raises
    [KeyError], one item less is held, and every other key is looked up as
    before. *)
Theorem collection_delete :
  forall {T : Type} (k : string) (c : Collection.t T),
    File.distinct (Collection.keys c) = true ->
    (Collection.contains k c = false ->
     Collection.delitem k c = Err (KeyError k))
    /\ (Collection.contains k c = true ->
        exists c',
          Collection.delitem k c = Ok c'
          /\ Collection.contains k c' = false
          /\ Collection.getitem k c' = Err (KeyError k)
          /\ S (Collection.len c') = Collection.len c
          /\ File.distinct (Collection.keys c') = true
          /\ forall k',
               k' <> k ->
               Collection.getitem k' c' = Collection.getitem k' c
               /\ Collection.contains k' c' = Collection.contains k' c).
Proof.
  intros T k c D. unfold Collection.delitem. split; intros C; rewrite C.
  - reflexivity.
  - exists (Collection.remove k c). split; [reflexivity|].
    split; [now apply CollectionFacts.contains_remove|].
    split; [apply CollectionFacts.getitem_contains;
            now apply CollectionFacts.contains_remove|].
    split; [now apply CollectionFacts.len_remove|].
    split; [now apply CollectionFacts.distinct_remove|].
    intros k' Ne. split.
    + now apply CollectionFacts.getitem_remove_other.
    + now apply CollectionFacts.contains_remove_other.
Qed.

(** X4.  [update] from another collection (one that holds no key twice):
    afterwards a key of the other collection is looked up as in the other
    collection, every other key as before; the keys contained are those of
    the two collections, and no key comes to be held twice.  [update] from
    a list of entities files each of them under its name: afterwards a name
    is looked up as the last entity of the list that has this name, and
    as before when no entity of the list has it. *)
Theorem collection_update_other_wins :
  forall {T : Type} (other c : Collection.t T),
    File.distinct (Collection.keys other) = true ->
    (forall k,
        Collection.getitem k (Collection.update other c)
        = (if Collection.contains k other then Collection.getitem k other
           else Collection.getitem k c)
        /\ Collection.contains k (Collection.update other c)
           = Collection.contains k other || Collection.contains k c)
    /\ (File.distinct (Collection.keys c) = true ->
        File.distinct (Collection.keys (Collection.update other c)) = true)
    /\ (forall (name : T -> string) (items : list T) (k : string),
          Collection.getitem k (Collection.update_items name items c)
          = match find (fun item => String.eqb (name item) k) (rev items) with
            | Some item => Ok item
            | None => Collection.getitem k c
            end
          /\ Collection.contains k (Collection.update_items name items c)
             = File.mem k (map name items) || Collection.contains k c).
Proof.
  intros T other c D. split; [|split].
  - intros k. split.
    + now apply CollectionFacts.getitem_update.
    + apply CollectionFacts.contains_update.
  - apply CollectionFacts.distinct_update.
  - intros name items k. split.
    + apply CollectionFacts.getitem_update_items.
    + apply CollectionFacts.contains_update_items.
Qed.

Lemma collection_delete_witness :
  Collection.delitem "b" [("a", 1); ("b", 2); ("c", 3)] = Ok [("a", 1); ("c", 3)]
  /\ Collection.delitem "d" [("a", 1); ("b", 2); ("c", 3)] = Err (KeyError "d").
Proof.
  destruct (collection_delete "b" [("a", 1); ("b", 2); ("c", 3)] eq_refl) as [_ P].
  destruct (collection_delete "d" [("a", 1); ("b", 2); ("c", 3)] eq_refl) as [Q _].
  destruct (P eq_refl) as (c' & D & _).
  split; [|exact (Q eq_refl)].
  rewrite D. pose proof D as D'. vm_compute in D'. injection D' as D'. now subst c'.
Defined.

Lemma collection_update_other_wins_witness :
  Collection.getitem "b" (Collection.update [("b", 20); ("c", 30)] [("a", 1); ("b", 2)])
  = Ok 20
  /\ Collection.getitem "a" (Collection.update [("b", 20); ("c", 30)] [("a", 1); ("b", 2)])
     = Ok 1
  /\ Collection.getitem "alice-rec-0-5-1-5"
       (Collection.update_items Utterance.name
          [Examples.utt_05_15; Examples.utt_bob; Examples.utt_alice_hello] [])
     = Ok Examples.utt_alice_hello.
Proof.
  destruct (collection_update_other_wins [("b", 20); ("c", 30)] [("a", 1); ("b", 2)]
              eq_refl) as [G _].
  split; [exact (proj1 (G "b"))|]. split; [exact (proj1 (G "a"))|].
  exact (proj1 (proj2 (proj2 (collection_update_other_wins
                                (T := Utterance.t Dec.t) [] [] eq_refl))
                 Utterance.name
                 [Examples.utt_05_15; Examples.utt_bob; Examples.utt_alice_hello]
                 "alice-rec-0-5-1-5")).
Defined.

Lemma collection_lookup_after_insert_witness :
  Collection.getitem "b" (Collection.setitem "b" 5 [("a", 1); ("b", 2)]) = Ok 5
  /\ Collection.getitem "a" (Collection.setitem "b" 5 [("a", 1); ("b", 2)]) = Ok 1.
Proof.
  destruct (collection_lookup_after_insert "b" 5 [("a", 1); ("b", 2)]) as (G & _ & O).
  split; [exact G|].
  exact (proj1 (O "a" ltac:(discriminate))).
Defined.

Lemma collection_insert_keeps_order_witness :
  Collection.keys (Collection.setitem "a" 5 [("a", 1); ("b", 2)]) = ["a"; "b"]
  /\ Collection.keys (Collection.setitem "c" 5 [("a", 1); ("b", 2)]) = ["a"; "b"; "c"]
  /\ File.distinct (Collection.keys (Collection.setitem "c" 5 [("a", 1); ("b", 2)]))
     = true.
Proof.
  split; [|split].
  - exact (proj1 (collection_insert_keeps_order "a" 5 [("a", 1); ("b", 2)])).
  - exact (proj1 (collection_insert_keeps_order "c" 5 [("a", 1); ("b", 2)])).
  - exact (proj2 (proj2 (collection_insert_keeps_order "c" 5 [("a", 1); ("b", 2)]))
             eq_refl).
Defined.

(** ** The name and the text type of a file *)

Module InitFacts.

Import StrFacts PathFacts.

Lemma take_length_app (s t : string) : PyStr.take (String.length s) (s ++ t) = s.
Proof.
  induction s as [|a s IH]; simpl; [now destruct t|]. now rewrite IH.
Qed.

Lemma free_of_app (c : ascii) (a b : string) :
  PyStr.free_of c (a ++ b) = PyStr.free_of c a && PyStr.free_of c b.
Proof. apply all_chars_app. Qed.

(** The last component [stem.ext] of a path is split at its last dot. *)
Lemma splitext_component (h stem ext : string) :
  PosixPath.rcut PosixPath.sep (h ++ stem ++ "." ++ ext)
  = (match h with
     | EmptyString => None
     | _ => Some (h, stem ++ "." ++ ext)
     end) ->
  PyStr.all_chars (fun a => PyStr.chr_eqb a PosixPath.extsep) stem = false ->
  PyStr.free_of PosixPath.extsep ext = true ->
  PosixPath.splitext (h ++ stem ++ "." ++ ext) = (h ++ stem, "." ++ ext).
Proof.
  intros R S E. unfold PosixPath.splitext. rewrite R.
  assert (C : PosixPath.rcut PosixPath.extsep (stem ++ "." ++ ext)
              = Some (stem ++ ".", ext)).
  { change (stem ++ "." ++ ext) with (stem ++ String PosixPath.extsep ext).
    now rewrite (rcut_last _ _ _ E). }
  assert (L : PyStr.take (String.length (stem ++ ".") - 1) (stem ++ ".") = stem).
  { rewrite length_append. simpl String.length.
    replace (String.length stem + 1 - 1)%nat with (String.length stem) by lia.
    apply take_length_app. }
  destruct h as [|a h].
  - change ("" ++ stem ++ "." ++ ext) with (stem ++ "." ++ ext).
    cbv beta iota. rewrite C, L, S. reflexivity.
  - cbv beta iota. rewrite C, L, S. reflexivity.
Qed.

Lemma splitext_path (dir stem ext : string) :
  PyStr.free_of PosixPath.sep stem = true ->
  PyStr.all_chars (fun a => PyStr.chr_eqb a PosixPath.extsep) stem = false ->
  PyStr.free_of PosixPath.sep ext = true ->
  PyStr.free_of PosixPath.extsep ext = true ->
  PosixPath.splitext (dir ++ "/" ++ stem ++ "." ++ ext)
  = (dir ++ "/" ++ stem, "." ++ ext)
  /\ PosixPath.basename (dir ++ "/" ++ stem ++ "." ++ ext) = stem ++ "." ++ ext
  /\ PosixPath.splitext (stem ++ "." ++ ext) = (stem, "." ++ ext).
Proof.
  intros Ss Sd Es Ed.
  assert (F : PyStr.free_of PosixPath.sep (stem ++ "." ++ ext) = true).
  { rewrite free_of_app, Ss. simpl. exact Es. }
  assert (R : PosixPath.rcut PosixPath.sep (dir ++ "/" ++ stem ++ "." ++ ext)
              = Some (dir ++ "/", stem ++ "." ++ ext)).
  { change (dir ++ "/" ++ stem ++ "." ++ ext)
      with (dir ++ String PosixPath.sep (stem ++ "." ++ ext)).
    now rewrite (rcut_last _ _ _ F). }
  split; [|split].
  - replace (dir ++ "/" ++ stem ++ "." ++ ext)
      with ((dir ++ "/") ++ stem ++ "." ++ ext) by (now rewrite append_assoc).
    replace (dir ++ "/" ++ stem) with ((dir ++ "/") ++ stem)
      by (now rewrite append_assoc).
    apply splitext_component; [|exact Sd|exact Ed].
    replace ((dir ++ "/") ++ stem ++ "." ++ ext)
      with (dir ++ "/" ++ stem ++ "." ++ ext) by (now rewrite append_assoc).
    rewrite R. destruct (dir ++ "/") eqn:D; [|reflexivity].
    destruct dir; discriminate D.
  - unfold PosixPath.basename. now rewrite R.
  - apply (splitext_component "" stem ext); [|exact Sd|exact Ed].
    simpl append at 1. now apply rcut_none.
Qed.

Lemma lower_extension (ext : string) :
  String.eqb (PyStr.lower ("." ++ ext)) ".textgrid"
  = String.eqb (PyStr.lower ext) "textgrid".
Proof. reflexivity. Qed.

End InitFacts.

(** X5.  [File(wav_path, text_path, relative_path)] names the file after
    the sound file when there is one, whatever the transcription path, and
    after the transcription otherwise: the name is the last component of
    that path without its extension.  The new file has no utterance, no
    speaker, no audio information and is not aligned.  With neither path
    the constructor raises [CorpusError]. *)
Theorem file_name_is_stem :
  forall {num : Type} `{PyNumber num} (dir stem ext : string)
         (other relative_path : option string),
    PyStr.free_of "/" stem = true ->
    PyStr.all_chars (fun a => PyStr.chr_eqb a ".") stem = false ->
    PyStr.free_of "/" ext = true ->
    PyStr.free_of "." ext = true ->
    let path := dir ++ "/" ++ stem ++ "." ++ ext in
    (exists f : File.t num,
        File.init (Some path) other relative_path = Ok f
        /\ File.name f = stem
        /\ File.wav_path f = Some path
        /\ File.text_path f = other
        /\ File.relative_path f = relative_path
        /\ File.wav_info f = None
        /\ File.is_new f = true)
    /\ (exists f : File.t num,
          File.init None (Some path) relative_path = Ok f
          /\ File.name f = stem
          /\ File.wav_path f = None
          /\ File.text_path f = Some path
          /\ File.is_new f = true)
    /\ File.init (num := num) None None relative_path
       = Err (CorpusError "File objects must have either a wav_path or text_path").
Proof.
  intros num N dir stem ext other rel Ss Sd Es Ed path.
  destruct (InitFacts.splitext_path dir stem ext Ss Sd Es Ed) as (_ & B & S).
  split; [|split].
  - unfold File.init. fold path in B. rewrite B, S. eexists.
    split; [reflexivity|]. now repeat split.
  - unfold File.init. fold path in B. rewrite B, S. eexists.
    split; [reflexivity|]. now repeat split.
  - reflexivity.
Qed.

Lemma file_name_is_stem_witness :
  exists f : File.t Dec.t,
    File.init (Some "/corpus/spk7/rec.v2.wav") (Some "/corpus/spk7/other.lab") None
    = Ok f
    /\ File.name f = "rec.v2".
Proof.
  destruct (file_name_is_stem (num := Dec.t) "/corpus/spk7" "rec.v2" "wav"
              (Some "/corpus/spk7/other.lab") None
              eq_refl eq_refl eq_refl eq_refl) as ((f & I & N & _) & _).
  exists f. split; [exact I | exact N].
Defined.

(** X6.  [text_type] answers [None] when the file has no transcription
    path or the path does not exist; for a transcription that exists it
    answers [textgrid] when the extension is [.textgrid] in any letter case
    and [lab] for every other extension. *)
Theorem text_type_by_extension :
  forall {num : Type} `{PyNumber num} (env : File.Env num) (f : File.t num),
    (File.text_path f = None -> File.text_type env f = None)
    /\ (forall p,
          File.text_path f = Some p -> File.path_exists env p = false ->
          File.text_type env f = None)
    /\ (forall dir stem ext,
          PyStr.free_of "/" stem = true ->
          PyStr.all_chars (fun a => PyStr.chr_eqb a ".") stem = false ->
          PyStr.free_of "/" ext = true ->
          PyStr.free_of "." ext = true ->
          File.text_path f = Some (dir ++ "/" ++ stem ++ "." ++ ext) ->
          File.path_exists env (dir ++ "/" ++ stem ++ "." ++ ext) = true ->
          File.text_type env f
          = Some (if String.eqb (PyStr.lower ext) "textgrid"
                  then "textgrid" else "lab")).
Proof.
  intros num N env f. unfold File.text_type, File.has_text_file.
  split; [|split].
  - now intros ->.
  - intros p -> E. now rewrite E.
  - intros dir stem ext Ss Sd Es Ed -> E. rewrite E.
    destruct (InitFacts.splitext_path dir stem ext Ss Sd Es Ed) as (S & _).
    rewrite S. cbn [snd]. rewrite InitFacts.lower_extension.
    now destruct (String.eqb (PyStr.lower ext) "textgrid").
Qed.

Lemma text_type_by_extension_witness :
  File.text_type (Examples.env_of []) Examples.rec_file = Some "textgrid"
  /\ File.text_type (Examples.env_of []) Examples.anna_file = Some "lab".
Proof.
  split.
  - exact (proj2 (proj2 (text_type_by_extension (Examples.env_of []) Examples.rec_file))
             "/corpus/spk7" "rec" "TextGrid" eq_refl eq_refl eq_refl eq_refl
             eq_refl eq_refl).
  - exact (proj2 (proj2 (text_type_by_extension (Examples.env_of []) Examples.anna_file))
             "/corpus" "annaSession1" "lab" eq_refl eq_refl eq_refl eq_refl
             eq_refl eq_refl).
Defined.

(** ** The audio information of a file *)

(** X7.  The audio information of a file with a sound path is read at most
    once: the first property that needs it reads it unless the file has it
    already, and from then on [duration], [num_channels], [sample_rate],
    [format] and [sox_string] answer from what the file holds and leave the
    file and the world as they are. *)
Theorem audio_info_is_read_once :
  forall {num : Type} `{PyNumber num} (env : File.Env num) (st : File.St num)
         (w : string),
    File.wav_path (File.self st) = Some w ->
    exists i st1,
      File.duration env st = (Ok (WavInfo.duration i), st1)
      /\ File.wav_info (File.self st1) = Some i
      /\ (File.wav_info (File.self st) = None ->
          i = File.get_wav_info env w
          /\ File.trace st1 = (File.trace st ++ [File.GetWavInfo w])%list)
      /\ (forall j, File.wav_info (File.self st) = Some j -> i = j /\ st1 = st)
      /\ File.duration env st1 = (Ok (WavInfo.duration i), st1)
      /\ File.num_channels env st1 = (Ok (WavInfo.num_channels i), st1)
      /\ File.sample_rate env st1 = (Ok (WavInfo.sample_rate i), st1)
      /\ File.format env st1 = (Ok (WavInfo.format i), st1)
      /\ File.sox_string env st1 = (Ok (WavInfo.sox_string i), st1).
Proof.
  intros num N env [f tr p] w W.
  destruct f as [n wp tp rp wi wf so us al]. simpl in W. subst wp.
  destruct wi as [j|].
  - exists j. eexists. split; [reflexivity|]. split; [reflexivity|].
    split; [discriminate|]. split; [now intros ? [= ->]|].
    repeat split; reflexivity.
  - exists (File.get_wav_info env w). eexists. split; [reflexivity|].
    split; [reflexivity|]. split; [now split|]. split; [discriminate|].
    repeat split; reflexivity.
Qed.

Lemma audio_info_is_read_once_witness :
  exists st1,
    File.duration (Examples.env_of []) (File.start Examples.rec_file)
    = (Ok (Dec.Float 50 1), st1)
    /\ File.trace st1 = [File.GetWavInfo "/corpus/spk7/rec.wav"]
    /\ File.sample_rate (Examples.env_of []) st1 = (Ok 16000%Z, st1).
Proof.
  destruct (audio_info_is_read_once (Examples.env_of []) (File.start Examples.rec_file)
              "/corpus/spk7/rec.wav" eq_refl)
    as (i & st1 & D & _ & L & _ & _ & _ & R & _).
  destruct (L eq_refl) as [-> T].
  exists st1. split; [exact D|]. split; [exact T | exact R].
Defined.

(** X8.  [for_wav_scp] answers the SoX string of the audio information
    when that string is not empty and the sound path otherwise, reading the
    audio information if the file does not have it yet.  On a file that has
    neither a sound path nor audio information, [for_wav_scp], [sox_string]
    and [format] raise [TypeError] and change nothing. *)
Theorem for_wav_scp_prefers_sox_string :
  forall {num : Type} `{PyNumber num} (env : File.Env num) (st : File.St num),
    (forall w,
        File.wav_path (File.self st) = Some w ->
        let sox := File.info_value env WavInfo.sox_string "" (File.self st) in
        File.for_wav_scp env st
        = (Ok (Some (if String.eqb sox "" then w else sox)), File.loaded env st))
    /\ (File.wav_path (File.self st) = None ->
        File.wav_info (File.self st) = None ->
        File.for_wav_scp env st
        = (Err (TypeError "'NoneType' object is not subscriptable"), st)
        /\ File.sox_string env st
           = (Err (TypeError "'NoneType' object is not subscriptable"), st)
        /\ File.format env st
           = (Err (TypeError "'NoneType' object is not subscriptable"), st)).
Proof.
  intros num N env [f tr p].
  destruct f as [n wp tp rp wi wf so us al]. simpl. split.
  - intros w ->. unfold File.for_wav_scp, File.sox_string, File.bind.
    destruct wi as [j|].
    + cbn. destruct (String.eqb (WavInfo.sox_string j) ""); reflexivity.
    + cbn. destruct (String.eqb (WavInfo.sox_string (File.get_wav_info env w)) "");
        reflexivity.
  - intros -> ->. repeat split; reflexivity.
Qed.

Lemma for_wav_scp_prefers_sox_string_witness :
  File.for_wav_scp (Examples.env_of []) (File.start Examples.loaded_file)
  = (Ok (Some "/corpus/spk7/rec.wav"), File.start Examples.loaded_file)
  /\ File.for_wav_scp (Examples.env_of []) (File.start Examples.silent_file)
     = (Err (TypeError "'NoneType' object is not subscriptable"),
        File.start Examples.silent_file).
Proof.
  split.
  - exact (proj1 (for_wav_scp_prefers_sox_string (Examples.env_of [])
                    (File.start Examples.loaded_file))
             "/corpus/spk7/rec.wav" eq_refl).
  - exact (proj1 (proj2 (for_wav_scp_prefers_sox_string (Examples.env_of [])
                           (File.start Examples.silent_file))
                    eq_refl eq_refl)).
Defined.

(** ** Output paths, aligned speakers and the state of an utterance *)

Module PlaceFacts.

Import StrFacts.

(** [os.path.join(a, b)] ends with [b]. *)
Lemma join_ends (a b : string) : exists prefix, PosixPath.join a b = prefix ++ b.
Proof.
  unfold PosixPath.join.
  destruct (PyStr.startswith b "/"); [now exists ""|].
  destruct a as [|x a]; [now exists ""|].
  destruct (PosixPath.rcut PosixPath.sep (String x a)) as [[h [|y t]]|].
  - now exists (String x a).
  - exists (String x a ++ "/"). now rewrite append_assoc.
  - exists (String x a ++ "/"). now rewrite append_assoc.
Qed.

End PlaceFacts.

(** X9.  [construct_output_path] without an output directory answers the
    transcription path of the file as it is, whatever extension is asked
    for, and the sound path with its extension replaced when the file has
    no transcription path; it makes no directory and ignores the backup
    directory.  With an output directory the target ends with the name of
    the file and the extension asked for; the path is the target, or, when
    a backup directory is given and the target exists, the target with the
    output directory replaced by the backup directory; the one call made is
    [os.makedirs] on the directory of the path, and if the method answers,
    it answers the path. *)
Theorem output_path_placement :
  forall {num : Type} `{PyNumber num} (env : File.Env num)
         (backup : option string) (enforce_lab : bool) (st : File.St num),
    let extension := if enforce_lab then ".lab" else ".TextGrid" in
    (forall p,
        File.text_path (File.self st) = Some p ->
        File.construct_output_path env None backup enforce_lab st = (Ok p, st))
    /\ (forall w,
          File.text_path (File.self st) = None ->
          File.wav_path (File.self st) = Some w ->
          File.construct_output_path env None backup enforce_lab st
          = (Ok (fst (PosixPath.splitext w) ++ extension), st))
    /\ (File.text_path (File.self st) = None ->
        File.wav_path (File.self st) = None ->
        exists msg,
          File.construct_output_path env None backup enforce_lab st
          = (Err (TypeError msg), st))
    /\ (forall output_directory,
          exists target prefix r,
            target = prefix ++ File.name (File.self st) ++ extension
            /\ let path :=
                 match backup with
                 | Some backup_directory =>
                     if File.path_exists env target
                     then PyStr.replace output_directory backup_directory target
                     else target
                 | None => target
                 end in
               File.construct_output_path env (Some output_directory) backup
                 enforce_lab st
               = (r, File.emitting [File.MakeDirs (PosixPath.dirname path)] st)
               /\ forall p, r = Ok p -> p = path).
Proof.
  intros num N env backup lab st extension.
  unfold File.construct_output_path, File.bind, File.get_self.
  split; [|split; [|split]].
  - now intros p ->.
  - now intros w -> ->.
  - intros -> ->. now eexists.
  - intros od.
    set (relative := if File.truthy (File.relative_path (File.self st))
                     then match File.relative_path (File.self st) with
                          | Some r => PosixPath.join od r
                          | None => od
                          end
                     else od).
    destruct (PlaceFacts.join_ends relative (File.name (File.self st) ++ extension))
      as (prefix & J).
    exists (PosixPath.join relative (File.name (File.self st) ++ extension)), prefix.
    eexists. split; [exact J|]. split; [reflexivity|].
    now intros p [= <-].
Qed.

Lemma output_path_placement_witness :
  File.construct_output_path (Examples.env_of []) None None true
    (File.start Examples.rec_file)
  = (Ok "/corpus/spk7/rec.TextGrid", File.start Examples.rec_file)
  /\ exists target prefix r,
       target = prefix ++ "rec" ++ ".TextGrid"
       /\ File.construct_output_path (Examples.env_of []) (Some "/out") (Some "/backup")
            false (File.start Examples.rec_file)
          = (r,
             File.emitting
               [File.MakeDirs (PosixPath.dirname (PyStr.replace "/out" "/backup" target))]
               (File.start Examples.rec_file)).
Proof.
  split.
  - exact (proj1 (output_path_placement (Examples.env_of []) None true
                    (File.start Examples.rec_file))
             "/corpus/spk7/rec.TextGrid" eq_refl).
  - destruct (proj2 (proj2 (proj2
                (output_path_placement (Examples.env_of []) (Some "/backup") false
                   (File.start Examples.rec_file)))) "/out")
      as (target & prefix & r & E & R & _).
    exists target, prefix, r. split; [exact E | exact R].
Defined.

Module AlignedFacts.

Section Facts.
Context {num : Type} `{PyNumber num}.

Lemma fully_aligned_true (speaker : Speaker.t) (us : list (Utterance.t num)) :
  forallb (fun u => Utterance.is_some (Utterance.speaker u)) us = true ->
  exists b,
    File.fully_aligned speaker us = Ok b
    /\ (b = true <->
        forall u s,
          In u us -> Utterance.speaker u = Some s ->
          Speaker.name s = Speaker.name speaker ->
          Utterance.word_labels u <> None /\ Utterance.phone_labels u <> None).
Proof.
  induction us as [|u us IH]; intros A.
  - exists true. split; [reflexivity|]. split; [intros _ ? ? []|reflexivity].
  - simpl in A. apply andb_true_iff in A as [Au A].
    destruct (IH A) as (b & E & Q). simpl.
    destruct (Utterance.speaker u) as [s|] eqn:S; [|discriminate Au].
    destruct (String.eqb_spec (Speaker.name speaker) (Speaker.name s)) as [Eq|Ne];
      simpl.
    + destruct (Utterance.word_labels u) as [wl|] eqn:W.
      * destruct (Utterance.phone_labels u) as [pl|] eqn:P.
        -- exists b. split; [exact E|]. rewrite Q. split.
           ++ intros F u' s' [<-|I] S' N'; [|now apply (F u' s')].
              rewrite W, P. split; discriminate.
           ++ intros F u' s' I. apply F. now right.
        -- exists false. split; [reflexivity|]. split; [discriminate|].
           intros F. destruct (F u s (or_introl eq_refl) S (eq_sym Eq)) as [_ C].
           now contradiction C.
      * exists false. split; [reflexivity|]. split; [discriminate|].
        intros F. destruct (F u s (or_introl eq_refl) S (eq_sym Eq)) as [C _].
        now contradiction C.
    + exists b. split; [exact E|]. rewrite Q. split.
      * intros F u' s' [<-|I] S' N'; [|now apply (F u' s')].
        rewrite S in S'. injection S' as <-. now contradiction Ne.
      * intros F u' s' I. apply F. now right.
Qed.

End Facts.

End AlignedFacts.

(** X10.  On a file whose utterances all have a speaker,
    [has_fully_aligned_speaker] answers whether every utterance of the file
    whose speaker has the name of the given speaker has both its word
    labels and its phone labels; speakers are told apart by name only, and
    a speaker without an utterance in the file counts as fully aligned. *)
Theorem fully_aligned_speaker :
  forall {num : Type} `{PyNumber num} (speaker : Speaker.t) (f : File.t num),
    forallb (fun u => Utterance.is_some (Utterance.speaker u))
      (Collection.iter (File.utterances f)) = true ->
    exists b,
      File.has_fully_aligned_speaker speaker f = Ok b
      /\ (b = true <->
          forall u s,
            In u (Collection.iter (File.utterances f)) ->
            Utterance.speaker u = Some s ->
            Speaker.name s = Speaker.name speaker ->
            Utterance.word_labels u <> None /\ Utterance.phone_labels u <> None)
      /\ ((forall u s,
              In u (Collection.iter (File.utterances f)) ->
              Utterance.speaker u = Some s ->
              Speaker.name s <> Speaker.name speaker) ->
          b = true).
Proof.
  intros num N speaker f A.
  destruct (AlignedFacts.fully_aligned_true speaker _ A) as (b & E & Q).
  exists b. split; [exact E|]. split; [exact Q|].
  intros D. apply Q. intros u s I S E'. now destruct (D u s I S).
Qed.

Lemma fully_aligned_speaker_witness :
  File.has_fully_aligned_speaker Examples.alice Examples.two_speaker_file = Ok false
  /\ File.has_fully_aligned_speaker (Speaker.init "carol") Examples.two_speaker_file
     = Ok true.
Proof.
  destruct (fully_aligned_speaker Examples.alice Examples.two_speaker_file eq_refl)
    as (b & E & _).
  destruct (fully_aligned_speaker (Speaker.init "carol") Examples.two_speaker_file
              eq_refl) as (b' & E' & _).
  pose proof E as B. vm_compute in B. injection B as B. subst b.
  pose proof E' as B'. vm_compute in B'. injection B' as B'. subst b'.
  split; [exact E | exact E'].
Defined.

(** X11.  The state [Utterance.__getstate__] answers holds everything of
    an utterance but its speaker and its file: restoring it into any
    utterance object gives an utterance with the same state and the same
    identifier, whose speaker is the one the object had; restoring into an
    object with the same speaker gives the utterance back.  Conversely
    the state of a restored object is the state that was restored. *)
Theorem utterance_state_round_trip :
  forall {num : Type} `{PyNumber num} (u self : Utterance.t num)
         (state : Utterance.State num),
    Utterance.getstate (Utterance.setstate (Utterance.getstate u) self)
    = Utterance.getstate u
    /\ Utterance.name (Utterance.setstate (Utterance.getstate u) self)
       = Utterance.name u
    /\ Utterance.speaker (Utterance.setstate (Utterance.getstate u) self)
       = Utterance.speaker self
    /\ (Utterance.speaker self = Utterance.speaker u ->
        Utterance.setstate (Utterance.getstate u) self = u)
    /\ Utterance.getstate (Utterance.setstate state self) = state.
Proof.
  intros num N u self state. destruct u, self, state. simpl.
  repeat split. intros ->. reflexivity.
Qed.

Lemma utterance_state_round_trip_witness :
  Utterance.setstate (Utterance.getstate Examples.utt_05_15) Examples.utt_05_25
  = Examples.utt_05_15
  /\ Utterance.speaker
       (Utterance.setstate (Utterance.getstate Examples.utt_05_15) Examples.utt_bob)
     = Some Examples.bob.
Proof.
  destruct (utterance_state_round_trip Examples.utt_05_15 Examples.utt_05_25
              (Utterance.getstate Examples.utt_bob)) as (_ & _ & _ & R & _).
  destruct (utterance_state_round_trip Examples.utt_05_15 Examples.utt_bob
              (Utterance.getstate Examples.utt_bob)) as (_ & _ & S & _).
  split; [exact (R eq_refl) | exact S].
Defined.

(** ** Restoring a file *)

Module RestoreFacts.

Import FileFacts SaveFacts OrderingFacts CollectionFacts.
Local Open Scope list_scope.

Section Facts.
Context {num : Type} `{PyNumber num}.

Lemma set_speaker_fields (s : Speaker.t) (u : Utterance.t num) :
  Utterance.name (File.set_speaker s u) = Utterance.name u
  /\ Utterance.speaker_name (File.set_speaker s u) = Utterance.speaker_name u
  /\ Utterance.speaker (File.set_speaker s u) = Some s
  /\ Utterance.getstate (File.set_speaker s u) = Utterance.getstate u.
Proof. now destruct u. Qed.

(** [relink] changes the speaker of an utterance and nothing else. *)
Lemma relink_fields (l : list (option Speaker.t)) (u : Utterance.t num) :
  Utterance.name (File.relink l u) = Utterance.name u
  /\ Utterance.speaker_name (File.relink l u) = Utterance.speaker_name u
  /\ Utterance.getstate (File.relink l u) = Utterance.getstate u.
Proof.
  revert u. induction l as [|[sp|] l IH]; intros u; [now repeat split| |].
  - unfold File.relink in *. cbn [fold_left].
    destruct (String.eqb (Speaker.name sp) (Utterance.speaker_name u)).
    + destruct (IH (File.set_speaker sp u)) as (A & B & C).
      destruct (set_speaker_fields sp u) as (A' & B' & _ & C').
      repeat split; congruence.
    + apply IH.
  - unfold File.relink in *. cbn [fold_left]. apply IH.
Qed.

(** The speaker after [relink] is the last speaker of the ordering with the
    [speaker_name] of the utterance, or the speaker the utterance had. *)
Lemma relink_speaker (so : list Speaker.t) (u : Utterance.t num) :
  (exists s,
      Utterance.speaker (File.relink (map Some so) u) = Some s
      /\ In s so
      /\ Speaker.name s = Utterance.speaker_name u)
  \/ (File.mem (Utterance.speaker_name u) (map Speaker.name so) = false
      /\ File.relink (map Some so) u = u).
Proof.
  revert u. induction so as [|sp so IH]; intros u.
  - right. now split.
  - unfold File.relink in *. cbn [fold_left map].
    destruct (String.eqb_spec (Speaker.name sp) (Utterance.speaker_name u)) as [E|Ne].
    + left. destruct (IH (File.set_speaker sp u)) as [(s & S & I & N)|(M & R)].
      * exists s. split; [exact S|]. split; [now right|].
        now rewrite N, (proj1 (proj2 (set_speaker_fields sp u))).
      * exists sp. rewrite R. split; [now destruct u|]. split; [now left | exact E].
    + destruct (IH u) as [(s & S & I & N)|(M & R)].
      * left. exists s. split; [exact S|]. split; [now right | exact N].
      * right. split; [|exact R].
        unfold File.mem in *. cbn [existsb map]. rewrite M.
        apply String.eqb_neq in Ne.
        rewrite String.eqb_sym in Ne. now rewrite Ne.
Qed.

Lemma relink_found (so : list Speaker.t) (u : Utterance.t num) :
  File.mem (Utterance.speaker_name u) (map Speaker.name so) = true ->
  exists s,
    Utterance.speaker (File.relink (map Some so) u) = Some s
    /\ In s so
    /\ Speaker.name s = Utterance.speaker_name u.
Proof.
  intros M. destruct (relink_speaker so u) as [F|[M' _]]; [exact F|].
  rewrite M in M'. discriminate M'.
Qed.

Lemma ordering_names_some (so : list Speaker.t) :
  File.ordering_names (map Some so) = map Speaker.name so
  /\ File.all_speakers (map Some so) = true.
Proof.
  induction so as [|s so [A B]]; [now split|].
  cbn. split; [now f_equal | exact B].
Qed.

(** The loop of [__setstate__], for an ordering that has a speaker for the
    [speaker_name] of every utterance: the ordering stays, and the
    utterances are filed, relinked, under their names. *)
Lemma setstate_loop (so : list Speaker.t) (us : list (Utterance.t num))
    (st : File.St num) :
  File.speaker_ordering (File.self st) = map Some so ->
  forallb (fun u => File.mem (Utterance.speaker_name u) (map Speaker.name so)) us
  = true ->
  File.for_each us
    (fun u =>
       File.bind File.get_self
         (fun f =>
            File.bind (File.add_utterance (File.relink (File.speaker_ordering f) u))
              (fun _ => File.ret false))) st
  = (Ok false,
     File.put
       (File.set_utterances
          (Collection.update_items Utterance.name
             (map (File.relink (map Some so)) us)
             (File.utterances (File.self st)))
          (File.self st)) st).
Proof.
  revert st. induction us as [|u us IH]; intros st O A.
  - cbn. unfold File.ret, File.put. destruct st as [f tr p]. now destruct f.
  - cbn [forallb] in A. apply andb_true_iff in A as [Au A].
    cbn [File.for_each]. unfold File.bind at 1 2. unfold File.get_self at 1.
    rewrite O.
    destruct (relink_found so u Au) as (s & S & I & N).
    destruct (ordering_names_some so) as [Names All].
    unfold File.bind at 1.
    rewrite (add_utterance_run _ s st S) by (now rewrite O).
    unfold File.ret at 1.
    assert (R : File.register s (File.store (File.relink (map Some so) u) (File.self st))
                = File.store (File.relink (map Some so) u) (File.self st)).
    { unfold File.register. cbn [File.store File.set_utterances File.speaker_ordering].
      rewrite O, Names.
      replace (File.mem (Speaker.name s) (map Speaker.name so)) with true; [reflexivity|].
      symmetry. apply mem_eqb. now apply in_map. }
    rewrite R. rewrite IH; [|now destruct st as [[] ? ?]|exact A].
    destruct st as [f tr p]. destruct f. reflexivity.
Qed.

Lemma in_setitem {T} (k k' : string) (v v' : T) (c : Collection.t T) :
  In (k', v') (Collection.setitem k v c) -> (k' = k /\ v' = v) \/ In (k', v') c.
Proof.
  induction c as [|[k0 v0] c IH]; simpl.
  - intros [[= <- <-]|[]]. now left.
  - destruct (String.eqb_spec k0 k) as [->|Ne].
    + intros [[= <- <-]|I]; [now left | right; now right].
    + intros [E|I]; [right; now left|].
      destruct (IH I) as [L|R]; [now left | right; now right].
Qed.

Lemma in_update_items {T} (name : T -> string) (xs : list T) (c : Collection.t T)
    (k : string) (v : T) :
  In (k, v) (Collection.update_items name xs c) ->
  In (k, v) c \/ (k = name v /\ In v xs).
Proof.
  revert c. induction xs as [|x xs IH]; intros c; [now left|].
  unfold Collection.update_items in *. cbn [fold_left]. intros I.
  destruct (IH _ I) as [L|[E R]].
  - destruct (in_setitem _ _ _ _ _ L) as [[-> ->]|L']; [|now left].
    right. split; [reflexivity | now left].
  - right. split; [exact E | now right].
Qed.

End Facts.

End RestoreFacts.

(** X12.  [File.__setstate__] restores the links between utterances and
    speakers by name.  When the speaker ordering of the state has a speaker
    for the [speaker_name] of every utterance of the state, restoring
    succeeds and touches nothing outside the object; the file gets the
    plain attributes and the speaker ordering of the state; every utterance
    of the state is filed under its identifier; and every utterance the file
    then holds is an utterance of the state, unchanged but for its speaker,
    which is a speaker of the ordering with the utterance's
    [speaker_name], whatever speaker the utterance had before. *)
Theorem file_setstate_relinks_by_name :
  forall {num : Type} `{PyNumber num} (state : File.State) (st : File.St num),
    forallb
      (fun u => File.mem (Utterance.speaker_name u)
                  (map Speaker.name (File.state_speaker_ordering state)))
      (Collection.iter (File.state_utterances state)) = true ->
    exists f',
      File.setstate state st = (Ok tt, File.put f' st)
      /\ File.name f' = File.state_name state
      /\ File.wav_path f' = File.state_wav_path state
      /\ File.text_path f' = File.state_text_path state
      /\ File.relative_path f' = File.state_relative_path state
      /\ File.aligned f' = File.state_aligned state
      /\ File.speaker_ordering f' = map Some (File.state_speaker_ordering state)
      /\ (forall u0,
            In u0 (Collection.iter (File.state_utterances state)) ->
            Collection.contains (Utterance.name u0) (File.utterances f') = true)
      /\ (forall k u,
            In (k, u) (File.utterances f') ->
            k = Utterance.name u
            /\ exists u0 s,
                 In u0 (Collection.iter (File.state_utterances state))
                 /\ Utterance.getstate u = Utterance.getstate u0
                 /\ Utterance.speaker u = Some s
                 /\ In s (File.state_speaker_ordering state)
                 /\ Speaker.name s = Utterance.speaker_name u).
Proof.
  intros num N state st A.
  unfold File.setstate. unfold File.bind at 1. cbn [File.set_self].
  unfold File.bind at 1.
  rewrite (RestoreFacts.setstate_loop (File.state_speaker_ordering state));
    [|reflexivity|exact A].
  cbn [File.self File.utterances File.put File.trace File.polls].
  eexists. split; [reflexivity|].
  cbn [File.set_utterances File.name File.wav_path File.text_path File.relative_path
       File.aligned File.speaker_ordering File.utterances].
  do 6 (split; [reflexivity|]). split.
  - intros u0 I. rewrite CollectionFacts.contains_update_items.
    apply orb_true_iff. left. apply FileFacts.mem_eqb.
    rewrite map_map. apply in_map_iff. exists u0. split; [|exact I].
    apply RestoreFacts.relink_fields.
  - intros k u I. apply RestoreFacts.in_update_items in I as [[]|[-> I]].
    split; [reflexivity|].
    apply in_map_iff in I as (u0 & <- & I0).
    rewrite forallb_forall in A.
    destruct (RestoreFacts.relink_found _ u0 (A u0 I0)) as (s & S & Is & Ns).
    exists u0, s. split; [exact I0|].
    destruct (RestoreFacts.relink_fields
                (map Some (File.state_speaker_ordering state)) u0) as (_ & Sn & G).
    split; [exact G|]. split; [exact S|]. split; [exact Is|]. now rewrite Sn.
Qed.

Lemma file_setstate_relinks_by_name_witness :
  exists f',
    File.setstate
      (File.mkState "rec" None None None false None None [Examples.alice]
         (File.keyed [Utterance.setstate (Utterance.getstate Examples.utt_05_15)
                        Examples.utt_bob]))
      (File.start Examples.nothing)
    = (Ok tt, File.put f' (File.start Examples.nothing))
    /\ map (fun u => Utterance.speaker u) (Collection.iter (File.utterances f'))
       = [Some Examples.alice].
Proof.
  destruct (file_setstate_relinks_by_name
              (File.mkState "rec" None None None false None None [Examples.alice]
                 (File.keyed
                    [Utterance.setstate (Utterance.getstate Examples.utt_05_15)
                       Examples.utt_bob]))
              (File.start Examples.nothing) ltac:(vm_compute; reflexivity))
    as (f' & S & _).
  exists f'. split; [exact S|].
  pose proof S as S'. vm_compute in S'. injection S' as S'. subst f'. reflexivity.
Defined.

(** ** Reading a transcription: plain transcripts, errors and the stop check *)

Module ReadFacts.

Import FileFacts SaveFacts ShapeFacts.
Local Open Scope list_scope.

Section Facts.
Context {num : Type} `{PyNumber num}.
Variable env : File.Env num.

Lemma text_type_is_lab (f : File.t num) (ty : string) :
  File.text_type env f = Some ty -> File.text_type_is env f ty = true.
Proof. unfold File.text_type_is. intros ->. apply String.eqb_refl. Qed.

(** The first utterance of a new file. *)
Lemma add_first_utterance (u : Utterance.t num) (r : Speaker.t) (f : File.t num) :
  File.is_new f = true ->
  Utterance.speaker u = Some r ->
  File.add_utterance u (File.start f)
  = (Ok tt, File.start (File.holding [Some r] (File.keyed [u]) f)).
Proof.
  intros New S. rewrite (add_utterance_run u r _ S).
  - destruct f as [n wp tp rp wi wf so us al]. unfold File.is_new in New.
    cbn in New. destruct so; [|discriminate New]. destruct us; [|discriminate New].
    reflexivity.
  - destruct f as [n wp tp rp wi wf so us al]. unfold File.is_new in New.
    cbn in New. destruct so; [|discriminate New]. reflexivity.
Qed.

Lemma add_speaker_keeps (s : option Speaker.t) (st : File.St num) :
  exists r f',
    File.add_speaker s st = (r, File.put f' st)
    /\ File.utterances f' = File.utterances (File.self st).
Proof.
  destruct st as [f tr p].
  cbv [File.add_speaker File.bind File.get_self File.set_self File.lift
       File.self File.trace File.polls File.put].
  match goal with
  | |- context [File.speaker_in ?a ?b] =>
      destruct (File.speaker_in a b) as [[|]|e]
  end; cbv [File.ret File.raise negb File.self File.trace File.polls];
    eexists; eexists; (split; [reflexivity|]); reflexivity.
Qed.

(** With a stop check that asks to stop at its next poll, the loop over
    the tiers leaves the utterances as they are. *)
Lemma tiers_stop (root : option Speaker.t) (check : nat -> bool)
    (tg : Praat.Textgrid num) :
  forall st,
    check (File.polls st) = true ->
    exists r st',
      File.for_each tg (File.load_tier env root (Some check)) st = (r, st')
      /\ File.utterances (File.self st') = File.utterances (File.self st)
      /\ File.trace st' = File.trace st.
Proof.
  induction tg as [|ti tg IH]; intros st C.
  - exists (Ok false), st. now repeat split.
  - cbn [File.for_each]. unfold File.bind at 1. unfold File.load_tier.
    destruct (String.eqb (PyStr.lower (Praat.tier_name ti)) "notes").
    { unfold File.ret at 1. apply IH. exact C. }
    destruct (Praat.tier_body ti) as [entryList|points].
    2:{ unfold File.ret at 1. apply IH. exact C. }
    unfold File.bind at 1.
    assert (S : exists r f',
               (match root with
                | Some r => File.ret r
                | None =>
                    File.bind
                      (File.add_speaker
                         (Some (Speaker.init (PyStr.strip (Praat.tier_name ti)))))
                      (fun _ => File.ret (Speaker.init (PyStr.strip (Praat.tier_name ti))))
                end) st = (r, File.put f' st)
               /\ File.utterances f' = File.utterances (File.self st)).
    { destruct root as [r|].
      - exists (Ok r), (File.self st). split; [now destruct st | reflexivity].
      - destruct (add_speaker_keeps
                    (Some (Speaker.init (PyStr.strip (Praat.tier_name ti)))) st)
          as (r & f' & A & U).
        unfold File.bind. rewrite A. destruct r as [[]|e].
        + eexists. exists f'. split; [reflexivity | exact U].
        + eexists. exists f'. split; [reflexivity | exact U]. }
    destruct S as (r & f' & -> & U). destruct r as [speaker|e].
    2:{ eexists. eexists. split; [reflexivity|]. split; [exact U | reflexivity]. }
    destruct entryList as [|[[b e] text] entryList].
    + cbn [File.for_each]. unfold File.ret at 1.
      destruct (IH (File.put f' st) C) as (r & st' & E & U' & T).
      exists r, st'. split; [exact E|]. split; [now rewrite U' | now rewrite T].
    + cbn [File.for_each]. unfold File.bind at 1. unfold File.load_entry.
      unfold File.bind at 1. unfold File.poll.
      change (File.polls (File.put f' st)) with (File.polls st). rewrite C.
      unfold File.ret. eexists. eexists. split; [reflexivity|].
      split; [exact U | reflexivity].
Qed.

(** [load_text] on a file whose transcription is a TextGrid. *)
Lemma load_text_textgrid (root : option Speaker.t) (sc : option (nat -> bool))
    (st : File.St num) (p : string) :
  File.text_type env (File.self st) = Some "textgrid" ->
  File.text_path (File.self st) = Some p ->
  File.load_text env root sc st
  = match File.openTextgrid env p with
    | inl diagnostic => (Err (TextGridParseError p diagnostic), st)
    | inr tg =>
        if Nat.eqb (List.length tg) 0
        then (Err (TextGridParseError p "Number of tiers parsed was zero"), st)
        else
          File.bind (File.num_channels env)
            (fun channels =>
               if (2 <? channels)%Z
               then File.raise (GenericException "More than two channels")
               else File.bind (File.for_each tg (File.load_tier env root sc))
                      (fun _ => File.ret tt)) st
    end.
Proof.
  intros Ty P. unfold File.load_text.
  unfold File.bind at 1. unfold File.get_self at 1.
  unfold File.text_type_is at 1. rewrite Ty. cbn [String.eqb Ascii.eqb Bool.eqb].
  rewrite (text_type_is_lab _ "textgrid" Ty).
  unfold File.bind at 1. unfold File.the_text_path. rewrite P.
  unfold File.ret at 1.
  destruct (File.openTextgrid env p) as [d|tg]; [reflexivity|].
  now destruct (Nat.eqb (List.length tg) 0).
Qed.

End Facts.

End ReadFacts.



(** X16.  The errors of [load_text].  A [lab] transcript that cannot be
    decoded raises [TextParseError] with the transcription path; a
    TextGrid that cannot be opened raises [TextGridParseError] with the
    path and the diagnostic, and one without tiers raises it with the
    message that no tier was parsed; a TextGrid for a sound file of more
    than two channels raises an exception after the audio information was
    looked up; a plain transcript, or a file without transcript, raises
    [AttributeError] when no root speaker is given.  In each case the file
    holds the utterances and the speakers it held before. *)
Theorem load_text_errors :
  forall {num : Type} `{PyNumber num} (env : File.Env num)
         (root_speaker : option Speaker.t) (stop_check : option (nat -> bool))
         (st : File.St num),
    (forall p,
        File.text_type env (File.self st) = Some "lab" ->
        File.text_path (File.self st) = Some p ->
        (File.helper_load_text env p = None ->
         File.load_text env root_speaker stop_check st = (Err (TextParseError p), st))
        /\ (forall text,
              File.helper_load_text env p = Some text ->
              File.load_text env None stop_check st = (Err AttributeError, st)))
    /\ (forall p,
          File.text_type env (File.self st) = Some "textgrid" ->
          File.text_path (File.self st) = Some p ->
          (forall diagnostic,
              File.openTextgrid env p = inl diagnostic ->
              File.load_text env root_speaker stop_check st
              = (Err (TextGridParseError p diagnostic), st))
          /\ (File.openTextgrid env p = inr [] ->
              File.load_text env root_speaker stop_check st
              = (Err (TextGridParseError p "Number of tiers parsed was zero"), st))
          /\ (forall tg,
                File.openTextgrid env p = inr tg ->
                tg <> [] ->
                (2 < File.info_value env WavInfo.num_channels 0 (File.self st))%Z ->
                File.load_text env root_speaker stop_check st
                = (Err (GenericException "More than two channels"),
                   File.loaded env st)
                /\ File.utterances (File.self (File.loaded env st))
                   = File.utterances (File.self st)
                /\ File.speaker_ordering (File.self (File.loaded env st))
                   = File.speaker_ordering (File.self st)))
    /\ (File.text_type env (File.self st) = None ->
        File.load_text env None stop_check st = (Err AttributeError, st)).
Proof.
  intros num N env root sc st. split; [|split].
  - intros p Ty P. split; [intros L | intros text L];
      unfold File.load_text; unfold File.bind at 1; unfold File.get_self at 1;
      rewrite (ReadFacts.text_type_is_lab env _ "lab" Ty);
      unfold File.bind at 1; unfold File.the_text_path; rewrite P;
      unfold File.ret at 1; rewrite L; reflexivity.
  - intros p Ty P. split; [|split].
    + intros d O. rewrite (ReadFacts.load_text_textgrid env _ _ _ p Ty P).
      now rewrite O.
    + intros O. rewrite (ReadFacts.load_text_textgrid env _ _ _ p Ty P).
      now rewrite O.
    + intros tg O Ne C. rewrite (ReadFacts.load_text_textgrid env _ _ _ p Ty P).
      rewrite O. destruct tg as [|ti tg]; [contradiction|].
      cbn [List.length Nat.eqb]. unfold File.bind at 1.
      rewrite FileFacts.num_channels_run.
      apply Z.ltb_lt in C. rewrite C. split; [reflexivity|].
      destruct (FileFacts.loaded_self env st) as (_ & _ & _ & O' & U & _).
      now split.
  - intros Ty. unfold File.load_text.
    unfold File.bind at 1. unfold File.get_self at 1.
    unfold File.text_type_is. rewrite Ty. reflexivity.
Qed.

Lemma load_text_errors_witness :
  File.load_text
    (File.mkEnv (fun _ => true) (fun _ => Examples.five_seconds) (fun _ => None)
       (fun _ => inl "boom") Examples.words)
    (Some Examples.alice) None (File.start Examples.anna_file)
  = (Err (TextParseError "/corpus/annaSession1.lab"), File.start Examples.anna_file)
  /\ File.load_text
       (File.mkEnv (fun _ => true) (fun _ => Examples.five_seconds) (fun _ => None)
          (fun _ => inl "boom") Examples.words)
       None None (File.start Examples.rec_file)
     = (Err (TextGridParseError "/corpus/spk7/rec.TextGrid" "boom"),
        File.start Examples.rec_file).
Proof.
  split.
  - exact (proj1 (proj1 (load_text_errors
                           (File.mkEnv (fun _ => true) (fun _ => Examples.five_seconds)
                              (fun _ => None) (fun _ => inl "boom") Examples.words)
                           (Some Examples.alice) None (File.start Examples.anna_file))
                    "/corpus/annaSession1.lab" eq_refl eq_refl) eq_refl).
  - exact (proj1 (proj1 (proj2 (load_text_errors
                           (File.mkEnv (fun _ => true) (fun _ => Examples.five_seconds)
                              (fun _ => None) (fun _ => inl "boom") Examples.words)
                           None None (File.start Examples.rec_file)))
                    "/corpus/spk7/rec.TextGrid" eq_refl eq_refl) "boom" eq_refl).
Defined.

(** X17.  A new file without transcript gets from [load_text] one
    utterance of the root speaker that has no text.  Such an utterance has
    no words for Kaldi ([text_for_scp] raises [AttributeError]), and [save]
    takes the transcript shortcut for it: it opens the output file for
    writing and then raises [TypeError], leaving no text written. *)
Theorem file_without_transcript :
  forall {num : Type} `{PyNumber num} (env : File.Env num)
         (stop_check : option (nat -> bool)) (od bod : option string)
         (f : File.t num) (root_speaker : Speaker.t),
    File.is_new f = true ->
    File.text_type env f = None ->
    let u := Utterance.init root_speaker (File.name f) None None (Some 0%Z) None in
    exists st1,
      File.load_text env (Some root_speaker) stop_check (File.start f) = (Ok tt, st1)
      /\ File.utterances (File.self st1) = [(Utterance.name u, u)]
      /\ File.speaker_ordering (File.self st1) = [Some root_speaker]
      /\ File.trace st1 = []
      /\ Utterance.text_for_scp u = Err AttributeError
      /\ forall path st2,
           File.construct_output_path env od bod true st1 = (Ok path, st2) ->
           File.save env od bod st1
           = (Err (TypeError "write() argument must be str, not None"),
              File.emitting [File.OpenWrite path] st2).
Proof.
  intros num N env sc od bod f r New Ty u.
  exists (File.start (File.holding [Some r] (File.keyed [u]) f)).
  split.
  { unfold File.load_text. unfold File.bind at 1. unfold File.get_self at 1.
    cbn [File.start File.self]. unfold File.text_type_is. rewrite Ty.
    unfold File.bind at 1. unfold File.need_speaker, File.ret at 1.
    now apply ReadFacts.add_first_utterance. }
  do 4 (split; [reflexivity|]).
  intros path st2 C. unfold File.save, File.bind at 1. unfold File.get_self at 1.
  replace (File.lab_utterance
             (File.self (File.start (File.holding [Some r] (File.keyed [u]) f))))
    with (Some u) by reflexivity.
  unfold File.save_lab. unfold File.bind at 1. rewrite C. reflexivity.
Qed.

Lemma file_without_transcript_witness :
  exists st1,
    File.load_text
      (File.mkEnv (fun _ => false) (fun _ => Examples.five_seconds) (fun _ => None)
         (fun _ => inl "boom") Examples.words)
      (Some Examples.alice) None (File.start Examples.rec_file) = (Ok tt, st1)
    /\ File.save
         (File.mkEnv (fun _ => false) (fun _ => Examples.five_seconds) (fun _ => None)
            (fun _ => inl "boom") Examples.words)
         (Some "/out") None st1
       = (Err (TypeError "write() argument must be str, not None"),
          File.emitting [File.MakeDirs "/out"; File.OpenWrite "/out/rec.lab"] st1).
Proof.
  destruct (file_without_transcript
              (File.mkEnv (fun _ => false) (fun _ => Examples.five_seconds)
                 (fun _ => None) (fun _ => inl "boom") Examples.words)
              None (Some "/out") None Examples.rec_file Examples.alice
              eq_refl eq_refl) as (st1 & L & _ & _ & _ & _ & S).
  exists st1. split; [exact L|].
  pose proof L as L'. vm_compute in L'. injection L' as L'. subst st1.
  exact (S "/out/rec.lab" _ eq_refl).
Defined.

(** X18.  When the stop check asks to stop at its first poll, reading a
    TextGrid adds no utterance, whatever the tiers hold and whether or not
    a root speaker is given. *)
Theorem load_text_stops_when_asked :
  forall {num : Type} `{PyNumber num} (env : File.Env num)
         (root_speaker : option Speaker.t) (check : nat -> bool) (st : File.St num),
    File.text_type env (File.self st) = Some "textgrid" ->
    check (File.polls st) = true ->
    exists r st',
      File.load_text env root_speaker (Some check) st = (r, st')
      /\ File.utterances (File.self st') = File.utterances (File.self st).
Proof.
  intros num N env root check st Ty C.
  destruct (File.text_path (File.self st)) as [p|] eqn:P.
  2:{ unfold File.load_text. unfold File.bind at 1. unfold File.get_self at 1.
      unfold File.text_type_is at 1. rewrite Ty. cbn [String.eqb Ascii.eqb Bool.eqb].
      rewrite (ReadFacts.text_type_is_lab env _ "textgrid" Ty).
      unfold File.bind at 1. unfold File.the_text_path. rewrite P.
      eexists. eexists. split; reflexivity. }
  rewrite (ReadFacts.load_text_textgrid env _ _ _ p Ty P).
  destruct (File.openTextgrid env p) as [d|tg];
    [eexists; eexists; split; reflexivity|].
  destruct (Nat.eqb (List.length tg) 0); [eexists; eexists; split; reflexivity|].
  unfold File.bind at 1. rewrite FileFacts.num_channels_run.
  destruct (FileFacts.loaded_self env st) as (_ & _ & _ & _ & U & _ & Pl).
  destruct (2 <? _)%Z; [eexists; eexists; split; [reflexivity | exact U]|].
  assert (C' : check (File.polls (File.loaded env st)) = true) by (now rewrite Pl).
  destruct (ReadFacts.tiers_stop env root check tg _ C') as (r & st' & E & U' & _).
  unfold File.bind. rewrite E. destruct r as [stop|e].
  - eexists. eexists. split; [reflexivity|]. now rewrite U'.
  - eexists. eexists. split; [reflexivity|]. now rewrite U'.
Qed.

Lemma load_text_stops_when_asked_witness :
  exists st',
    File.load_text (Examples.env_of Examples.tg_two) None (Some (fun _ => true))
      (File.start Examples.rec_file) = (Ok tt, st')
    /\ File.utterances (File.self st') = [].
Proof.
  destruct (load_text_stops_when_asked (Examples.env_of Examples.tg_two) None
              (fun _ => true) (File.start Examples.rec_file) eq_refl eq_refl)
    as (r & st' & L & U).
  exists st'. split; [|exact U].
  pose proof L as L'. vm_compute in L'. injection L' as R S. subst r. exact L.
Defined.

(** ** Writing: aligned files and utterances without a tier *)

Module TierFacts.

Import FileFacts SaveFacts CollectionFacts.
Local Open Scope list_scope.

Section Facts.
Context {num : Type} `{PyNumber num}.
Variable env : File.Env num.

(** The general case of [save], up to the filling of the tiers. *)
Lemma save_textgrid_general (od bod : option string) (st : File.St num) :
  File.can_place od (File.self st) = true ->
  exists path evs,
    File.construct_output_path env od bod false st = (Ok path, File.emitting evs st)
    /\ File.saved_documents evs = []
    /\ File.written_texts evs = []
    /\ File.save_textgrid env od bod st
       = match
           File.fill_tiers (File.aligned (File.self st))
             (Collection.iter (File.utterances (File.self st)))
             (File.build_tiers (File.duration_value env (File.self st))
                (File.speaker_ordering (File.self st)))
         with
         | Ok tiers =>
             (Ok tt,
              File.emitting
                [File.SaveTextgrid path
                   (Praat.mkDocument (Collection.iter tiers)
                      (File.duration_value env (File.self st)))]
                (File.loaded env (File.emitting evs st)))
         | Err e => (Err e, File.loaded env (File.emitting evs st))
         end.
Proof.
  intros P.
  destruct (construct_output_path_run env od bod false st P) as (path & evs & E & S & W).
  exists path, evs. split; [exact E|]. split; [exact S|]. split; [exact W|].
  unfold File.save_textgrid, File.bind. rewrite E, duration_run.
  unfold File.get_self.
  destruct (loaded_self env (File.emitting evs st)) as (_ & _ & _ & O & U & A & _).
  rewrite O, U, A. cbn [File.emitting File.self].
  destruct (File.fill_tiers _ _ _); reflexivity.
Qed.

Lemma forallb_same {A} (f g : A -> bool) (l : list A) :
  (forall x, f x = g x) -> forallb f l = forallb g l.
Proof.
  intros E. induction l as [|x l IH]; [reflexivity|].
  cbn. now rewrite E, IH.
Qed.

(** The tiers [save] starts from are empty, and there is one for each
    name of the ordering. *)
Lemma build_tiers_from_empty (d : num) (l : list (option Speaker.t))
    (acc : Collection.t (Praat.IntervalTier num)) :
  (forall kv, In kv acc -> Praat.entryList (snd kv) = []) ->
  (forall kv,
      In kv
        (fold_left
           (fun tiers speaker =>
              Collection.setitem (File.tier_key speaker)
                (Praat.mkIntervalTier (File.tier_key speaker) [] (of_int 0) d) tiers)
           l acc) ->
      Praat.entryList (snd kv) = [])
  /\ forall k,
       Collection.contains k
         (fold_left
            (fun tiers speaker =>
               Collection.setitem (File.tier_key speaker)
                 (Praat.mkIntervalTier (File.tier_key speaker) [] (of_int 0) d) tiers)
            l acc)
       = File.mem k (File.ordering_names l) || Collection.contains k acc.
Proof.
  revert acc. induction l as [|s l IH]; intros acc E.
  - split; [exact E | reflexivity].
  - cbn [fold_left]. destruct (IH (Collection.setitem (File.tier_key s)
                     (Praat.mkIntervalTier (File.tier_key s) [] (of_int 0) d) acc))
      as [A B].
    + intros [k v] I. apply RestoreFacts.in_setitem in I as [[-> ->]|I]; [reflexivity|].
      now apply (E (k, v)).
    + split; [exact A|]. intros k. rewrite B.
      unfold File.ordering_names, File.mem. cbn [map existsb].
      destruct (String.eqb_spec k (File.tier_key s)) as [->|Ne].
      * rewrite contains_setitem. now rewrite orb_true_r.
      * rewrite contains_setitem_other by exact Ne. reflexivity.
Qed.

Lemma contains_getitem {T} (k : string) (c : Collection.t T) :
  Collection.contains k c = true -> exists v, Collection.getitem k c = Ok v.
Proof. rewrite contains_keys. apply getitem_present. Qed.

(** Filling stops with [KeyError] at the first utterance whose key has no
    tier. *)
Lemma fill_tiers_uncovered (us : list (Utterance.t num)) :
  forall tiers : Collection.t (Praat.IntervalTier num),
    forallb (fun u => Collection.contains (File.tier_key (Utterance.speaker u)) tiers) us
    = false ->
    exists u,
      In u us
      /\ Collection.contains (File.tier_key (Utterance.speaker u)) tiers = false
      /\ File.fill_tiers false us tiers
         = Err (KeyError (File.tier_key (Utterance.speaker u))).
Proof.
  induction us as [|u us IH]; intros tiers C; [discriminate C|].
  cbn [forallb] in C. cbn [File.fill_tiers negb].
  destruct (Collection.contains (File.tier_key (Utterance.speaker u)) tiers) eqn:K.
  - cbn [andb] in C. destruct (contains_getitem _ _ K) as [ti G]. rewrite G.
    set (tiers' := Collection.setitem (File.tier_key (Utterance.speaker u))
                     (Praat.append_entry (File.interval_of u) ti) tiers).
    assert (Same : forall k, Collection.contains k tiers' = Collection.contains k tiers).
    { intros k. unfold tiers'.
      destruct (String.eqb_spec k (File.tier_key (Utterance.speaker u))) as [->|Ne].
      - now rewrite contains_setitem, K.
      - now apply contains_setitem_other. }
    destruct (IH tiers') as (u' & I & K' & F).
    + rewrite (forallb_same _ _ _ (fun x => Same (File.tier_key (Utterance.speaker x)))).
      exact C.
    + exists u'. split; [now right|]. split; [now rewrite <- Same | exact F].
  - exists u. split; [now left|]. split; [exact K|].
    now rewrite (getitem_contains _ _ K).
Qed.

End Facts.

End TierFacts.





(** ** Words for Kaldi and the words of a speaker *)

Module WordFacts.

Local Open Scope list_scope.

Lemma in_set_add (x y : string) (l : list string) :
  In x (Utterance.set_add y l) <-> x = y \/ In x l.
Proof.
  unfold Utterance.set_add. destruct (existsb (String.eqb y) l) eqn:E.
  - split; [now right|]. intros [->|I]; [|exact I].
    apply existsb_exists in E as (z & I & Q). apply String.eqb_eq in Q. now subst.
  - rewrite in_app_iff. cbn. split.
    + intros [I|[<-|[]]]; [now right | now left].
    + intros [->|I]; [right; now left | now left].
Qed.

Lemma nodup_set_add (y : string) (l : list string) :
  NoDup l -> NoDup (Utterance.set_add y l).
Proof.
  intros N. unfold Utterance.set_add. destruct (existsb (String.eqb y) l) eqn:E.
  - exact N.
  - apply NoDup_app; [exact N | repeat constructor; intros [] |].
    intros x I [Q|[]]. subst x.
    assert (T : existsb (String.eqb y) l = true).
    { apply existsb_exists. exists y. split; [exact I | apply String.eqb_refl]. }
    rewrite T in E. discriminate E.
Qed.

(** The inner loop of [text_int_for_scp]: the integers are appended, and
    the word is added to the set when one of them is the integer of the
    out-of-vocabulary word. *)
Lemma lookup_loop_run (data : Utterance.DictionaryData) (t : string)
    (lookup : list Z) (seen : list string) (acc : list Z) :
  Utterance.lookup_loop data t lookup (seen, acc)
  = (if existsb (fun w => Z.eqb w (Utterance.oov_int data)) lookup
     then Utterance.set_add t seen else seen,
     acc ++ lookup).
Proof.
  revert seen acc. induction lookup as [|w lookup IH]; intros seen acc.
  - cbn. now rewrite app_nil_r.
  - cbn [Utterance.lookup_loop fst snd existsb]. rewrite IH.
    rewrite <- app_assoc. cbn [app]. f_equal.
    destruct (Z.eqb w (Utterance.oov_int data)); cbn [orb]; [|reflexivity].
    destruct (existsb _ lookup); [|reflexivity].
    unfold Utterance.set_add at 1.
    replace (existsb (String.eqb t) (Utterance.set_add t seen)) with true; [reflexivity|].
    symmetry. apply existsb_exists. exists t.
    split; [apply in_set_add; now left | apply String.eqb_refl].
Qed.

Lemma words_loop_run (data : Utterance.DictionaryData) (words : list string)
    (seen : list string) (acc : list Z) :
  snd (Utterance.words_loop data words (seen, acc))
  = acc ++ flat_map (Utterance.to_int data) words
  /\ (forall w,
        In w (fst (Utterance.words_loop data words (seen, acc)))
        <-> In w seen
            \/ (In w words /\ In (Utterance.oov_int data) (Utterance.to_int data w)))
  /\ (NoDup seen -> NoDup (fst (Utterance.words_loop data words (seen, acc)))).
Proof.
  revert seen acc. induction words as [|t words IH]; intros seen acc.
  - cbn. rewrite app_nil_r. split; [reflexivity|]. split; [|trivial].
    intros w. split; [now left | now intros [I|[[] _]]].
  - unfold Utterance.words_loop in *. cbn [fold_left flat_map].
    rewrite lookup_loop_run.
    set (seen' := if existsb (fun w => Z.eqb w (Utterance.oov_int data))
                       (Utterance.to_int data t)
                  then Utterance.set_add t seen else seen).
    destruct (IH seen' (acc ++ Utterance.to_int data t)) as (A & B & C).
    split; [now rewrite A, <- app_assoc|]. split.
    + intros w. rewrite B. unfold seen'.
      destruct (existsb _ (Utterance.to_int data t)) eqn:E.
      * apply existsb_exists in E as (z & Iz & Q). apply Z.eqb_eq in Q. subst z.
        rewrite in_set_add. cbn [In]. split.
        -- intros [[->|I]|[I O]]; [right; split; [now left | exact Iz] | now left|].
           right. split; [now right | exact O].
        -- intros [I|[[<-|I] O]]; [left; now right | left; now left|].
           right. now split.
      * cbn [In]. split.
        -- intros [I|[I O]]; [now left|]. right. split; [now right | exact O].
        -- intros [I|[[<-|I] O]]; [now left| |right; now split].
           exfalso.
           assert (T : existsb (fun w => Z.eqb w (Utterance.oov_int data))
                         (Utterance.to_int data t) = true).
           { apply existsb_exists. eexists. split; [exact O | apply Z.eqb_refl]. }
           rewrite T in E. discriminate E.
    + intros Nd. apply C. unfold seen'.
      destruct (existsb _ (Utterance.to_int data t)); [|exact Nd].
      now apply nodup_set_add.
Qed.

End WordFacts.

(** X21.  [text_int_for_scp].  For a speaker without dictionary data the
    answer is [None] and the utterance stays as it is.  With dictionary
    data the answer is the integers of the words of the text, in order, and
    the utterance changes in its out-of-vocabulary words only: afterwards
    these are the ones it had and the words of the text whose integers
    include the integer of the out-of-vocabulary word, none of them twice.
    An utterance without text raises [AttributeError]. *)
Theorem text_int_collects_oovs :
  forall {num : Type} `{PyNumber num}
         (dictionary_data : Speaker.t -> option Utterance.DictionaryData)
         (u : Utterance.t num) (s : Speaker.t),
    Utterance.speaker u = Some s ->
    (dictionary_data s = None ->
     Utterance.text_int_for_scp dictionary_data u = (Ok None, u))
    /\ (forall data,
          dictionary_data s = Some data ->
          Utterance.text u = None ->
          Utterance.text_int_for_scp dictionary_data u = (Err AttributeError, u))
    /\ (forall data text,
          dictionary_data s = Some data ->
          Utterance.text u = Some text ->
          exists u',
            Utterance.text_int_for_scp dictionary_data u
            = (Ok (Some (flat_map (Utterance.to_int data) (PyStr.split text))), u')
            /\ u' = Utterance.set_oovs (Utterance.oovs u') u
            /\ (forall w,
                  In w (Utterance.oovs u')
                  <-> In w (Utterance.oovs u)
                      \/ (In w (PyStr.split text)
                          /\ In (Utterance.oov_int data) (Utterance.to_int data w)))
            /\ (NoDup (Utterance.oovs u) -> NoDup (Utterance.oovs u'))).
Proof.
  intros num N dd u s S. unfold Utterance.text_int_for_scp. rewrite S.
  split; [|split].
  - now intros ->.
  - intros data -> T. unfold Utterance.text_for_scp. now rewrite T.
  - intros data text -> T. unfold Utterance.text_for_scp. rewrite T.
    destruct (WordFacts.words_loop_run data (PyStr.split text) (Utterance.oovs u) [])
      as (A & B & C).
    destruct (Utterance.words_loop data (PyStr.split text) (Utterance.oovs u, []))
      as [seen new_text] eqn:W.
    cbn [fst snd app] in A, B, C. subst new_text.
    eexists. split; [reflexivity|]. split; [reflexivity|].
    split; [exact B | exact C].
Qed.

Lemma text_int_collects_oovs_witness :
  Utterance.text_int_for_scp
    (fun _ =>
       Some (Utterance.mkDictionaryData
               (fun w => if String.eqb w "hello" then [1%Z; 2%Z] else [0%Z]) 0%Z))
    Examples.utt_text
  = (Ok (Some [1%Z; 2%Z; 0%Z]), Utterance.set_oovs ["world"] Examples.utt_text).
Proof.
  destruct (proj2 (proj2 (text_int_collects_oovs
              (fun _ =>
                 Some (Utterance.mkDictionaryData
                         (fun w => if String.eqb w "hello" then [1%Z; 2%Z] else [0%Z])
                         0%Z))
              Examples.utt_text Examples.alice eq_refl))
              _ "hello world" eq_refl eq_refl) as (u' & E & _).
  pose proof E as E'. vm_compute in E'. injection E' as E'. subst u'. exact E.
Defined.

Module SpeakerFacts.

Import FileFacts SaveFacts CollectionFacts WordFacts.
Local Open Scope list_scope.

Section Facts.
Context {num : Type} `{PyNumber num}.

(** The loop of [merge] is [update] from the other collection, when that
    one holds its utterances under their names. *)
Lemma merge_loop (us : list (Utterance.t num)) (s : SpeakerObj.t num) :
  SpeakerObj.fields (fold_left (fun acc u => SpeakerObj.add_utterance u acc) us s)
  = SpeakerObj.fields s
  /\ SpeakerObj.word_counts (fold_left (fun acc u => SpeakerObj.add_utterance u acc) us s)
     = SpeakerObj.word_counts s
  /\ SpeakerObj.dictionary (fold_left (fun acc u => SpeakerObj.add_utterance u acc) us s)
     = SpeakerObj.dictionary s
  /\ SpeakerObj.utterances (fold_left (fun acc u => SpeakerObj.add_utterance u acc) us s)
     = Collection.update_items Utterance.name us (SpeakerObj.utterances s).
Proof.
  revert s. induction us as [|u us IH]; intros s; [now repeat split|].
  cbn [fold_left]. destruct (IH (SpeakerObj.add_utterance u s)) as (A & B & C & D).
  rewrite A, B, C, D. now repeat split.
Qed.

Lemma update_items_update (other c : Collection.t (Utterance.t num)) :
  forallb (fun kv => String.eqb (fst kv) (Utterance.name (snd kv))) other = true ->
  Collection.update_items Utterance.name (Collection.iter other) c
  = Collection.update other c.
Proof.
  revert c. induction other as [|[k u] other IH]; intros c K; [reflexivity|].
  cbn [forallb fst snd] in K. apply andb_true_iff in K as [E K].
  apply String.eqb_eq in E. subst k.
  unfold Collection.update_items, Collection.update, Collection.iter in *.
  cbn [map fold_left fst snd]. now apply IH.
Qed.

(** *** Counting words *)

Lemma counted_count (w x : string) (counts : list (string * nat)) :
  SpeakerObj.counted x (SpeakerObj.count w counts)
  = (SpeakerObj.counted x counts + if String.eqb w x then 1 else 0)%nat.
Proof.
  induction counts as [|[k n] counts IH]; cbn.
  - now destruct (String.eqb w x).
  - destruct (String.eqb_spec k w) as [->|Ne]; cbn.
    + destruct (String.eqb w x); lia.
    + destruct (String.eqb_spec k x) as [->|Nx].
      * apply String.eqb_neq in Ne. rewrite String.eqb_sym in Ne. rewrite Ne. lia.
      * exact IH.
Qed.

Lemma keys_count (w : string) (counts : list (string * nat)) :
  map fst (SpeakerObj.count w counts) = Utterance.set_add w (map fst counts).
Proof.
  unfold Utterance.set_add.
  induction counts as [|[k n] counts IH]; cbn; [reflexivity|].
  rewrite (String.eqb_sym w k).
  destruct (String.eqb k w); cbn; [reflexivity|].
  rewrite IH. now destruct (existsb (String.eqb w) (map fst counts)).
Qed.

Lemma count_all_run (ws : list string) (counts : list (string * nat)) :
  (forall x,
      SpeakerObj.counted x (SpeakerObj.count_all ws counts)
      = (SpeakerObj.counted x counts + count_occ string_dec ws x)%nat)
  /\ map fst (SpeakerObj.count_all ws counts)
     = SpeakerObj.set_update ws (map fst counts).
Proof.
  revert counts. induction ws as [|w ws IH]; intros counts.
  - split; [intros x; cbn; lia | reflexivity].
  - unfold SpeakerObj.count_all, SpeakerObj.set_update in *. cbn [fold_left].
    destruct (IH (SpeakerObj.count w counts)) as [A B]. split.
    + intros x. rewrite A, counted_count. cbn [count_occ].
      destruct (string_dec w x) as [->|Ne].
      * rewrite String.eqb_refl. lia.
      * apply String.eqb_neq in Ne. rewrite Ne. lia.
    + now rewrite B, keys_count.
Qed.

Lemma in_set_update (x : string) (xs l : list string) :
  In x (SpeakerObj.set_update xs l) <-> In x xs \/ In x l.
Proof.
  revert l. induction xs as [|y xs IH]; intros l.
  - cbn. tauto.
  - unfold SpeakerObj.set_update in *. cbn [fold_left]. rewrite IH, in_set_add.
    cbn [In]. split; [intros [I|[->|I]] | intros [[->|I]|I]]; tauto.
Qed.

Lemma nodup_set_update (xs l : list string) :
  NoDup l -> NoDup (SpeakerObj.set_update xs l).
Proof.
  revert l. induction xs as [|y xs IH]; intros l Nd; [exact Nd|].
  unfold SpeakerObj.set_update in *. cbn [fold_left]. apply IH.
  now apply nodup_set_add.
Qed.

(** The first loop of [word_set] counts the words of every text. *)
Lemma count_texts_run (us : list (Utterance.t num)) (counts : list (string * nat)) :
  forallb (fun u => Utterance.is_some (Utterance.text u)) us = true ->
  SpeakerObj.count_texts us counts
  = (Ok (SpeakerObj.count_all
           (flat_map (fun u => match Utterance.text u with
                               | Some text => PyStr.split text
                               | None => []
                               end) us) counts),
     SpeakerObj.count_all
       (flat_map (fun u => match Utterance.text u with
                           | Some text => PyStr.split text
                           | None => []
                           end) us) counts).
Proof.
  revert counts. induction us as [|u us IH]; intros counts A; [reflexivity|].
  cbn [forallb] in A. apply andb_true_iff in A as [Au A].
  cbn [SpeakerObj.count_texts flat_map].
  destruct (Utterance.text u) as [text|]; [|discriminate Au].
  rewrite (IH _ A). unfold SpeakerObj.count_all. now rewrite fold_left_app.
Qed.

Lemma count_texts_fails (us : list (Utterance.t num)) (counts : list (string * nat)) :
  forallb (fun u => Utterance.is_some (Utterance.text u)) us = false ->
  exists counts', SpeakerObj.count_texts us counts = (Err AttributeError, counts').
Proof.
  revert counts. induction us as [|u us IH]; intros counts A; [discriminate A|].
  cbn [forallb] in A. cbn [SpeakerObj.count_texts].
  destruct (Utterance.text u) as [text|]; [|now eexists].
  cbn in A. now apply IH.
Qed.

(** The second loop of [word_set]. *)
Lemma lookup_fold (lookup : string -> list string) (keys words : list string) :
  (forall w,
      In w (fold_left (fun words word => SpeakerObj.set_update (lookup word) words)
              keys words)
      <-> In w words \/ exists t, In t keys /\ In w (lookup t))
  /\ (NoDup words ->
      NoDup (fold_left (fun words word => SpeakerObj.set_update (lookup word) words)
               keys words)).
Proof.
  revert words. induction keys as [|k keys IH]; intros words.
  - cbn. split; [|trivial]. intros w. split; [now left|].
    now intros [I|(t & [] & _)].
  - cbn [fold_left]. destruct (IH (SpeakerObj.set_update (lookup k) words)) as [A B].
    split.
    + intros w. rewrite A, in_set_update. cbn [In]. split.
      * intros [[I|I]|(t & I & L)]; [right; exists k; now split; [left|] | now left|].
        right. exists t. split; [now right | exact L].
      * intros [I|(t & [<-|I] & L)]; [left; now right | left; now left|].
        right. now exists t.
    + intros Nd. apply B. now apply nodup_set_update.
Qed.

Lemma add_fold (keys words : list string) :
  fold_left (fun words word => Utterance.set_add word words) keys words
  = SpeakerObj.set_update keys words.
Proof. reflexivity. Qed.

End Facts.

End SpeakerFacts.

(** X22.  [Speaker.merge] moves the utterances of another speaker (one
    that holds them under their identifiers) to this one: afterwards the
    other speaker has no utterance; this speaker holds, under every
    identifier the other one had, the utterance the other one had there,
    and every other identifier as before; nothing else of the two speakers
    changes, and the utterances are taken as they are. *)
Theorem speaker_merge_takes_all :
  forall {num : Type} `{PyNumber num} (speaker self : SpeakerObj.t num),
    File.distinct (Collection.keys (SpeakerObj.utterances speaker)) = true ->
    forallb (fun kv => String.eqb (fst kv) (Utterance.name (snd kv)))
      (SpeakerObj.utterances speaker) = true ->
    exists self' speaker',
      SpeakerObj.merge speaker self = (self', speaker')
      /\ SpeakerObj.num_utterances speaker' = 0
      /\ SpeakerObj.fields speaker' = SpeakerObj.fields speaker
      /\ SpeakerObj.fields self' = SpeakerObj.fields self
      /\ SpeakerObj.word_counts self' = SpeakerObj.word_counts self
      /\ (forall k,
            Collection.getitem k (SpeakerObj.utterances self')
            = if Collection.contains k (SpeakerObj.utterances speaker)
              then Collection.getitem k (SpeakerObj.utterances speaker)
              else Collection.getitem k (SpeakerObj.utterances self))
      /\ (forall k,
            Collection.contains k (SpeakerObj.utterances self')
            = Collection.contains k (SpeakerObj.utterances speaker)
              || Collection.contains k (SpeakerObj.utterances self))
      /\ (File.distinct (Collection.keys (SpeakerObj.utterances self)) = true ->
          File.distinct (Collection.keys (SpeakerObj.utterances self')) = true).
Proof.
  intros num N speaker self D K. unfold SpeakerObj.merge.
  destruct (SpeakerFacts.merge_loop (Collection.iter (SpeakerObj.utterances speaker)) self)
    as (F & W & _ & U).
  rewrite (SpeakerFacts.update_items_update _ _ K) in U.
  eexists. eexists. split; [reflexivity|].
  split; [reflexivity|]. split; [reflexivity|]. split; [exact F|].
  split; [exact W|]. rewrite U. split; [|split].
  - intros k. now apply CollectionFacts.getitem_update.
  - intros k. apply CollectionFacts.contains_update.
  - apply CollectionFacts.distinct_update.
Qed.

Lemma speaker_merge_takes_all_witness :
  exists self' speaker',
    SpeakerObj.merge
      (SpeakerObj.add_utterance Examples.utt_bob (SpeakerObj.init "bob"))
      (SpeakerObj.add_utterance Examples.utt_05_15 (SpeakerObj.init "alice"))
    = (self', speaker')
    /\ SpeakerObj.num_utterances speaker' = 0
    /\ Collection.keys (SpeakerObj.utterances self')
       = ["alice-rec-0-5-1-5"; "bob-rec-0-5-1-5"].
Proof.
  destruct (speaker_merge_takes_all
              (SpeakerObj.add_utterance Examples.utt_bob (SpeakerObj.init "bob"))
              (SpeakerObj.add_utterance Examples.utt_05_15 (SpeakerObj.init "alice"))
              ltac:(vm_compute; reflexivity) ltac:(vm_compute; reflexivity))
    as (self' & speaker' & M & Z & _).
  exists self', speaker'. split; [exact M|]. split; [exact Z|].
  pose proof M as M'. vm_compute in M'. injection M' as A B. subst self'.
  vm_compute. reflexivity.
Defined.

(** X23.  [Speaker.word_set].  When every utterance of the speaker has a
    text, the call answers a set without repetition and leaves in
    [word_counts] the number of occurrences of every word of the texts.
    Without a dictionary the set holds exactly the words of the texts; with
    a dictionary it holds the special and clitic tokens of the dictionary
    and what the dictionary looks up for the words of the texts.  When an
    utterance has no text the call raises [AttributeError]. *)
Theorem speaker_word_set :
  forall {num : Type} `{PyNumber num} (s : SpeakerObj.t num),
    (SpeakerObj.has_texts s = true ->
     exists ws s',
       SpeakerObj.word_set s = (Ok ws, s')
       /\ NoDup ws
       /\ (forall w,
             In w ws
             <-> match SpeakerObj.dictionary s with
                 | None => In w (SpeakerObj.tokens s)
                 | Some d =>
                     In w (SpeakerObj.specials_set d)
                     \/ In w (SpeakerObj.clitic_set d)
                     \/ exists t,
                          In t (SpeakerObj.tokens s) /\ In w (SpeakerObj._lookup d t)
                 end)
       /\ (forall w,
             SpeakerObj.counted w (SpeakerObj.word_counts s')
             = count_occ string_dec (SpeakerObj.tokens s) w)
       /\ SpeakerObj.utterances s' = SpeakerObj.utterances s
       /\ SpeakerObj.fields s' = SpeakerObj.fields s)
    /\ (SpeakerObj.has_texts s = false ->
        exists s', SpeakerObj.word_set s = (Err AttributeError, s')).
Proof.
  intros num N s. unfold SpeakerObj.has_texts, SpeakerObj.word_set. split.
  - intros T. rewrite (SpeakerFacts.count_texts_run _ [] T).
    fold (SpeakerObj.tokens s).
    destruct (SpeakerFacts.count_all_run (SpeakerObj.tokens s) []) as [Cn Ks].
    eexists. eexists. split; [reflexivity|].
    cbn [SpeakerObj.set_word_counts SpeakerObj.word_counts SpeakerObj.utterances
         SpeakerObj.fields].
    rewrite Ks. cbn [map].
    assert (Tk : forall t, In t (SpeakerObj.set_update (SpeakerObj.tokens s) [])
                           <-> In t (SpeakerObj.tokens s)).
    { intros t. rewrite SpeakerFacts.in_set_update. cbn. tauto. }
    destruct (SpeakerObj.dictionary s) as [d|].
    + destruct (SpeakerFacts.lookup_fold (SpeakerObj._lookup d)
                  (SpeakerObj.set_update (SpeakerObj.tokens s) [])
                  (SpeakerObj.set_update (SpeakerObj.clitic_set d)
                     (SpeakerObj.set_update (SpeakerObj.specials_set d) [])))
        as [A B].
      split; [|split; [|split; [exact Cn | now split]]].
      * apply B. apply SpeakerFacts.nodup_set_update.
        apply SpeakerFacts.nodup_set_update. constructor.
      * intros w. rewrite A. rewrite !SpeakerFacts.in_set_update. cbn [In]. split.
        -- intros [[I|[I|[]]]|(t & I & L)]; [right; now left | now left|].
           right. right. exists t. split; [now apply Tk | exact L].
        -- intros [I|[I|(t & I & L)]]; [left; right; now left | left; now left|].
           right. exists t. split; [now apply Tk | exact L].
    + rewrite SpeakerFacts.add_fold.
      split; [|split; [|split; [exact Cn | now split]]].
      * apply SpeakerFacts.nodup_set_update. constructor.
      * intros w. rewrite SpeakerFacts.in_set_update. cbn [In]. rewrite Tk. tauto.
  - intros T.
    destruct (SpeakerFacts.count_texts_fails _ [] T) as (counts' & E).
    rewrite E. now eexists.
Qed.

Lemma speaker_word_set_witness :
  fst (SpeakerObj.word_set
         (SpeakerObj.add_utterance Examples.utt_text (SpeakerObj.init "alice")))
  = Ok ["hello"; "world"]
  /\ fst (SpeakerObj.word_set
            (SpeakerObj.add_utterance Examples.utt_bob (SpeakerObj.init "bob")))
     = Err AttributeError.
Proof.
  destruct (speaker_word_set
              (SpeakerObj.add_utterance Examples.utt_text (SpeakerObj.init "alice")))
    as [A _].
  destruct (A eq_refl) as (ws & s' & E & _).
  destruct (speaker_word_set
              (SpeakerObj.add_utterance Examples.utt_bob (SpeakerObj.init "bob")))
    as [_ B].
  destruct (B eq_refl) as (s'' & E').
  rewrite E, E'. cbn [fst]. split; [|reflexivity].
  pose proof E as Q. vm_compute in Q. injection Q as Q _. now subst ws.
Defined.

(** X24.  [Utterance.set_speaker] on an utterance of a file whose speaker
    ordering holds speakers only: the utterance gets the new speaker but
    keeps its [speaker_name] and with it its identifier; under that
    identifier the new speaker and the file hold the utterance as it now
    is; the new speaker is in the speaker ordering of the file afterwards;
    nothing happens outside the objects. *)
Theorem utterance_set_speaker :
  forall {num : Type} `{PyNumber num} (speaker : SpeakerObj.t num)
         (utterance : Utterance.t num) (st : File.St num),
    File.all_speakers (File.speaker_ordering (File.self st)) = true ->
    exists u' speaker' st',
      SpeakerObj.set_speaker speaker utterance st = (Ok (u', speaker'), st')
      /\ Utterance.speaker u' = Some (SpeakerObj.fields speaker)
      /\ Utterance.speaker_name u' = Utterance.speaker_name utterance
      /\ Utterance.name u' = Utterance.name utterance
      /\ Collection.getitem (Utterance.name utterance) (SpeakerObj.utterances speaker')
         = Ok u'
      /\ Collection.getitem (Utterance.name utterance) (File.utterances (File.self st'))
         = Ok u'
      /\ File.mem (SpeakerObj.name speaker)
           (File.ordering_names (File.speaker_ordering (File.self st'))) = true
      /\ File.trace st' = File.trace st.
Proof.
  intros num N speaker u st A. unfold SpeakerObj.set_speaker, File.bind.
  destruct (RestoreFacts.set_speaker_fields (SpeakerObj.fields speaker) u)
    as (Nm & Sn & Sp & _).
  rewrite (FileFacts.add_utterance_run _ _ st Sp A). unfold File.ret.
  eexists. eexists. eexists. split; [reflexivity|].
  split; [exact Sp|]. split; [exact Sn|]. split; [exact Nm|].
  split; [|split; [|split]].
  - cbn [SpeakerObj.add_utterance SpeakerObj.set_utterances SpeakerObj.utterances].
    rewrite Nm. apply EntryFacts.getitem_setitem.
  - cbn [File.put File.self]. rewrite OrderingFacts.register_utterances.
    cbn [File.store File.set_utterances File.utterances].
    rewrite Nm. apply EntryFacts.getitem_setitem.
  - cbn [File.put File.self]. rewrite OrderingFacts.register_ordering.
    cbn [File.store File.set_utterances File.speaker_ordering].
    unfold SpeakerObj.name.
    destruct (File.mem (Speaker.name (SpeakerObj.fields speaker))
                (File.ordering_names (File.speaker_ordering (File.self st)))) eqn:M;
      [exact M|].
    unfold File.ordering_names. rewrite map_app.
    fold (File.ordering_names (File.speaker_ordering (File.self st))).
    rewrite OrderingFacts.mem_app. cbn [map File.tier_key File.mem existsb].
    rewrite String.eqb_refl. now rewrite orb_true_r.
  - reflexivity.
Qed.

Lemma utterance_set_speaker_witness :
  exists u' speaker' st',
    SpeakerObj.set_speaker (SpeakerObj.init "bob") Examples.utt_05_15
      (File.start Examples.two_speaker_file) = (Ok (u', speaker'), st')
    /\ Utterance.speaker u' = Some Examples.bob
    /\ Utterance.name u' = "alice-rec-0-5-1-5".
Proof.
  destruct (utterance_set_speaker (SpeakerObj.init "bob") Examples.utt_05_15
              (File.start Examples.two_speaker_file) eq_refl)
    as (u' & speaker' & st' & S & Sp & _ & Nm & _).
  exists u', speaker', st'. split; [exact S|]. split; [exact Sp | exact Nm].
Defined.

(** ** [parse_file] on a plain transcript, and utterances of a speaker *)

Module ParseFacts.

Import StrFacts PathFacts InitFacts FileFacts SaveFacts.

Section Facts.
Context {num : Type} `{PyNumber num}.
Variable env : File.Env num.

(** The first utterance of a file that has none, in any state. *)
Lemma add_only_utterance (u : Utterance.t num) (r : Speaker.t) (st : File.St num) :
  File.is_new (File.self st) = true ->
  Utterance.speaker u = Some r ->
  File.add_utterance u st
  = (Ok tt, File.put (File.holding [Some r] (File.keyed [u]) (File.self st)) st).
Proof.
  intros New S. destruct st as [f tr p].
  destruct f as [n wp tp rp wi wf so us al]. unfold File.is_new in New.
  cbn in New. destruct so; [|discriminate New]. destruct us; [|discriminate New].
  now rewrite (add_utterance_run u r _ S).
Qed.

(** [load_text] on a plain transcript, in any state. *)
Lemma load_text_lab (r : Speaker.t) (sc : option (nat -> bool)) (st : File.St num)
    (p text : string) :
  File.is_new (File.self st) = true ->
  File.text_type env (File.self st) = Some "lab" ->
  File.text_path (File.self st) = Some p ->
  File.helper_load_text env p = Some text ->
  File.load_text env (Some r) sc st
  = (Ok tt,
     File.put
       (File.holding [Some r]
          (File.keyed
             [Utterance.init r (File.name (File.self st)) None None (Some 0%Z)
                (Some (PyStr.join " " (File.parse_transcription env text)))])
          (File.self st)) st).
Proof.
  intros New Ty P L. unfold File.load_text.
  unfold File.bind at 1. unfold File.get_self at 1.
  unfold File.text_type_is at 1. rewrite Ty. rewrite String.eqb_refl.
  unfold File.bind at 1. unfold File.the_text_path. rewrite P.
  unfold File.ret at 1. rewrite L.
  unfold File.bind at 1. unfold File.need_speaker, File.ret at 1.
  now apply add_only_utterance.
Qed.

(** The text type of [dir/stem.ext]. *)
Lemma text_type_of_path (f : File.t num) (dir stem ext : string) :
  PyStr.free_of "/" stem = true ->
  PyStr.all_chars (fun a => PyStr.chr_eqb a ".") stem = false ->
  PyStr.free_of "/" ext = true ->
  PyStr.free_of "." ext = true ->
  File.text_path f = Some (dir ++ "/" ++ stem ++ "." ++ ext) ->
  File.path_exists env (dir ++ "/" ++ stem ++ "." ++ ext) = true ->
  File.text_type env f
  = Some (if String.eqb (PyStr.lower ext) "textgrid" then "textgrid" else "lab").
Proof.
  intros Ss Sd Es Ed P E. unfold File.text_type, File.has_text_file.
  rewrite P, E.
  destruct (splitext_path dir stem ext Ss Sd Es Ed) as (S & _).
  rewrite S. cbn [snd]. rewrite lower_extension.
  now destruct (String.eqb (PyStr.lower ext) "textgrid").
Qed.

End Facts.

End ParseFacts.

(** X25.  [parse_file] on a sound file and a plain transcript that lie in
    the directory of their speaker, with no speaker attribution policy:
    the file is named after the sound file, its audio information is read
    once, and it holds one utterance, without boundaries, of the speaker
    named after the directory, whose text is the words of the transcript
    joined by single spaces.  Without any path [parse_file] raises
    [CorpusError] and does nothing. *)
Theorem parse_file_plain_transcript :
  forall {num : Type} `{PyNumber num} (env : File.Env num)
         (dir speaker stem sound_ext text_ext text file_name relative_path : string)
         (policy : speaker_characters) (stop_check : option (nat -> bool)),
    speaker <> "" ->
    PyStr.free_of "/" speaker = true ->
    PyStr.free_of "/" stem = true ->
    PyStr.all_chars (fun a => PyStr.chr_eqb a ".") stem = false ->
    PyStr.free_of "/" sound_ext = true ->
    PyStr.free_of "." sound_ext = true ->
    PyStr.free_of "/" text_ext = true ->
    PyStr.free_of "." text_ext = true ->
    String.eqb (PyStr.lower text_ext) "textgrid" = false ->
    is_set policy = false ->
    let wav := dir ++ "/" ++ speaker ++ "/" ++ stem ++ "." ++ sound_ext in
    let lab := dir ++ "/" ++ speaker ++ "/" ++ stem ++ "." ++ text_ext in
    File.path_exists env wav = true ->
    File.path_exists env lab = true ->
    File.helper_load_text env lab = Some text ->
    let u := Utterance.init (Speaker.init speaker) stem None None (Some 0%Z)
               (Some (PyStr.join " " (File.parse_transcription env text))) in
    parse_file env file_name (Some wav) (Some lab) relative_path policy stop_check
    = (Ok {| File.name := stem;
             File.wav_path := Some wav;
             File.text_path := Some lab;
             File.relative_path := Some relative_path;
             File.wav_info := Some (File.get_wav_info env wav);
             File.waveform := None;
             File.speaker_ordering := [Some (Speaker.init speaker)];
             File.utterances := [(Utterance.name u, u)];
             File.aligned := false |},
       [File.GetWavInfo wav])
    /\ parse_file env file_name None None relative_path policy stop_check
       = (Err (CorpusError "File objects must have either a wav_path or text_path"), []).
Proof.
  intros num N env dir speaker stem se te text file_name rel policy sc
         Sne Ss Ts Td Ses Sed Tes Ted Lab Unset wav lab Ew El Load u.
  split; [|reflexivity].
  assert (Aw : dir ++ "/" ++ speaker ++ "/" ++ stem ++ "." ++ se
               = (dir ++ "/" ++ speaker) ++ "/" ++ stem ++ "." ++ se)
    by (now rewrite !StrFacts.append_assoc).
  assert (Al : dir ++ "/" ++ speaker ++ "/" ++ stem ++ "." ++ te
               = (dir ++ "/" ++ speaker) ++ "/" ++ stem ++ "." ++ te)
    by (now rewrite !StrFacts.append_assoc).
  destruct (InitFacts.splitext_path (dir ++ "/" ++ speaker) stem se Ts Td Ses Sed)
    as (_ & B & S).
  rewrite <- Aw in B. fold wav in B.
  unfold parse_file, File.init. rewrite B, S. cbn [fst].
  set (f := File.mk (num := num) stem (Some wav) (Some lab) (Some rel) None None []
              Collection.empty false).
  assert (Ty : forall f' : File.t num,
             File.text_path f' = Some lab -> File.text_type env f' = Some "lab").
  { intros f' P.
    rewrite (ParseFacts.text_type_of_path env f' (dir ++ "/" ++ speaker) stem te
               Ts Td Tes Ted).
    - now rewrite Lab.
    - now rewrite <- Al.
    - rewrite <- Al. exact El. }
  assert (F : PyStr.free_of PosixPath.sep (stem ++ "." ++ se) = true).
  { unfold PosixPath.sep. rewrite InitFacts.free_of_app, Ts. cbn. exact Ses. }
  destruct (PathFacts.parent_directory dir speaker (stem ++ "." ++ se) Sne Ss F)
    as [Dn Bn].
  unfold parse_into. unfold File.bind at 1. unfold File.get_self at 1.
  cbn [File.start File.self].
  assert (Hs : File.has_sound_file env f = true) by exact Ew.
  unfold root_of. rewrite Hs. cbn [File.lift].
  unfold File.bind at 1. unfold File.ret at 1.
  unfold File.bind at 1 2. unfold File.emit at 1. cbn [File.set_self File.trace
    File.polls File.self File.start app].
  fold wav in Dn. rewrite Dn.
  unfold speaker_name_for. rewrite Unset. cbn [negb File.lift].
  unfold File.bind at 1. unfold File.ret at 1.
  unfold File.bind at 1. unfold File.get_self at 1. cbn [File.self].
  rewrite Bn.
  unfold File.text_type_is.
  rewrite (Ty (File.set_wav_info (Some (File.get_wav_info env wav)) f) eq_refl).
  change (false || negb (String.eqb "lab" "textgrid")) with true. cbv iota.
  rewrite (ParseFacts.load_text_lab env (Speaker.init speaker) sc _ lab text);
    [reflexivity | reflexivity | now apply Ty | reflexivity | exact Load].
Qed.

Lemma parse_file_plain_transcript_witness :
  Examples.speakers_of
    (parse_file (Examples.env_of []) "rec" (Some "/corpus/spk7/rec.wav")
       (Some "/corpus/spk7/rec.lab") "" (Characters 0) None)
  = ["spk7"]
  /\ snd (parse_file (Examples.env_of []) "rec" (Some "/corpus/spk7/rec.wav")
            (Some "/corpus/spk7/rec.lab") "" (Characters 0) None)
     = [File.GetWavInfo "/corpus/spk7/rec.wav"].
Proof.
  destruct (parse_file_plain_transcript (Examples.env_of []) "/corpus" "spk7" "rec"
              "wav" "lab" "hello world" "rec" "" (Characters 0) None
              ltac:(discriminate) eq_refl eq_refl eq_refl eq_refl eq_refl eq_refl
              eq_refl eq_refl eq_refl eq_refl eq_refl eq_refl) as [P _].
  cbn [append] in P. rewrite P. split; reflexivity.
Defined.

(** X26.  Utterances of a speaker.  [Speaker.add_utterance] files the
    utterance under its identifier, so that the speaker has one utterance
    more when the identifier is new and as many as before when it replaces
    an utterance of that identifier.  [Speaker.delete_utterance] raises
    [KeyError] with the identifier of an utterance the speaker does not
    hold, and deleting an utterance right after adding it under a new
    identifier gives the speaker back as it was. *)
Theorem speaker_add_then_delete :
  forall {num : Type} `{PyNumber num} (utterance : Utterance.t num)
         (s : SpeakerObj.t num),
    Collection.getitem (Utterance.name utterance)
      (SpeakerObj.utterances (SpeakerObj.add_utterance utterance s)) = Ok utterance
    /\ SpeakerObj.num_utterances (SpeakerObj.add_utterance utterance s)
       = (if Collection.contains (Utterance.name utterance) (SpeakerObj.utterances s)
          then SpeakerObj.num_utterances s
          else S (SpeakerObj.num_utterances s))
    /\ (Collection.contains (Utterance.name utterance) (SpeakerObj.utterances s) = false ->
        SpeakerObj.delete_utterance utterance s
        = Err (KeyError (Utterance.name utterance))
        /\ SpeakerObj.delete_utterance utterance (SpeakerObj.add_utterance utterance s)
           = Ok s).
Proof.
  intros num N u s. split; [|split].
  - apply EntryFacts.getitem_setitem.
  - unfold SpeakerObj.num_utterances, SpeakerObj.add_utterance.
    cbn [SpeakerObj.set_utterances SpeakerObj.utterances].
    unfold Collection.len.
    rewrite <- (length_map fst (Collection.setitem _ _ _)).
    change (map fst (Collection.setitem (Utterance.name u) u (SpeakerObj.utterances s)))
      with (Collection.keys
              (Collection.setitem (Utterance.name u) u (SpeakerObj.utterances s))).
    rewrite CollectionFacts.keys_setitem.
    destruct (Collection.contains (Utterance.name u) (SpeakerObj.utterances s));
      unfold Collection.keys.
    + now rewrite length_map.
    + rewrite length_app, length_map. cbn. lia.
  - intros C. split.
    + unfold SpeakerObj.delete_utterance, Collection.delitem. now rewrite C.
    + unfold SpeakerObj.delete_utterance, Collection.delitem, SpeakerObj.add_utterance.
      cbn [SpeakerObj.set_utterances SpeakerObj.utterances].
      rewrite CollectionFacts.contains_setitem.
      rewrite SaveFacts.contains_keys in C.
      rewrite (SaveFacts.setitem_fresh _ _ _ C).
      assert (R : forall c : Collection.t (Utterance.t num),
                 File.mem (Utterance.name u) (Collection.keys c) = false ->
                 Collection.remove (Utterance.name u) (c ++ [(Utterance.name u, u)])%list
                 = c).
      { induction c as [|[k v] c IH]; cbn.
        - now rewrite String.eqb_refl.
        - intros M. apply orb_false_iff in M as [E M].
          rewrite String.eqb_sym in E. rewrite E. now rewrite IH. }
      rewrite (R _ C). now destruct s.
Qed.

Lemma speaker_add_then_delete_witness :
  SpeakerObj.delete_utterance Examples.utt_bob
    (SpeakerObj.add_utterance Examples.utt_bob
       (SpeakerObj.add_utterance Examples.utt_05_15 (SpeakerObj.init "bob")))
  = Ok (SpeakerObj.add_utterance Examples.utt_05_15 (SpeakerObj.init "bob")).
Proof.
  exact (proj2 (proj2 (proj2
           (speaker_add_then_delete Examples.utt_bob
              (SpeakerObj.add_utterance Examples.utt_05_15 (SpeakerObj.init "bob"))))
           eq_refl)).
Defined.
